(** * dhclient: the DHCPv4 client state machine of client/dhclient.c

    A shallow embedding of the packet handlers ([dhcpoffer], [dhcpack],
    [dhcpnak]), of the commit path ([bind_lease]), of the timer driven
    state functions ([state_init], [state_selecting], [state_bound],
    [state_panic], [send_discover], [send_request], [send_release]) and of
    the lease database writer ([write_client_lease],
    [rewrite_client_leases]), followed by the properties of the
    specification that are about them.

    C integers are integers of [Z] with the wrap-around of their width
    written out; pointers to clients are indices into the interface list;
    a lease carries the address of its allocation as [l_ptr]; the
    environment (clock, [random()], exit status of the client script,
    outcome of file operations, allocator) is part of the [world]. *)

From Stdlib Require Import String Ascii ZArith Lia List Bool.
Import ListNotations.
Local Open Scope Z_scope.

Set Implicit Arguments.

(** ** Platform constants

    [TIME] is [time_t]; its width, [TIME_MAX] and [MIN_LEASE_WRITE] come
    from headers (includes/dhcpd.h, the C library) that are not part of
    client/dhclient.c, so the development is parametric in them. *)

Class Platform := {
  time_bits : Z;        (* width of time_t in bits *)
  TIME_MAX : Z;         (* the saturation value used by dhclient.c *)
  MIN_LEASE_WRITE : Z   (* minimum number of seconds between lease writes *)
}.

(** What the theorems need of a platform: [time_t] holds at least 32 bits
    and [TIME_MAX] is a positive value of the type. *)
Definition platform_ok (P : Platform) : Prop :=
  32 <= time_bits /\ 0 < TIME_MAX /\ TIME_MAX <= 2 ^ (time_bits - 1) - 1.

(** Two's complement value of [z] in a signed integer of [bits] bits. *)
Definition wrap (bits z : Z) : Z :=
  (z + 2 ^ (bits - 1)) mod 2 ^ bits - 2 ^ (bits - 1).

Definition int_of (z : Z) : Z := wrap 32 z.          (* conversion to int *)
Definition u16_of (z : Z) : Z := z mod 65536.        (* conversion to u_int16_t *)
Definition u32_of (z : Z) : Z := z mod 4294967296.   (* conversion to u_int32_t *)

Section Time.
Context {P : Platform}.

Definition time_of (z : Z) : Z := wrap time_bits z.  (* conversion to TIME *)
Definition tadd (a b : Z) : Z := time_of (a + b).
Definition tsub (a b : Z) : Z := time_of (a - b).
Definition tmul (a b : Z) : Z := time_of (a * b).
(* C division and remainder truncate towards zero. *)
Definition tdiv (a b : Z) : Z := time_of (Z.quot a b).
Definition trem (a b : Z) : Z := time_of (Z.rem a b).
End Time.

(** ** Data model *)

Record timeval := { tv_sec : Z; tv_usec : Z }.

(** [struct iaddr]: [len] is the length of the list, [iabuf] its bytes. *)
Definition iaddr := list Z.
Definition iaddr_broadcast : iaddr := [255; 255; 255; 255].
Definition iaddr_any : iaddr := [0; 0; 0; 0].

Fixpoint bytes_eqb (a b : list Z) : bool :=
  match a, b with
  | [], [] => true
  | x :: a', y :: b' => (x =? y) && bytes_eqb a' b'
  | _, _ => false
  end.

(** [memcmp (a, b, n) == 0]: the first [n] bytes agree.  Reading past the
    end of either buffer is not represented: a missing byte differs. *)
Definition memcmp_eq (a b : list Z) (n : Z) : bool :=
  let k := Z.to_nat n in
  (Nat.leb k (length a)) && (Nat.leb k (length b)) &&
  bytes_eqb (firstn k a) (firstn k b).

(** Option codes of the DHCP universe used here (RFC 2132). *)
Definition DHO_DHCP_REQUESTED_ADDRESS : Z := 50.
Definition DHO_DHCP_LEASE_TIME : Z := 51.
Definition DHO_DHCP_OPTION_OVERLOAD : Z := 52.
Definition DHO_DHCP_MESSAGE_TYPE : Z := 53.
Definition DHO_DHCP_SERVER_IDENTIFIER : Z := 54.
Definition DHO_DHCP_PARAMETER_REQUEST_LIST : Z := 55.
Definition DHO_DHCP_RENEWAL_TIME : Z := 58.
Definition DHO_DHCP_REBINDING_TIME : Z := 59.

Definition BOOTREQUEST : Z := 1.
Definition BOOTREPLY : Z := 2.
Definition BOOTP_BROADCAST : Z := 32768.
Definition DHCP_SNAME_LEN : nat := 64.
Definition DHCP_FILE_LEN : nat := 128.

Definition DHCPDISCOVER : Z := 1.
Definition DHCPOFFER : Z := 2.
Definition DHCPREQUEST : Z := 3.
Definition DHCPDECLINE : Z := 4.
Definition DHCPACK : Z := 5.
Definition DHCPNAK : Z := 6.
Definition DHCPRELEASE : Z := 7.

(** An option cache holds data or an expression; [None] stands for a
    cache whose evaluation fails.  An option state maps codes of the DHCP
    universe to caches. *)
Definition option_cache := option (list Z).
Definition option_state := list (Z * option_cache).

Fixpoint lookup_option (code : Z) (os : option_state) : option option_cache :=
  match os with
  | [] => None
  | (c, oc) :: rest => if c =? code then Some oc else lookup_option code rest
  end.

Definition evaluate_option_cache (oc : option_cache) : option (list Z) := oc.

Fixpoint delete_option (code : Z) (os : option_state) : option_state :=
  match os with
  | [] => []
  | (c, oc) :: rest =>
      if c =? code then delete_option code rest
      else (c, oc) :: delete_option code rest
  end.

Definition save_option (code : Z) (oc : option_cache) (os : option_state)
  : option_state := (code, oc) :: delete_option code os.

(** Modelled from the spec: [getULong] of common/convert.c is not part of
    this source file; the options it reads are the 32-bit times of the
    wire format of section 4.1 (RFC 2132), most significant byte first. *)
Definition getULong (d : list Z) : Z :=
  match d with
  | b0 :: b1 :: b2 :: b3 :: _ =>
      u32_of ((b0 mod 256) * 16777216 + (b1 mod 256) * 65536
              + (b2 mod 256) * 256 + b3 mod 256)
  | _ => 0
  end.

Inductive dhcp_state :=
| S_REBOOTING | S_INIT | S_SELECTING | S_REQUESTING | S_BOUND
| S_RENEWING | S_REBINDING | S_DECLINING | S_STOPPED.

Definition state_eqb (a b : dhcp_state) : bool :=
  match a, b with
  | S_REBOOTING, S_REBOOTING | S_INIT, S_INIT | S_SELECTING, S_SELECTING
  | S_REQUESTING, S_REQUESTING | S_BOUND, S_BOUND | S_RENEWING, S_RENEWING
  | S_REBINDING, S_REBINDING | S_DECLINING, S_DECLINING
  | S_STOPPED, S_STOPPED => true
  | _, _ => false
  end.

(** [struct string_list *]: the list that starts at the node pointed to;
    [[]] is the null pointer. *)
Definition string_list := list string.

(** [struct client_lease]; [l_ptr] is the address of the structure. *)
Record client_lease := {
  l_ptr : nat;
  expiry : Z;
  renewal : Z;
  rebind : Z;
  address : iaddr;
  next_srv_addr : iaddr;
  server_name : option (list Z);
  filename : option (list Z);
  l_medium : string_list;
  is_static : bool;
  is_bootp : bool;
  l_options : option_state
}.

Definition set_times (e r b : Z) (l : client_lease) : client_lease :=
  {| l_ptr := l_ptr l; expiry := e; renewal := r; rebind := b;
     address := address l; next_srv_addr := next_srv_addr l;
     server_name := server_name l; filename := filename l;
     l_medium := l_medium l; is_static := is_static l;
     is_bootp := is_bootp l; l_options := l_options l |}.

Definition set_expiry (e : Z) (l : client_lease) := set_times e (renewal l) (rebind l) l.
Definition set_renewal (r : Z) (l : client_lease) := set_times (expiry l) r (rebind l) l.
Definition set_rebind (b : Z) (l : client_lease) := set_times (expiry l) (renewal l) b l.

Definition set_l_medium (m : string_list) (l : client_lease) : client_lease :=
  {| l_ptr := l_ptr l; expiry := expiry l; renewal := renewal l;
     rebind := rebind l; address := address l;
     next_srv_addr := next_srv_addr l; server_name := server_name l;
     filename := filename l; l_medium := m; is_static := is_static l;
     is_bootp := is_bootp l; l_options := l_options l |}.

Definition set_is_bootp (b : bool) (l : client_lease) : client_lease :=
  {| l_ptr := l_ptr l; expiry := expiry l; renewal := renewal l;
     rebind := rebind l; address := address l;
     next_srv_addr := next_srv_addr l; server_name := server_name l;
     filename := filename l; l_medium := l_medium l; is_static := is_static l;
     is_bootp := b; l_options := l_options l |}.

(** [struct dhcp_packet], the fixed header; the option area of a packet
    built by the client is kept as the option state it is made from. *)
Record dhcp_packet := {
  op : Z; htype : Z; hlen : Z; hops : Z; p_xid : Z; p_secs : Z; flags : Z;
  ciaddr : iaddr; yiaddr : iaddr; siaddr : iaddr; p_giaddr : iaddr;
  chaddr : list Z; sname : list Z; file : list Z;
  p_options : option_state
}.

Definition packet_zero : dhcp_packet :=
  {| op := 0; htype := 0; hlen := 0; hops := 0; p_xid := 0; p_secs := 0;
     flags := 0; ciaddr := iaddr_any; yiaddr := iaddr_any;
     siaddr := iaddr_any; p_giaddr := iaddr_any; chaddr := [];
     sname := []; file := []; p_options := [] |}.

Definition set_p_secs (s : Z) (p : dhcp_packet) : dhcp_packet :=
  {| op := op p; htype := htype p; hlen := hlen p; hops := hops p;
     p_xid := p_xid p; p_secs := s; flags := flags p; ciaddr := ciaddr p;
     yiaddr := yiaddr p; siaddr := siaddr p; p_giaddr := p_giaddr p;
     chaddr := chaddr p; sname := sname p; file := file p;
     p_options := p_options p |}.

(** [struct packet]: a received packet; [interface] is the index of the
    receiving interface. *)
Record packet := {
  raw : dhcp_packet;
  packet_type : Z;
  options_valid : bool;
  options : option_state;
  client_addr : iaddr;
  interface : nat
}.

Record iaddrmatch := { m_addr : iaddr; m_mask : iaddr }.

(** [struct client_config], the fields the state machine reads.  The
    statements run on receipt and on transmission are functions on option
    states. *)
Record client_config := {
  initial_interval : Z;
  backoff_cutoff : Z;
  timeout : Z;
  reboot_timeout : Z;
  select_interval : Z;
  retry_interval : Z;
  media : string_list;
  required_options : list Z;
  requested_options : list Z;
  reject_list : list iaddrmatch;
  on_receipt : option_state -> option_state;
  on_transmission : option (option_state -> option_state -> option_state)
}.

Definition set_reject_list (r : list iaddrmatch) (c : client_config) :=
  {| initial_interval := initial_interval c;
     backoff_cutoff := backoff_cutoff c; timeout := timeout c;
     reboot_timeout := reboot_timeout c;
     select_interval := select_interval c;
     retry_interval := retry_interval c; media := media c;
     required_options := required_options c;
     requested_options := requested_options c; reject_list := r;
     on_receipt := on_receipt c; on_transmission := on_transmission c |}.

(** The environment of the client script as [script_init],
    [script_write_params] and [script_write_requested] assemble it. *)
Inductive env_entry :=
| Env_interface (name : string)
| Env_client (name : string)
| Env_medium (m : string)
| Env_reason (r : string)
| Env_pid
| Env_params (prefix : string) (l : client_lease)
| Env_requested (code : Z).

(** [struct client_state]. *)
Record client_state := {
  state : dhcp_state;
  xid : Z;
  active : option client_lease;
  new : option client_lease;
  alias : option client_lease;
  offered_leases : list client_lease;
  leases : list client_lease;
  medium : string_list;
  destination : iaddr;
  first_sending : Z;
  interval : Z;
  c_packet : dhcp_packet;
  secs : Z;
  requested_address : iaddr;
  sent_options : option_state;
  last_write : Z;
  env : list env_entry;
  c_name : option string;
  config : client_config
}.

Definition set_state (v : dhcp_state) (x : client_state) : client_state :=
  {| state := v; xid := xid x; active := active x; new := new x; alias :=
  alias x; offered_leases := offered_leases x; leases := leases x; medium :=
  medium x; destination := destination x; first_sending := first_sending x;
  interval := interval x; c_packet := c_packet x; secs := secs x;
  requested_address := requested_address x; sent_options := sent_options x;
  last_write := last_write x; env := env x; c_name := c_name x; config :=
  config x |}.

Definition set_xid (v : Z) (x : client_state) : client_state :=
  {| state := state x; xid := v; active := active x; new := new x; alias :=
  alias x; offered_leases := offered_leases x; leases := leases x; medium :=
  medium x; destination := destination x; first_sending := first_sending x;
  interval := interval x; c_packet := c_packet x; secs := secs x;
  requested_address := requested_address x; sent_options := sent_options x;
  last_write := last_write x; env := env x; c_name := c_name x; config :=
  config x |}.

Definition set_active (v : option client_lease) (x : client_state) : client_state :=
  {| state := state x; xid := xid x; active := v; new := new x; alias :=
  alias x; offered_leases := offered_leases x; leases := leases x; medium :=
  medium x; destination := destination x; first_sending := first_sending x;
  interval := interval x; c_packet := c_packet x; secs := secs x;
  requested_address := requested_address x; sent_options := sent_options x;
  last_write := last_write x; env := env x; c_name := c_name x; config :=
  config x |}.

Definition set_new (v : option client_lease) (x : client_state) : client_state :=
  {| state := state x; xid := xid x; active := active x; new := v; alias :=
  alias x; offered_leases := offered_leases x; leases := leases x; medium :=
  medium x; destination := destination x; first_sending := first_sending x;
  interval := interval x; c_packet := c_packet x; secs := secs x;
  requested_address := requested_address x; sent_options := sent_options x;
  last_write := last_write x; env := env x; c_name := c_name x; config :=
  config x |}.

Definition set_offered_leases (v : list client_lease) (x : client_state) : client_state :=
  {| state := state x; xid := xid x; active := active x; new := new x; alias
  := alias x; offered_leases := v; leases := leases x; medium := medium x;
  destination := destination x; first_sending := first_sending x; interval
  := interval x; c_packet := c_packet x; secs := secs x; requested_address
  := requested_address x; sent_options := sent_options x; last_write :=
  last_write x; env := env x; c_name := c_name x; config := config x |}.

Definition set_leases (v : list client_lease) (x : client_state) : client_state :=
  {| state := state x; xid := xid x; active := active x; new := new x; alias
  := alias x; offered_leases := offered_leases x; leases := v; medium :=
  medium x; destination := destination x; first_sending := first_sending x;
  interval := interval x; c_packet := c_packet x; secs := secs x;
  requested_address := requested_address x; sent_options := sent_options x;
  last_write := last_write x; env := env x; c_name := c_name x; config :=
  config x |}.

Definition set_medium (v : string_list) (x : client_state) : client_state :=
  {| state := state x; xid := xid x; active := active x; new := new x; alias
  := alias x; offered_leases := offered_leases x; leases := leases x; medium
  := v; destination := destination x; first_sending := first_sending x;
  interval := interval x; c_packet := c_packet x; secs := secs x;
  requested_address := requested_address x; sent_options := sent_options x;
  last_write := last_write x; env := env x; c_name := c_name x; config :=
  config x |}.

Definition set_destination (v : iaddr) (x : client_state) : client_state :=
  {| state := state x; xid := xid x; active := active x; new := new x; alias
  := alias x; offered_leases := offered_leases x; leases := leases x; medium
  := medium x; destination := v; first_sending := first_sending x; interval
  := interval x; c_packet := c_packet x; secs := secs x; requested_address
  := requested_address x; sent_options := sent_options x; last_write :=
  last_write x; env := env x; c_name := c_name x; config := config x |}.

Definition set_first_sending (v : Z) (x : client_state) : client_state :=
  {| state := state x; xid := xid x; active := active x; new := new x; alias
  := alias x; offered_leases := offered_leases x; leases := leases x; medium
  := medium x; destination := destination x; first_sending := v; interval :=
  interval x; c_packet := c_packet x; secs := secs x; requested_address :=
  requested_address x; sent_options := sent_options x; last_write :=
  last_write x; env := env x; c_name := c_name x; config := config x |}.

Definition set_interval (v : Z) (x : client_state) : client_state :=
  {| state := state x; xid := xid x; active := active x; new := new x; alias
  := alias x; offered_leases := offered_leases x; leases := leases x; medium
  := medium x; destination := destination x; first_sending := first_sending
  x; interval := v; c_packet := c_packet x; secs := secs x;
  requested_address := requested_address x; sent_options := sent_options x;
  last_write := last_write x; env := env x; c_name := c_name x; config :=
  config x |}.

Definition set_c_packet (v : dhcp_packet) (x : client_state) : client_state :=
  {| state := state x; xid := xid x; active := active x; new := new x; alias
  := alias x; offered_leases := offered_leases x; leases := leases x; medium
  := medium x; destination := destination x; first_sending := first_sending
  x; interval := interval x; c_packet := v; secs := secs x;
  requested_address := requested_address x; sent_options := sent_options x;
  last_write := last_write x; env := env x; c_name := c_name x; config :=
  config x |}.

Definition set_secs (v : Z) (x : client_state) : client_state :=
  {| state := state x; xid := xid x; active := active x; new := new x; alias
  := alias x; offered_leases := offered_leases x; leases := leases x; medium
  := medium x; destination := destination x; first_sending := first_sending
  x; interval := interval x; c_packet := c_packet x; secs := v;
  requested_address := requested_address x; sent_options := sent_options x;
  last_write := last_write x; env := env x; c_name := c_name x; config :=
  config x |}.

Definition set_requested_address (v : iaddr) (x : client_state) : client_state :=
  {| state := state x; xid := xid x; active := active x; new := new x; alias
  := alias x; offered_leases := offered_leases x; leases := leases x; medium
  := medium x; destination := destination x; first_sending := first_sending
  x; interval := interval x; c_packet := c_packet x; secs := secs x;
  requested_address := v; sent_options := sent_options x; last_write :=
  last_write x; env := env x; c_name := c_name x; config := config x |}.

Definition set_sent_options (v : option_state) (x : client_state) : client_state :=
  {| state := state x; xid := xid x; active := active x; new := new x; alias
  := alias x; offered_leases := offered_leases x; leases := leases x; medium
  := medium x; destination := destination x; first_sending := first_sending
  x; interval := interval x; c_packet := c_packet x; secs := secs x;
  requested_address := requested_address x; sent_options := v; last_write :=
  last_write x; env := env x; c_name := c_name x; config := config x |}.

Definition set_last_write (v : Z) (x : client_state) : client_state :=
  {| state := state x; xid := xid x; active := active x; new := new x; alias
  := alias x; offered_leases := offered_leases x; leases := leases x; medium
  := medium x; destination := destination x; first_sending := first_sending
  x; interval := interval x; c_packet := c_packet x; secs := secs x;
  requested_address := requested_address x; sent_options := sent_options x;
  last_write := v; env := env x; c_name := c_name x; config := config x |}.

Definition set_env (v : list env_entry) (x : client_state) : client_state :=
  {| state := state x; xid := xid x; active := active x; new := new x; alias
  := alias x; offered_leases := offered_leases x; leases := leases x; medium
  := medium x; destination := destination x; first_sending := first_sending
  x; interval := interval x; c_packet := c_packet x; secs := secs x;
  requested_address := requested_address x; sent_options := sent_options x;
  last_write := last_write x; env := v; c_name := c_name x; config := config
  x |}.

Definition set_config (v : client_config) (x : client_state) : client_state :=
  {| state := state x; xid := xid x; active := active x; new := new x; alias
  := alias x; offered_leases := offered_leases x; leases := leases x; medium
  := medium x; destination := destination x; first_sending := first_sending
  x; interval := interval x; c_packet := c_packet x; secs := secs x;
  requested_address := requested_address x; sent_options := sent_options x;
  last_write := last_write x; env := env x; c_name := c_name x; config := v
  |}.

(** [struct interface_info]: [hw_hlen] and [hw_hbuf] are [hw_address.hlen]
    and [hw_address.hbuf]; [client] is the list of client states hanging
    off the interface. *)
Record interface_info := {
  if_name : string;
  hw_hlen : Z;
  hw_hbuf : list Z;
  unicast_unconfigured : bool;   (* can_receive_unicast_unconfigured *)
  client : list client_state
}.

Definition set_client (v : list client_state) (x : interface_info)
  : interface_info :=
  {| if_name := if_name x; hw_hlen := hw_hlen x; hw_hbuf := hw_hbuf x;
     unicast_unconfigured := unicast_unconfigured x; client := v |}.

(** A pointer to a client state: the list its interface is on
    ([dummy_interfaces] or [interfaces]), the index of the interface and
    the index in the interface's client list. *)
Record cref := { r_dummy : bool; r_if : nat; r_cl : nat }.

(** The [n]th client of the configured interface [i]. *)
Definition live (i n : nat) : cref :=
  {| r_dummy := false; r_if := i; r_cl := n |}.

(** The functions the dispatcher can be asked to call back. *)
Inductive callback :=
| CB_state_init | CB_state_selecting | CB_state_bound
| CB_send_discover | CB_send_request | CB_state_reboot.

Definition callback_eqb (a b : callback) : bool :=
  match a, b with
  | CB_state_init, CB_state_init | CB_state_selecting, CB_state_selecting
  | CB_state_bound, CB_state_bound | CB_send_discover, CB_send_discover
  | CB_send_request, CB_send_request
  | CB_state_reboot, CB_state_reboot => true
  | _, _ => false
  end.

(** [struct timeout] of the dispatcher. *)
Record timeout_t := { t_when : timeval; t_func : callback; t_what : cref }.

(** What [send_packet] is handed. *)
Record sent_packet := {
  s_via_fallback : bool;
  s_interface : nat;
  s_packet : dhcp_packet;
  s_from : iaddr;
  s_to : iaddr
}.

(** A record of the lease database. *)
Inductive db_entry :=
| DB_duid (d : list Z)
| DB_lease (ifname : string) (cname : option string) (l : client_lease).

(** The process: its globals, its environment and what it has done to
    the outside so far.

    - [rand_src], [rand_pos]: the values [random()] returns, and how many
      were drawn;
    - [script_src], [script_pos]: exit status of each run of the client
      script and the clock read after it;
    - [dmalloc_ok], [fopen_ok], [fprintf_ok], [fflush_ok], [fsync_ok]:
      whether allocation and the operations on the lease file succeed;
    - [scripts]: environments the script was run with, latest first;
    - [sent]: packets handed to [send_packet], latest first;
    - [freed]: addresses of the leases given to [destroy_client_lease];
    - [rewrites]: how many times [rewrite_client_leases] has run;
    - [heap_next]: the address of the next lease allocated. *)
Record world := {
  interfaces : list interface_info;
  dummy_interfaces : list interface_info;
  cur_tv : timeval;
  timeouts : list timeout_t;
  leaseFile : option (list db_entry);
  leases_written : Z;
  default_duid : list Z;
  giaddr : iaddr;
  fallback_interface : bool;
  onetry : bool;
  decline_wait_time : Z;
  rand_src : nat -> Z;
  rand_pos : nat;
  script_src : nat -> Z * timeval;
  script_pos : nat;
  dmalloc_ok : bool;
  fopen_ok : bool;
  fprintf_ok : bool;
  fflush_ok : bool;
  fsync_ok : bool;
  scripts : list (list env_entry);
  sent : list sent_packet;
  freed : list nat;
  rewrites : nat;
  heap_next : nat
}.

Definition set_interfaces (v : list interface_info) (x : world) : world :=
  {| interfaces := v; dummy_interfaces := dummy_interfaces x; cur_tv :=
  cur_tv x; timeouts := timeouts x; leaseFile := leaseFile x; leases_written
  := leases_written x; default_duid := default_duid x; giaddr := giaddr x;
  fallback_interface := fallback_interface x; onetry := onetry x;
  decline_wait_time := decline_wait_time x; rand_src := rand_src x; rand_pos
  := rand_pos x; script_src := script_src x; script_pos := script_pos x;
  dmalloc_ok := dmalloc_ok x; fopen_ok := fopen_ok x; fprintf_ok :=
  fprintf_ok x; fflush_ok := fflush_ok x; fsync_ok := fsync_ok x; scripts :=
  scripts x; sent := sent x; freed := freed x; rewrites := rewrites x;
  heap_next := heap_next x |}.

Definition set_dummy_interfaces (v : list interface_info) (x : world) : world :=
  {| interfaces := interfaces x; dummy_interfaces := v; cur_tv := cur_tv x;
  timeouts := timeouts x; leaseFile := leaseFile x; leases_written :=
  leases_written x; default_duid := default_duid x; giaddr := giaddr x;
  fallback_interface := fallback_interface x; onetry := onetry x;
  decline_wait_time := decline_wait_time x; rand_src := rand_src x; rand_pos
  := rand_pos x; script_src := script_src x; script_pos := script_pos x;
  dmalloc_ok := dmalloc_ok x; fopen_ok := fopen_ok x; fprintf_ok :=
  fprintf_ok x; fflush_ok := fflush_ok x; fsync_ok := fsync_ok x; scripts :=
  scripts x; sent := sent x; freed := freed x; rewrites := rewrites x;
  heap_next := heap_next x |}.

Definition set_cur_tv (v : timeval) (x : world) : world :=
  {| interfaces := interfaces x; dummy_interfaces := dummy_interfaces x;
  cur_tv := v; timeouts := timeouts x; leaseFile := leaseFile x;
  leases_written := leases_written x; default_duid := default_duid x; giaddr
  := giaddr x; fallback_interface := fallback_interface x; onetry := onetry
  x; decline_wait_time := decline_wait_time x; rand_src := rand_src x;
  rand_pos := rand_pos x; script_src := script_src x; script_pos :=
  script_pos x; dmalloc_ok := dmalloc_ok x; fopen_ok := fopen_ok x;
  fprintf_ok := fprintf_ok x; fflush_ok := fflush_ok x; fsync_ok := fsync_ok
  x; scripts := scripts x; sent := sent x; freed := freed x; rewrites :=
  rewrites x; heap_next := heap_next x |}.

Definition set_timeouts (v : list timeout_t) (x : world) : world :=
  {| interfaces := interfaces x; dummy_interfaces := dummy_interfaces x;
  cur_tv := cur_tv x; timeouts := v; leaseFile := leaseFile x;
  leases_written := leases_written x; default_duid := default_duid x; giaddr
  := giaddr x; fallback_interface := fallback_interface x; onetry := onetry
  x; decline_wait_time := decline_wait_time x; rand_src := rand_src x;
  rand_pos := rand_pos x; script_src := script_src x; script_pos :=
  script_pos x; dmalloc_ok := dmalloc_ok x; fopen_ok := fopen_ok x;
  fprintf_ok := fprintf_ok x; fflush_ok := fflush_ok x; fsync_ok := fsync_ok
  x; scripts := scripts x; sent := sent x; freed := freed x; rewrites :=
  rewrites x; heap_next := heap_next x |}.

Definition set_leaseFile (v : option (list db_entry)) (x : world) : world :=
  {| interfaces := interfaces x; dummy_interfaces := dummy_interfaces x;
  cur_tv := cur_tv x; timeouts := timeouts x; leaseFile := v; leases_written
  := leases_written x; default_duid := default_duid x; giaddr := giaddr x;
  fallback_interface := fallback_interface x; onetry := onetry x;
  decline_wait_time := decline_wait_time x; rand_src := rand_src x; rand_pos
  := rand_pos x; script_src := script_src x; script_pos := script_pos x;
  dmalloc_ok := dmalloc_ok x; fopen_ok := fopen_ok x; fprintf_ok :=
  fprintf_ok x; fflush_ok := fflush_ok x; fsync_ok := fsync_ok x; scripts :=
  scripts x; sent := sent x; freed := freed x; rewrites := rewrites x;
  heap_next := heap_next x |}.

Definition set_leases_written (v : Z) (x : world) : world :=
  {| interfaces := interfaces x; dummy_interfaces := dummy_interfaces x;
  cur_tv := cur_tv x; timeouts := timeouts x; leaseFile := leaseFile x;
  leases_written := v; default_duid := default_duid x; giaddr := giaddr x;
  fallback_interface := fallback_interface x; onetry := onetry x;
  decline_wait_time := decline_wait_time x; rand_src := rand_src x; rand_pos
  := rand_pos x; script_src := script_src x; script_pos := script_pos x;
  dmalloc_ok := dmalloc_ok x; fopen_ok := fopen_ok x; fprintf_ok :=
  fprintf_ok x; fflush_ok := fflush_ok x; fsync_ok := fsync_ok x; scripts :=
  scripts x; sent := sent x; freed := freed x; rewrites := rewrites x;
  heap_next := heap_next x |}.

Definition set_rand_pos (v : nat) (x : world) : world :=
  {| interfaces := interfaces x; dummy_interfaces := dummy_interfaces x;
  cur_tv := cur_tv x; timeouts := timeouts x; leaseFile := leaseFile x;
  leases_written := leases_written x; default_duid := default_duid x; giaddr
  := giaddr x; fallback_interface := fallback_interface x; onetry := onetry
  x; decline_wait_time := decline_wait_time x; rand_src := rand_src x;
  rand_pos := v; script_src := script_src x; script_pos := script_pos x;
  dmalloc_ok := dmalloc_ok x; fopen_ok := fopen_ok x; fprintf_ok :=
  fprintf_ok x; fflush_ok := fflush_ok x; fsync_ok := fsync_ok x; scripts :=
  scripts x; sent := sent x; freed := freed x; rewrites := rewrites x;
  heap_next := heap_next x |}.

Definition set_script_pos (v : nat) (x : world) : world :=
  {| interfaces := interfaces x; dummy_interfaces := dummy_interfaces x;
  cur_tv := cur_tv x; timeouts := timeouts x; leaseFile := leaseFile x;
  leases_written := leases_written x; default_duid := default_duid x; giaddr
  := giaddr x; fallback_interface := fallback_interface x; onetry := onetry
  x; decline_wait_time := decline_wait_time x; rand_src := rand_src x;
  rand_pos := rand_pos x; script_src := script_src x; script_pos := v;
  dmalloc_ok := dmalloc_ok x; fopen_ok := fopen_ok x; fprintf_ok :=
  fprintf_ok x; fflush_ok := fflush_ok x; fsync_ok := fsync_ok x; scripts :=
  scripts x; sent := sent x; freed := freed x; rewrites := rewrites x;
  heap_next := heap_next x |}.

Definition set_scripts (v : list (list env_entry)) (x : world) : world :=
  {| interfaces := interfaces x; dummy_interfaces := dummy_interfaces x;
  cur_tv := cur_tv x; timeouts := timeouts x; leaseFile := leaseFile x;
  leases_written := leases_written x; default_duid := default_duid x; giaddr
  := giaddr x; fallback_interface := fallback_interface x; onetry := onetry
  x; decline_wait_time := decline_wait_time x; rand_src := rand_src x;
  rand_pos := rand_pos x; script_src := script_src x; script_pos :=
  script_pos x; dmalloc_ok := dmalloc_ok x; fopen_ok := fopen_ok x;
  fprintf_ok := fprintf_ok x; fflush_ok := fflush_ok x; fsync_ok := fsync_ok
  x; scripts := v; sent := sent x; freed := freed x; rewrites := rewrites x;
  heap_next := heap_next x |}.

Definition set_sent (v : list sent_packet) (x : world) : world :=
  {| interfaces := interfaces x; dummy_interfaces := dummy_interfaces x;
  cur_tv := cur_tv x; timeouts := timeouts x; leaseFile := leaseFile x;
  leases_written := leases_written x; default_duid := default_duid x; giaddr
  := giaddr x; fallback_interface := fallback_interface x; onetry := onetry
  x; decline_wait_time := decline_wait_time x; rand_src := rand_src x;
  rand_pos := rand_pos x; script_src := script_src x; script_pos :=
  script_pos x; dmalloc_ok := dmalloc_ok x; fopen_ok := fopen_ok x;
  fprintf_ok := fprintf_ok x; fflush_ok := fflush_ok x; fsync_ok := fsync_ok
  x; scripts := scripts x; sent := v; freed := freed x; rewrites := rewrites
  x; heap_next := heap_next x |}.

Definition set_freed (v : list nat) (x : world) : world :=
  {| interfaces := interfaces x; dummy_interfaces := dummy_interfaces x;
  cur_tv := cur_tv x; timeouts := timeouts x; leaseFile := leaseFile x;
  leases_written := leases_written x; default_duid := default_duid x; giaddr
  := giaddr x; fallback_interface := fallback_interface x; onetry := onetry
  x; decline_wait_time := decline_wait_time x; rand_src := rand_src x;
  rand_pos := rand_pos x; script_src := script_src x; script_pos :=
  script_pos x; dmalloc_ok := dmalloc_ok x; fopen_ok := fopen_ok x;
  fprintf_ok := fprintf_ok x; fflush_ok := fflush_ok x; fsync_ok := fsync_ok
  x; scripts := scripts x; sent := sent x; freed := v; rewrites := rewrites
  x; heap_next := heap_next x |}.

Definition set_rewrites (v : nat) (x : world) : world :=
  {| interfaces := interfaces x; dummy_interfaces := dummy_interfaces x;
  cur_tv := cur_tv x; timeouts := timeouts x; leaseFile := leaseFile x;
  leases_written := leases_written x; default_duid := default_duid x; giaddr
  := giaddr x; fallback_interface := fallback_interface x; onetry := onetry
  x; decline_wait_time := decline_wait_time x; rand_src := rand_src x;
  rand_pos := rand_pos x; script_src := script_src x; script_pos :=
  script_pos x; dmalloc_ok := dmalloc_ok x; fopen_ok := fopen_ok x;
  fprintf_ok := fprintf_ok x; fflush_ok := fflush_ok x; fsync_ok := fsync_ok
  x; scripts := scripts x; sent := sent x; freed := freed x; rewrites := v;
  heap_next := heap_next x |}.

Definition set_heap_next (v : nat) (x : world) : world :=
  {| interfaces := interfaces x; dummy_interfaces := dummy_interfaces x;
  cur_tv := cur_tv x; timeouts := timeouts x; leaseFile := leaseFile x;
  leases_written := leases_written x; default_duid := default_duid x; giaddr
  := giaddr x; fallback_interface := fallback_interface x; onetry := onetry
  x; decline_wait_time := decline_wait_time x; rand_src := rand_src x;
  rand_pos := rand_pos x; script_src := script_src x; script_pos :=
  script_pos x; dmalloc_ok := dmalloc_ok x; fopen_ok := fopen_ok x;
  fprintf_ok := fprintf_ok x; fflush_ok := fflush_ok x; fsync_ok := fsync_ok
  x; scripts := scripts x; sent := sent x; freed := freed x; rewrites :=
  rewrites x; heap_next := v |}.

(** ** Access to the world *)

Definition config_null : client_config :=
  {| initial_interval := 0; backoff_cutoff := 0; timeout := 0;
     reboot_timeout := 0; select_interval := 0; retry_interval := 0;
     media := []; required_options := []; requested_options := [];
     reject_list := []; on_receipt := fun o => o; on_transmission := None |}.

Definition client_null : client_state :=
  {| state := S_INIT; xid := 0; active := None; new := None; alias := None;
     offered_leases := []; leases := []; medium := [];
     destination := iaddr_any; first_sending := 0; interval := 0;
     c_packet := packet_zero; secs := 0; requested_address := [];
     sent_options := []; last_write := 0; env := []; c_name := None;
     config := config_null |}.

Definition iface_null : interface_info :=
  {| if_name := EmptyString; hw_hlen := 0; hw_hbuf := [];
     unicast_unconfigured := false; client := [] |}.

Definition iface_list (d : bool) (w : world) : list interface_info :=
  if d then dummy_interfaces w else interfaces w.

Definition get_client (w : world) (r : cref) : option client_state :=
  match nth_error (iface_list (r_dummy r) w) (r_if r) with
  | Some ip => nth_error (client ip) (r_cl r)
  | None => None
  end.

(** [*client] for a client pointer [r]. *)
Definition deref (w : world) (r : cref) : client_state :=
  match get_client w r with Some c => c | None => client_null end.

(** [packet->interface] and [client->interface]. *)
Definition iface (w : world) (i : nat) : interface_info :=
  nth i (interfaces w) iface_null.

Definition iface_of (w : world) (r : cref) : interface_info :=
  nth (r_if r) (iface_list (r_dummy r) w) iface_null.

Fixpoint alter_nth {A : Type} (f : A -> A) (n : nat) (l : list A) : list A :=
  match l, n with
  | [], _ => []
  | x :: l', O => f x :: l'
  | x :: l', S n' => x :: alter_nth f n' l'
  end.

(** An assignment through the client pointer [r]. *)
Definition upd_iface_list (r : cref) (f : client_state -> client_state)
    (l : list interface_info) : list interface_info :=
  alter_nth (fun ip => set_client (alter_nth f (r_cl r) (client ip)) ip)
    (r_if r) l.

Definition upd_client (r : cref) (f : client_state -> client_state)
    (w : world) : world :=
  if r_dummy r
  then set_dummy_interfaces (upd_iface_list r f (dummy_interfaces w)) w
  else set_interfaces (upd_iface_list r f (interfaces w)) w.

Definition cref_eqb (a b : cref) : bool :=
  Bool.eqb (r_dummy a) (r_dummy b) && Nat.eqb (r_if a) (r_if b)
  && Nat.eqb (r_cl a) (r_cl b).

(** How a call ends: it returns, the process exits ([finish],
    [log_fatal]), it dereferences a null pointer or divides by zero, or
    the model ran out of fuel before the call returned. *)
Inductive outcome :=
| Running (w : world)
| Exited (status : Z) (w : world)
| Fatal (w : world)
| Crash
| OutOfFuel.

Definition and_then (o : outcome) (k : world -> outcome) : outcome :=
  match o with Running w => k w | _ => o end.

(** ** The environment *)

(** [random()] of the C library: a value in [0, 2^31 - 1]. *)
Definition random (w : world) : Z * world :=
  (rand_src w (rand_pos w) mod 2147483648, set_rand_pos (S (rand_pos w)) w).

(** [cur_time] is [cur_tv.tv_sec]. *)
Definition cur_time (w : world) : Z := tv_sec (cur_tv w).

(** Modelled from the spec: the dispatcher (common/dispatch.c) is not part
    of this source file.  Section 4.4: [add_timeout] schedules one firing,
    and scheduling the same (callback, target) replaces the prior entry;
    [cancel_timeout] removes any pending entry matching both.  The order
    of the list is not the order of firing. *)
Definition same_timer (f : callback) (r : cref) (t : timeout_t) : bool :=
  callback_eqb f (t_func t) && cref_eqb r (t_what t).

Definition cancel_timeout (f : callback) (r : cref) (w : world) : world :=
  set_timeouts (filter (fun t => negb (same_timer f r t)) (timeouts w)) w.

Definition add_timeout (tv : timeval) (f : callback) (r : cref) (w : world)
  : world :=
  set_timeouts
    ({| t_when := tv; t_func := f; t_what := r |}
       :: filter (fun t => negb (same_timer f r t)) (timeouts w)) w.

(** [send_packet]: the packet is handed to the link layer; a failure is
    only logged by the callers. *)
Definition send_packet (via_fallback : bool) (i : nat) (p : dhcp_packet)
    (from to : iaddr) (w : world) : world :=
  set_sent ({| s_via_fallback := via_fallback; s_interface := i;
               s_packet := p; s_from := from; s_to := to |} :: sent w) w.

(** ** The client script *)

Definition client_envadd (r : cref) (e : env_entry) (w : world) : world :=
  if dmalloc_ok w then upd_client r (fun c => set_env (e :: env c) c) w
  else w.

Definition script_init (r : cref) (reason : string) (medium : string_list)
    (w : world) : world :=
  let w := upd_client r (set_env []) w in
  let w := client_envadd r (Env_interface (if_name (iface_of w r))) w in
  let w := match c_name (deref w r) with
           | Some n => client_envadd r (Env_client n) w
           | None => w
           end in
  let w := match medium with
           | m :: _ => client_envadd r (Env_medium m) w
           | [] => w
           end in
  let w := client_envadd r (Env_reason reason) w in
  client_envadd r Env_pid w.

(** The variables [script_write_params] derives from a lease are kept as
    the lease and the prefix. *)
Definition script_write_params (r : cref) (prefix : string)
    (lease : client_lease) (w : world) : world :=
  client_envadd r (Env_params prefix lease) w.

Definition script_write_requested (r : cref) (w : world) : world :=
  fold_left (fun w code => client_envadd r (Env_requested code) w)
    (requested_options (config (deref w r))) w.

(** [script_go]: runs the script with the environment assembled so far,
    drops the environment, reads the clock, and returns the exit status
    (0 when the environment cannot be allocated). *)
Definition script_go (r : cref) (w : world) : Z * world :=
  if dmalloc_ok w then
    let res := script_src w (script_pos w) in
    let w := set_scripts (env (deref w r) :: scripts w) w in
    let w := set_script_pos (S (script_pos w)) w in
    let w := upd_client r (set_env []) w in
    let w := set_cur_tv (snd res) w in
    (fst res, w)
  else (0, w).

(** ** Leases *)

Definition destroy_client_lease (lease : client_lease) (w : world) : world :=
  set_freed (l_ptr lease :: freed w) w.

Definition same_lease (lease cur : client_lease) : bool :=
  Bool.eqb (is_static cur) (is_static lease) &&
  (Nat.eqb (length (address cur)) (length (address lease)) &&
   bytes_eqb (address cur) (address lease)).

(** [discard_duplicate]: the first lease of the list with the address and
    the [is_static] of [lease] is unlinked and destroyed. *)
Fixpoint discard_duplicate (lease_list : list client_lease)
    (lease : client_lease) (w : world) : list client_lease * world :=
  match lease_list with
  | [] => ([], w)
  | cur :: next =>
      if same_lease lease cur then (next, destroy_client_lease cur w)
      else let (rest, w') := discard_duplicate next lease w in
           (cur :: rest, w')
  end.

Definition add_to_tail (lease_list : list client_lease)
    (lease : option client_lease) (w : world) : list client_lease * world :=
  match lease with
  | None => (lease_list, w)
  | Some l =>
      let (rest, w') := discard_duplicate lease_list l w in
      (rest ++ [l], w')
  end.

Fixpoint until_nul (buf : list Z) : list Z :=
  match buf with
  | [] => []
  | b :: rest => if b =? 0 then [] else b :: until_nul rest
  end.

(** [packet_to_lease]: a zeroed lease that refers to the options of the
    packet, with the address fields and, unless overloaded, the server
    name and the file name of the header; then the statements of
    [on_receipt] run on the options.  The result is null when memory runs
    out.  Vendor encapsulated options live in another option space and are
    not represented. *)
Definition lease_of_packet (ptr : nat) (cfg : client_config) (pkt : packet)
  : client_lease :=
  let i := match lookup_option DHO_DHCP_OPTION_OVERLOAD (options pkt) with
           | Some oc =>
               match evaluate_option_cache oc with
               | Some (b :: _) => b
               | _ => 0
               end
           | None => 0
           end in
  {| l_ptr := ptr; expiry := 0; renewal := 0; rebind := 0;
     address := yiaddr (raw pkt); next_srv_addr := siaddr (raw pkt);
     server_name :=
       if (Z.land i 2 =? 0) && negb (hd 0 (sname (raw pkt)) =? 0)
       then Some (until_nul (firstn DHCP_SNAME_LEN (sname (raw pkt))))
       else None;
     filename :=
       if (Z.land i 1 =? 0) && negb (hd 0 (file (raw pkt)) =? 0)
       then Some (until_nul (firstn DHCP_FILE_LEN (file (raw pkt))))
       else None;
     l_medium := []; is_static := false; is_bootp := false;
     l_options := on_receipt cfg (options pkt) |}.

Definition packet_to_lease (pkt : packet) (r : cref) (w : world)
  : option client_lease * world :=
  if negb (dmalloc_ok w) then (None, w) else
  (Some (lease_of_packet (heap_next w) (config (deref w r)) pkt),
   set_heap_next (S (heap_next w)) w).

(** ** Building the packets the client sends *)

(** [make_client_options]; the RFC 4361 client identifier ([duid_v4]) is
    not represented. *)
Definition make_client_options (r : cref) (lease : option client_lease)
    (type : Z) (sid : option option_cache) (rip : option iaddr)
    (prl : option (list Z)) (w : world) : option_state * world :=
  let op : option_state := [] in
  let op := match sid with
            | Some oc => save_option DHO_DHCP_SERVER_IDENTIFIER oc op
            | None => op
            end in
  let w := upd_client r (set_requested_address
                           (match rip with Some a => a | None => [] end)) w in
  let op := match rip with
            | Some a => save_option DHO_DHCP_REQUESTED_ADDRESS (Some a) op
            | None => op
            end in
  let op := save_option DHO_DHCP_MESSAGE_TYPE (Some [type]) op in
  let op := match prl with
            | Some l => save_option DHO_DHCP_PARAMETER_REQUEST_LIST (Some l) op
            | None => op
            end in
  let op := match on_transmission (config (deref w r)) with
            | Some f =>
                f (match lease with Some l => l_options l | None => [] end) op
            | None => op
            end in
  (op, w).

(** The header every outgoing packet starts from: [memset] to zero, then
    the fields the four makers set alike. *)
Definition header (ip : interface_info) (xid fl : Z)
    (ci gi : iaddr) (ch : list Z) (op_ : option_state) : dhcp_packet :=
  {| op := BOOTREQUEST; htype := hd 0 (hw_hbuf ip); hlen := hw_hlen ip - 1;
     hops := 0; p_xid := xid; p_secs := 0; flags := fl; ciaddr := ci;
     yiaddr := iaddr_any; siaddr := iaddr_any; p_giaddr := gi;
     chaddr := ch; sname := []; file := []; p_options := op_ |}.

Definition broadcast_flag (ip : interface_info) : Z :=
  if unicast_unconfigured ip then 0 else BOOTP_BROADCAST.

Definition make_discover (r : cref) (lease : option client_lease) (w : world)
  : world :=
  let (options, w) :=
    make_client_options r lease DHCPDISCOVER None
      (match lease with Some l => Some (address l) | None => None end)
      (Some (requested_options (config (deref w r)))) w in
  let ip := iface_of w r in
  let (x, w) := random w in
  upd_client r
    (set_c_packet
       (header ip (u32_of x) (broadcast_flag ip) iaddr_any (giaddr w)
          (if 0 <? hw_hlen ip
           then firstn (Z.to_nat (hw_hlen ip - 1)) (tl (hw_hbuf ip))
           else []) options)) w.

Definition make_request (r : cref) (lease : client_lease) (w : world) : world :=
  let st := state (deref w r) in
  let oc := if state_eqb st S_REQUESTING
            then lookup_option DHO_DHCP_SERVER_IDENTIFIER (l_options lease)
            else None in
  let (options, w) :=
    make_client_options r (Some lease) DHCPREQUEST oc
      (if state_eqb st S_REQUESTING || state_eqb st S_REBOOTING
       then Some (address lease) else None)
      (Some (requested_options (config (deref w r)))) w in
  let w := upd_client r (set_sent_options options) w in
  let ip := iface_of w r in
  let owns := state_eqb st S_BOUND || state_eqb st S_RENEWING
              || state_eqb st S_REBINDING in
  upd_client r
    (set_c_packet
       (header ip (xid (deref w r))
          (if owns then 0 else broadcast_flag ip)
          (if owns then address lease else iaddr_any)
          (if negb (state_eqb st S_BOUND) && negb (state_eqb st S_RENEWING)
           then giaddr w else iaddr_any)
          (if 0 <? hw_hlen ip
           then firstn (Z.to_nat (hw_hlen ip - 1)) (tl (hw_hbuf ip))
           else []) options)) w.

Definition make_decline (r : cref) (lease : client_lease) (w : world) : world :=
  let oc := lookup_option DHO_DHCP_SERVER_IDENTIFIER (l_options lease) in
  let (options, w) :=
    make_client_options r (Some lease) DHCPDECLINE oc (Some (address lease))
      None w in
  let ip := iface_of w r in
  upd_client r
    (set_c_packet
       (header ip (xid (deref w r)) (broadcast_flag ip) iaddr_any (giaddr w)
          (firstn (Z.to_nat (hw_hlen ip)) (tl (hw_hbuf ip))) options)) w.

Definition make_release (r : cref) (lease : client_lease) (w : world) : world :=
  let oc := lookup_option DHO_DHCP_SERVER_IDENTIFIER (l_options lease) in
  let (options, w) :=
    make_client_options r (Some lease) DHCPRELEASE oc None None w in
  let ip := iface_of w r in
  let (x, w) := random w in
  upd_client r
    (set_c_packet
       (header ip (u32_of x) 0 (address lease) (giaddr w)
          (firstn (Z.to_nat (hw_hlen ip)) (tl (hw_hbuf ip))) options)) w.

(** ** The lease database *)

(** [leaseFile] is [None] when the file is not open; an open file holds
    the records written since it was created.  A record is taken to reach
    the file when none of the [fprintf]s that make it up fails. *)
Definition db_append (e : db_entry) (w : world) : world :=
  match leaseFile w with
  | Some f => set_leaseFile (Some (f ++ [e])) w
  | None => w
  end.

Definition write_duid (duid : list Z) (w : world) : world :=
  if Z.of_nat (length duid) <=? 2 then w else
  let w := match leaseFile w with
           | Some _ => w
           | None => if fopen_ok w then set_leaseFile (Some []) w else w
           end in
  match leaseFile w with
  | None => w
  | Some _ =>
      if dmalloc_ok w && fprintf_ok w then db_append (DB_duid duid) w else w
  end.

(** [write_client_lease], with the function it calls when the database
    is to be rewritten as a parameter: [rewrite_client_leases] calls
    [write_client_lease] back with [rewrite] set. *)
Definition write_client_lease_body (rewrite_client_leases : world -> world)
    (r : cref) (lease : client_lease) (rewrite makesure : bool) (w : world)
  : Z * world :=
  let w :=
    if rewrite then w else
      let n := leases_written w in
      let w := set_leases_written (int_of (n + 1)) w in
      if 20 <? n then set_leases_written 0 (rewrite_client_leases w) else w in
  (* If the lease came from the config file, no copy is stashed. *)
  if is_static lease then (1, w) else
  let w := match leaseFile w with
           | Some _ => w
           | None => if fopen_ok w then set_leaseFile (Some []) w else w
           end in
  match leaseFile w with
  | None => (0, w)
  | Some _ =>
      let quoted := match filename lease, server_name lease, l_medium lease with
                    | None, None, [] => false
                    | _, _, _ => true
                    end in
      let errors := negb (fprintf_ok w) || (quoted && negb (dmalloc_ok w))
                    || negb (fflush_ok w) in
      let w := if fprintf_ok w
               then db_append (DB_lease (if_name (iface_of w r))
                                 (c_name (deref w r)) lease) w
               else w in
      let w := upd_client r (set_last_write (cur_time w)) w in
      if negb errors && makesure then
        if fsync_ok w then (1, w) else (0, w)
      else (if errors then 0 else 1, w)
  end.

Definition rewrite_one_client (r : cref) (w : world) : world :=
  let c := deref w r in
  let write lp w :=
    snd (write_client_lease_body (fun w => w) r lp true false w) in
  let w := fold_left (fun w lp => write lp w) (leases c) w in
  let w := match active c with Some a => write a w | None => w end in
  (* Reset last_write after rewrites. *)
  upd_client r (set_last_write 0) w.

Definition rewrite_interface (d : bool) (w : world) (i : nat) : world :=
  fold_left
    (fun w n => rewrite_one_client {| r_dummy := d; r_if := i; r_cl := n |} w)
    (seq 0 (length (client (nth i (iface_list d w) iface_null)))) w.

Definition rewrite_client_leases (w : world) : world :=
  let w := set_rewrites (S (rewrites w)) w in
  (* fclose, then fopen for writing: the file is empty again *)
  if negb (fopen_ok w) then set_leaseFile None w else
  let w := set_leaseFile (Some []) w in
  let w := if negb (length (default_duid w) =? 0)%nat
           then write_duid (default_duid w) w else w in
  let w := fold_left (rewrite_interface false)
             (seq 0 (length (interfaces w))) w in
  fold_left (rewrite_interface true)
    (seq 0 (length (dummy_interfaces w))) w.

Definition write_client_lease : cref -> client_lease -> bool -> bool ->
                                world -> Z * world :=
  write_client_lease_body rewrite_client_leases.

(** ** The state machine *)

Section Machine.
Context {P : Platform}.

(** [v + x % d], a step of the exponential backoff; [d] comes from the
    configuration and the division stops the program when it is zero:
    there is no result then. *)
Definition plus_rem (v x d : Z) (w : world) : option (Z * world) :=
  if d =? 0 then None else Some (tadd v (trem x d), w).

Definition set_tv_usec_jitter (far : bool) (w : world) : Z * world :=
  if far then let (x, w) := random w in (Z.rem x 1000000, w)
  else (tv_usec (cur_tv w), w).

(** The client script run with [reason], the parameters of the lease
    under [prefix] and the alias; the order of the calls between
    [script_init] and [script_go] is the one of each caller. *)
Definition write_alias (r : cref) (w : world) : world :=
  match alias (deref w r) with
  | Some a => script_write_params r "alias_" a w
  | None => w
  end.

(** [send_decline]. *)
Definition send_decline (r : cref) (w : world) : world :=
  send_packet false (r_if r) (c_packet (deref w r)) iaddr_any
    iaddr_broadcast w.

(** The media loop of [send_discover] once a medium has failed
    ([fail = 1] at [again:]): [rest] is [client->medium->next]. *)
Fixpoint media_walk (r : cref) (rest : string_list) (w : world)
  : outcome * bool :=
  match rest with
  | [] => (Fatal (upd_client r (set_medium []) w), false)
  | m :: rest' =>
      let w := upd_client r (set_medium (m :: rest')) w in
      let w := script_init r "MEDIUM" (m :: rest') w in
      let (st, w) := script_go r w in
      if st =? 0 then (Running w, false) else media_walk r rest' w
  end.

(** The media loop of [send_discover]; the boolean is [increase]. *)
Definition try_media (r : cref) (w : world) : outcome * bool :=
  let c := deref w r in
  match offered_leases c, media (config c) with
  | [], _ :: _ =>
      let (m, increase) :=
        match medium c with
        | _ :: (_ :: _) as next => (next, false)
        | _ => (media (config c), true)
        end in
      let w := upd_client r (set_medium m) w in
      let w := script_init r "MEDIUM" m w in
      let (st, w) := script_go r w in
      if st =? 0 then (Running w, increase) else media_walk r (tl m) w
  | _, _ => (Running w, true)
  end.

(** [client->packet.secs] from the time spent sending. *)
Definition secs_of (elapsed : Z) : Z :=
  if elapsed <? 65536 then u16_of elapsed else 65535.

(** [send_request] from the exponential backoff to its end.  [a] is the
    active lease; it is [None] in the REQUESTING state, where the code
    does not look at it. *)
Definition send_request_tail (r : cref) (elapsed : Z)
    (a : option client_lease) (w : world) : outcome :=
  let c := deref w r in
  let cfg := config c in
  let st := state c in
  (* Do the exponential backoff... *)
  match
    (if interval c =? 0 then Some (initial_interval cfg, w)
     else let (x, w) := random w in
          plus_rem (interval c) (Z.shiftr x 2) (tmul 2 (interval c)) w)
  with
  | None => Crash
  | Some (i, w) =>
  (* Don't backoff past cutoff. *)
  match
    (if backoff_cutoff cfg <? i then
       let (x, w) := random w in
       plus_rem (tdiv (backoff_cutoff cfg) 2) (Z.shiftr x 2)
         (backoff_cutoff cfg) w
     else Some (i, w))
  with
  | None => Crash
  | Some (i, w) =>
  let i := match a with
           | Some a => if expiry a <? tadd (cur_time w) i
                       then tadd (tsub (expiry a) (cur_time w)) 1 else i
           | None => i
           end in
  let w := upd_client r (set_interval i) w in
  let to :=
    if state_eqb st S_REQUESTING || state_eqb st S_REBOOTING
       || match a with Some a => rebind a <? cur_time w | None => false end
    then iaddr_broadcast else firstn 4 (destination c) in
  let from :=
    if state_eqb st S_RENEWING || state_eqb st S_REBINDING
    then match a with Some a => firstn 4 (address a) | None => iaddr_any end
    else iaddr_any in
  let w := upd_client r
             (fun c => set_c_packet
                         (set_p_secs
                            (if state_eqb st S_REQUESTING then secs c
                             else secs_of elapsed) (c_packet c)) c) w in
  let w := send_packet
             (negb (bytes_eqb to iaddr_broadcast) && fallback_interface w)
             (r_if r) (c_packet (deref w r)) from to w in
  let sec := tadd (tv_sec (cur_tv w)) i in
  let (usec, w) :=
    set_tv_usec_jitter (1 <? tsub sec (tv_sec (cur_tv w))) w in
  Running (add_timeout {| tv_sec := sec; tv_usec := usec |}
             CB_send_request r w)
  end
  end.

Fixpoint state_init (fuel : nat) (r : cref) (w : world) {struct fuel}
  : outcome :=
  match fuel with
  | O => OutOfFuel
  | S fuel =>
      let w := make_discover r (active (deref w r)) w in
      let w := upd_client r (fun c => set_xid (p_xid (c_packet c)) c) w in
      let w := upd_client r (set_destination iaddr_broadcast) w in
      let w := upd_client r (set_state S_SELECTING) w in
      let w := upd_client r (set_first_sending (cur_time w)) w in
      let w := upd_client r
                 (fun c => set_interval (initial_interval (config c)) c) w in
      send_discover fuel r w
  end

with send_discover (fuel : nat) (r : cref) (w : world) {struct fuel}
  : outcome :=
  match fuel with
  | O => OutOfFuel
  | S fuel =>
      let c := deref w r in
      let elapsed := int_of (tsub (cur_time w) (first_sending c)) in
      if timeout (config c) <? elapsed then state_panic fuel r w else
      let (o, increase) := try_media r w in
      and_then o (fun w =>
      let c := deref w r in
      let cfg := config c in
      match
        (if increase then
           match
             (if interval c =? 0 then Some (initial_interval cfg, w)
              else let (x, w) := random w in
                   plus_rem (interval c) x (tmul 2 (interval c)) w)
           with
           | None => None
           | Some (i, w) =>
               (* Don't backoff past cutoff. *)
               if backoff_cutoff cfg <? i then
                 let (x, w) := random w in
                 plus_rem (tdiv (backoff_cutoff cfg) 2) x
                   (backoff_cutoff cfg) w
               else Some (i, w)
           end
         else if interval c =? 0 then Some (initial_interval cfg, w)
         else Some (interval c, w))
      with
      | None => Crash
      | Some (i, w) =>
      let i :=
        if tadd (first_sending c) (timeout cfg) <? tadd (cur_time w) i
        then tadd (tsub (tadd (first_sending c) (timeout cfg)) (cur_time w)) 1
        else i in
      let w := upd_client r (set_interval i) w in
      let w := upd_client r
                 (fun c => set_secs (secs_of elapsed)
                             (set_c_packet
                                (set_p_secs (secs_of elapsed) (c_packet c))
                                c)) w in
      let w := send_packet false (r_if r) (c_packet (deref w r)) iaddr_any
                 iaddr_broadcast w in
      let sec := tadd (tv_sec (cur_tv w)) i in
      let (usec, w) := set_tv_usec_jitter (1 <? i) w in
      Running (add_timeout {| tv_sec := sec; tv_usec := usec |}
                 CB_send_discover r w)
      end)
  end

with state_panic (fuel : nat) (r : cref) (w : world) {struct fuel}
  : outcome :=
  match fuel with
  | O => OutOfFuel
  | S fuel =>
      let c := deref w r in
      let loop := option_map l_ptr (active c) in
      match active c, leases c with
      | None, _ :: _ => panic_loop fuel r loop true w
      | _, _ => panic_loop fuel r loop false w
      end
  end

(** The [while] loop of [state_panic] and what follows it; [at_next]
    says that the loop is entered at the label [activate_next]. *)
with panic_loop (fuel : nat) (r : cref) (loop : option nat)
       (at_next : bool) (w : world) {struct fuel} : outcome :=
  match fuel with
  | O => OutOfFuel
  | S fuel =>
      let no_lease_works (w : world) : outcome :=
        if onetry w then Exited 2 w else
        let w := script_init r "FAIL" [] w in
        let w := write_alias r w in
        let (_, w) := script_go r w in
        let w := upd_client r (set_state S_INIT) w in
        let ri := retry_interval (config (deref w r)) in
        let (x, w) := random w in
        match plus_rem (tdiv (tadd ri 1) 2) x ri w with
        | None => Crash
        | Some (d, w) =>
            let sec := tadd (tv_sec (cur_tv w)) d in
            let (usec, w) :=
              set_tv_usec_jitter (1 <? tsub sec (tv_sec (cur_tv w))) w in
            Running (add_timeout {| tv_sec := sec; tv_usec := usec |}
                       CB_state_init r w)
        end in
      let activate_next (w : world) : outcome :=
        let c := deref w r in
        let (l, w) := add_to_tail (leases c) (active c) w in
        match l with
        | [] => Crash
        | a :: rest =>
            let w := upd_client r
                       (fun c => set_leases rest (set_active (Some a) c)) w in
            match loop with
            | Some p =>
                if Nat.eqb (l_ptr a) p then no_lease_works w
                else panic_loop fuel r loop false w
            | None => panic_loop fuel r (Some (l_ptr a)) false w
            end
        end in
      if at_next then activate_next w else
      match active (deref w r) with
      | None => no_lease_works w
      | Some a =>
          let try (w : world) : world * bool :=
            if cur_time w <? expiry a then
              let w := script_init r "TIMEOUT" (l_medium a) w in
              let w := script_write_params r "new_" a w in
              let w := script_write_requested r w in
              let w := write_alias r w in
              let (st, w) := script_go r w in
              (w, st =? 0)
            else (w, false) in
          let (w, ok) := try w in
          if ok then
            let w := upd_client r (set_state S_BOUND) w in
            if cur_time w <? renewal a then
              let (usec, w) :=
                set_tv_usec_jitter (1 <? tsub (renewal a) (cur_time w)) w in
              Running (add_timeout
                         {| tv_sec := renewal a; tv_usec := usec |}
                         CB_state_bound r w)
            else state_bound fuel r w
          else
            match leases (deref w r) with
            | [] =>
                no_lease_works (upd_client r
                           (fun c => set_active None
                                       (set_leases [a] c)) w)
            | _ :: _ => activate_next w
            end
      end
  end

with state_bound (fuel : nat) (r : cref) (w : world) {struct fuel}
  : outcome :=
  match fuel with
  | O => OutOfFuel
  | S fuel =>
      match active (deref w r) with
      | None => Crash
      | Some a =>
          let w := make_request r a w in
          let w := upd_client r (fun c => set_xid (p_xid (c_packet c)) c) w in
          let dest :=
            match lookup_option DHO_DHCP_SERVER_IDENTIFIER (l_options a) with
            | Some oc =>
                match evaluate_option_cache oc with
                | Some ds => if (3 <? length ds)%nat then firstn 4 ds
                             else iaddr_broadcast
                | None => iaddr_broadcast
                end
            | None => iaddr_broadcast
            end in
          let w := upd_client r (set_destination dest) w in
          let w := upd_client r (set_first_sending (cur_time w)) w in
          let w := upd_client r
                     (fun c => set_interval (initial_interval (config c)) c)
                     w in
          let w := upd_client r (set_state S_RENEWING) w in
          send_request fuel r w
      end
  end

with send_request (fuel : nat) (r : cref) (w : world) {struct fuel}
  : outcome :=
  match fuel with
  | O => OutOfFuel
  | S fuel =>
      let c := deref w r in
      let elapsed := int_of (tsub (cur_time w) (first_sending c)) in
      let cancel (w : world) : outcome :=
        let w := upd_client r (set_state S_INIT) w in
        let w := cancel_timeout CB_send_request r w in
        state_init fuel r w in
      let rebooting := state_eqb (state c) S_REBOOTING in
      let requesting := state_eqb (state c) S_REQUESTING in
      (* from the expiry check on *)
      let rest (w : world) : outcome :=
        if requesting then send_request_tail r elapsed None w else
        match active (deref w r) with
        | None => Crash
        | Some a =>
            if expiry a <? cur_time w then
              let w := script_init r "EXPIRE" [] w in
              let w := script_write_params r "old_" a w in
              let w := script_write_requested r w in
              let w := write_alias r w in
              let (_, w) := script_go r w in
              let w := script_init r "PREINIT" [] w in
              let w := write_alias r w in
              let (_, w) := script_go r w in
              let w := upd_client r (set_state S_INIT) w in
              state_init fuel r w
            else send_request_tail r elapsed (Some a) w
        end in
      if (rebooting || requesting)
         && (reboot_timeout (config c) <? elapsed)
      then cancel w
      else if rebooting && match medium c with [] => true | _ => false end
      then
        (* make sure the media is set up correctly *)
        match active c with
        | None => Crash
        | Some a =>
            match l_medium a with
            | [] => rest w
            | _ :: _ =>
                let w := script_init r "MEDIUM" (l_medium a) w in
                let (st, w) := script_go r w in
                if st =? 0
                then rest (upd_client r (set_medium (l_medium a)) w)
                else cancel w
            end
        end
      else rest w
  end.

(** *** Receiving packets *)

(** The client state of the interface whose [xid] is the one of the
    packet: the loop over [ip->client]. *)
Fixpoint find_xid (x : Z) (cs : list client_state) (n : nat) : option nat :=
  match cs with
  | [] => None
  | c :: rest => if xid c =? x then Some n else find_xid x rest (S n)
  end.

Definition find_client (pkt : packet) (w : world) : option cref :=
  option_map (live (interface pkt))
    (find_xid (p_xid (raw pkt)) (client (iface w (interface pkt))) 0).

(** The hardware address of the packet is the one of the interface:
    the negation of the test on [hlen] and [chaddr] that the three
    handlers share. *)
Definition hw_matches (pkt : packet) (w : world) : bool :=
  let ip := iface w (interface pkt) in
  (hw_hlen ip - 1 =? hlen (raw pkt))
  && memcmp_eq (tl (hw_hbuf ip)) (chaddr (raw pkt)) (hlen (raw pkt)).

Definition receptive (st : dhcp_state) : bool :=
  state_eqb st S_REBOOTING || state_eqb st S_REQUESTING
  || state_eqb st S_RENEWING || state_eqb st S_REBINDING.

(** [add_reject]: the sender goes on the reject list of the first
    client of the interface, with a host mask. *)
Definition add_reject (pkt : packet) (w : world) : outcome :=
  if negb (dmalloc_ok w) then Fatal w else
  let m := {| m_addr := client_addr pkt;
              m_mask := repeat 255 (length (client_addr pkt)) |} in
  Running
    (upd_client (live (interface pkt) 0)
       (fun c => set_config
                   (set_reject_list (m :: reject_list (config c))
                      (config c)) c) w).

(** The value of a 32-bit time option as the code reads it: 0 when the
    option is missing, does not evaluate or is shorter than 4 bytes. *)
Definition option_time (code : Z) (os : option_state) : Z :=
  match lookup_option code os with
  | Some oc =>
      match evaluate_option_cache oc with
      | Some ds => if (3 <? length ds)%nat then time_of (getULong ds) else 0
      | None => 0
      end
  | None => 0
  end.

(** The steps of the time computation of [dhcpack], in the order of
    the code. *)

(* A number that looks negative is really just very large. *)
Definition ack_expiry (e : Z) : Z := if e <? 0 then TIME_MAX else e.

(* The renewal time of the server if there is one, else half the lease. *)
Definition ack_renewal (e r0 : Z) : Z :=
  let r := if r0 =? 0 then tadd (tdiv e 2) 1 else r0 in
  if r <=? 0 then TIME_MAX else r.

Definition jitter_allowed (r : Z) : bool := r <=? Z.quot TIME_MAX 3 - 3.

Definition ack_jitter (r x : Z) : Z :=
  tadd (tdiv (tadd (tmul r 3) 3) 4) (tdiv (tadd (trem x r) 3) 4).

Definition ack_rebind (e b0 : Z) : Z :=
  if b0 <=? 0 then
    if e <=? Z.quot TIME_MAX 7 then tdiv (tmul e 7) 8 else tmul (tdiv e 8) 7
  else b0.

(* Make sure the randomness did not run the renewal past the rebind. *)
Definition ack_clamp (r b : Z) : Z :=
  if b <? r then
    if b <=? Z.quot TIME_MAX 3 then tdiv (tmul b 3) 4 else tmul (tdiv b 4) 3
  else r.

(* [v += cur_time; if (v < cur_time) v = TIME_MAX;] *)
Definition ack_add (now v : Z) : Z :=
  let v' := tadd v now in if v' <? now then TIME_MAX else v'.

(** The parts of [bind_lease]. *)
Definition bind_reason (st : dhcp_state) : string :=
  if state_eqb st S_REQUESTING then "BOUND"
  else if state_eqb st S_RENEWING then "RENEW"
  else if state_eqb st S_REBOOTING then "REBOOT"
  else "REBIND".

(* Run the client script with the new parameters. *)
Definition bind_script (r : cref) (n : client_lease) (w : world)
  : Z * world :=
  let c := deref w r in
  let w := script_init r (bind_reason (state c)) (l_medium n) w in
  let w := match active c with
           | Some a => if negb (state_eqb (state c) S_REBOOTING)
                       then script_write_params r "old_" a w else w
           | None => w
           end in
  let w := script_write_params r "new_" n w in
  let w := script_write_requested r w in
  let w := write_alias r w in
  script_go r w.

(* The script found another machine using the address: send a
   DHCPDECLINE and toss the lease. *)
Definition bind_decline (r : cref) (n : client_lease) (w : world)
  : outcome :=
  let w := make_decline r n w in
  let w := send_decline r w in
  let w := destroy_client_lease n w in
  let w := upd_client r (set_new None) w in
  if onetry w then Exited 2 w else
  Running
    (add_timeout
       {| tv_sec := tadd (tv_sec (cur_tv w)) (decline_wait_time w);
          tv_usec := tv_usec (cur_tv w) |} CB_state_init r w).

Definition bind_commit (r : cref) (n : client_lease) (w : world)
  : outcome :=
  (* Write out the new lease if it has been long enough. *)
  let w :=
    if (last_write (deref w r) =? 0)
       || (MIN_LEASE_WRITE <=? tsub (cur_time w) (last_write (deref w r)))
    then snd (write_client_lease r n false true w) else w in
  (* Replace the old active lease with the new one. *)
  let c := deref w r in
  let w := match active c with
           | Some a =>
               if is_static a then
                 let (l, w) := add_to_tail (leases c) (Some a) w in
                 upd_client r (set_leases l) w
               else destroy_client_lease a w
           | None => w
           end in
  let w := upd_client r (fun c => set_new None (set_active (new c) c)) w in
  (* Set up a timeout to start the renewal process. *)
  let (usec, w) :=
    set_tv_usec_jitter (1 <? tsub (renewal n) (tv_sec (cur_tv w))) w in
  let w := add_timeout {| tv_sec := renewal n; tv_usec := usec |}
             CB_state_bound r w in
  Running (upd_client r (set_state S_BOUND) w).

(** [bind_lease]: the script ([bind_script]), then the decline
    ([bind_decline]) or the commit ([bind_commit]).  The calls of
    [reinitialize_interfaces] and [detach] and the DNS update that
    follow the commit are not represented. *)
Definition bind_lease (r : cref) (w : world) : outcome :=
  match new (deref w r) with
  | None => Crash
  | Some n0 =>
      (* Remember the medium. *)
      let n := set_l_medium (medium (deref w r)) n0 in
      let w := upd_client r (set_new (Some n)) w in
      let (st, w) := bind_script r n w in
      if negb (st =? 0) then bind_decline r n w else bind_commit r n w
  end.

(** [dhcpack]. *)
Definition dhcpack (pkt : packet) (w : world) : outcome :=
  match find_client pkt w with
  | None => Running w
  | Some r =>
  if negb (hw_matches pkt w) then Running w else
  if negb (receptive (state (deref w r))) then Running w else
  let (ol, w) := packet_to_lease pkt r w in
  match ol with
  | None => Running w
  | Some lease =>
      let w := upd_client r (set_new (Some lease)) w in
      (* Stop resending DHCPREQUEST. *)
      let w := cancel_timeout CB_send_request r w in
      (* Figure out the lease time. *)
      let e := option_time DHO_DHCP_LEASE_TIME (l_options lease) in
      let w := upd_client r (set_new (Some (set_expiry e lease))) w in
      if e =? 0 then
        (* Quench this (broken) server.  Return to INIT to reselect. *)
        and_then (add_reject pkt w) (fun w =>
        let tv :=
          if 1000000 <=? tv_usec (cur_tv w) + 500000
          then {| tv_sec := tadd (tv_sec (cur_tv w)) 1;
                  tv_usec := tv_usec (cur_tv w) + 500000 - 1000000 |}
          else {| tv_sec := tv_sec (cur_tv w);
                  tv_usec := tv_usec (cur_tv w) + 500000 |} in
        Running (add_timeout tv CB_state_init r w))
      else
        let e := ack_expiry e in
        let r0 := ack_renewal e
                    (option_time DHO_DHCP_RENEWAL_TIME (l_options lease)) in
        (* Now introduce some randomness to the renewal time: *)
        let (r1, w) :=
          if jitter_allowed r0
          then let (x, w) := random w in (ack_jitter r0 x, w)
          else (r0, w) in
        (* Same deal with the rebind time. *)
        let b := ack_rebind e
                   (option_time DHO_DHCP_REBINDING_TIME (l_options lease)) in
        let r2 := ack_clamp r1 b in
        let now := cur_time w in
        let w := upd_client r
                   (set_new
                      (Some (set_times (ack_add now e) (ack_add now r2)
                               (ack_add now b) lease))) w in
        bind_lease r w
  end
  end.

(** [state_selecting]. *)
Definition state_selecting (fuel : nat) (r : cref) (w : world) : outcome :=
  let w := cancel_timeout CB_state_selecting r w in
  let w := cancel_timeout CB_send_discover r w in
  let offered := offered_leases (deref w r) in
  let w := fold_left (fun w lp => destroy_client_lease lp w) (tl offered) w in
  let w := upd_client r (set_offered_leases []) w in
  match offered with
  | [] =>
      (* We tossed all the leases we were offered: back to square one. *)
      state_init fuel r (upd_client r (set_state S_INIT) w)
  | picked :: _ =>
      if is_bootp picked then
        (* If it was a BOOTREPLY, we can just take the address right now. *)
        let now := cur_time w in
        let w := upd_client r
                   (set_new
                      (Some (set_times (tadd now 12000)
                               (tadd (renewal picked) (tadd now 8000))
                               (tadd (rebind picked) (tadd now 10000))
                               picked))) w in
        let w := upd_client r (set_state S_REQUESTING) w in
        bind_lease r w
      else
        let w := upd_client r (set_destination iaddr_broadcast) w in
        let w := upd_client r (set_state S_REQUESTING) w in
        let w := upd_client r (set_first_sending (cur_time w)) w in
        let w := upd_client r
                   (fun c => set_interval (initial_interval (config c)) c)
                   w in
        let w := make_request r picked w in
        let w := upd_client r (fun c => set_xid (p_xid (c_packet c)) c) w in
        (* Toss the lease we picked - we'll get it back in a DHCPACK. *)
        let w := destroy_client_lease picked w in
        send_request fuel r w
  end.

(** [dhcpoffer]. *)
Definition dhcpoffer (fuel : nat) (pkt : packet) (w : world) : outcome :=
  match find_client pkt w with
  | None => Running w
  | Some r =>
  let c := deref w r in
  if negb (state_eqb (state c) S_SELECTING) then Running w else
  if negb (hw_matches pkt w) then Running w else
  (* the minimum required parameters *)
  if existsb (fun code =>
                match lookup_option code (options pkt) with
                | None => true
                | Some _ => false
                end) (required_options (config c))
  then Running w else
  (* If we've already seen this lease, don't record it again. *)
  if existsb (fun l => Nat.eqb (length (address l)) 4
                       && bytes_eqb (address l) (yiaddr (raw pkt)))
       (offered_leases c)
  then Running w else
  let (ol, w) := packet_to_lease pkt r w in
  match ol with
  | None => Running w
  | Some lease =>
      let lease := if negb (options_valid pkt) || (packet_type pkt =? 0)
                   then set_is_bootp true lease else lease in
      let lease := set_l_medium (medium c) lease in
      let stop_selecting :=
        int_of (tadd (first_sending c) (select_interval (config c))) in
      let w :=
        if Nat.eqb (length (address lease)) (length (requested_address c))
           && bytes_eqb (address lease) (requested_address c)
        then upd_client r
               (fun c => set_offered_leases (lease :: offered_leases c) c) w
        else upd_client r
               (fun c => set_offered_leases (offered_leases c ++ [lease]) c)
               w in
      if stop_selecting <=? tv_sec (cur_tv w) then state_selecting fuel r w
      else
        let w := add_timeout {| tv_sec := stop_selecting;
                                tv_usec := tv_usec (cur_tv w) |}
                   CB_state_selecting r w in
        Running (cancel_timeout CB_send_discover r w)
  end
  end.

(** [dhcpnak]. *)
Definition dhcpnak (fuel : nat) (pkt : packet) (w : world) : outcome :=
  match find_client pkt w with
  | None => Running w
  | Some r =>
  if negb (hw_matches pkt w) then Running w else
  if negb (receptive (state (deref w r))) then Running w else
  match active (deref w r) with
  | None => Running w
  | Some a =>
      let w := script_init r "EXPIRE" [] w in
      let w := script_write_params r "old_" a w in
      let w := script_write_requested r w in
      let w := write_alias r w in
      let (_, w) := script_go r w in
      let w := destroy_client_lease a w in
      let w := upd_client r (set_active None) w in
      (* Stop sending DHCPREQUEST packets... *)
      let w := cancel_timeout CB_send_request r w in
      let w := script_init r "PREINIT" [] w in
      let w := write_alias r w in
      let (_, w) := script_go r w in
      let w := upd_client r (set_state S_INIT) w in
      state_init fuel r w
  end
  end.

(** *** Releasing *)

(** [send_release]. *)
Definition send_release (r : cref) (w : world) : outcome :=
  match active (deref w r) with
  | None => Crash
  | Some a =>
      let from := firstn 4 (address a) in
      let to := firstn 4 (destination (deref w r)) in
      (* Set the lease to end now. *)
      let a := set_times (cur_time w) (cur_time w) (cur_time w) a in
      let w := upd_client r (set_active (Some a)) w in
      let (ok, w) := write_client_lease r a true true w in
      if ok =? 0 then Running w   (* Can't release lease: lease write failed. *)
      else
        Running (send_packet (fallback_interface w) (r_if r)
                   (c_packet (deref w r)) from to w)
  end.

(** [do_release]. *)
Definition do_release (r : cref) (w : world) : outcome :=
  (* Pick a random xid. *)
  let (x, w) := random w in
  let w := upd_client r (set_xid (u32_of x)) w in
  and_then
    match active (deref w r) with
    | None => Running w
    | Some a =>
        let w := make_release r a w in
        let dest :=
          match lookup_option DHO_DHCP_SERVER_IDENTIFIER (l_options a) with
          | Some oc =>
              match evaluate_option_cache oc with
              | Some ds => if (3 <? length ds)%nat then firstn 4 ds
                           else iaddr_broadcast
              | None => iaddr_broadcast
              end
          | None => iaddr_broadcast
          end in
        let w := upd_client r (set_destination dest) w in
        let w := upd_client r (set_first_sending (cur_time w)) w in
        let w := upd_client r
                   (fun c => set_interval (initial_interval (config c)) c)
                   w in
        let w := upd_client r (set_medium []) w in
        and_then (send_release r w) (fun w =>
        let w := script_init r "RELEASE" [] w in
        let w := write_alias r w in
        let w := match active (deref w r) with
                 | Some a => script_write_params r "old_" a w
                 | None => w
                 end in
        let w := script_write_requested r w in
        Running (snd (script_go r w)))
    end
    (fun w =>
       let w := cancel_timeout CB_state_bound r w in
       let w := cancel_timeout CB_send_discover r w in
       let w := cancel_timeout CB_state_init r w in
       let w := cancel_timeout CB_send_request r w in
       let w := cancel_timeout CB_state_reboot r w in
       Running (upd_client r (set_state S_STOPPED) w)).
End Machine.

(** ** The statements of the specification *)

Section Statements.
Context {P : Platform}.

(** The three times [dhcpack] gives the new lease (expiry, renewal,
    rebind), as a function of the clock [now], of the lease time [l]
    and of the renewal and rebind times [r0], [b0] read from the
    options, and of the value [x] of [random()]. *)
Definition dhcpack_times (now l r0 b0 x : Z) : Z * Z * Z :=
  let e := ack_expiry l in
  let r := ack_renewal e r0 in
  let r1 := if jitter_allowed r then ack_jitter r x else r in
  let b := ack_rebind e b0 in
  (ack_add now e, ack_add now (ack_clamp r1 b), ack_add now b).

(** The largest value of [TIME]. *)
Definition time_max_value : Z := 2 ^ (time_bits - 1) - 1.

(** Addition of the clock that saturates: [TIME_MAX] when the sum is
    not a value of [TIME]. *)
Definition saturating_add (now v : Z) : Z :=
  if now + v <=? time_max_value then now + v else TIME_MAX.

(** The time computation as section 4.5 words it (steps 2 to 6), in
    exact integer arithmetic: [r] and [b] are the renewal and rebind
    times of the server, [None] when the option is absent. *)
Definition claimed_times (now l : Z) (r b : option Z) (x : Z) : Z * Z * Z :=
  let r := match r with None => l / 2 + 1 | Some r => r end in
  let r := (3 * r + 3) / 4 + (x mod r + 3) / 4 in
  let b := match b with None => l * 7 / 8 | Some b => b end in
  let r := if b <? r then 3 * b / 4 else r in
  (saturating_add now l, saturating_add now r, saturating_add now b).

(** The time computation with the guards of the code, in exact integer
    arithmetic; [r0] and [b0] are 0 for an absent option. *)
Definition guarded_times (now l r0 b0 x : Z) : Z * Z * Z :=
  let e := if l <? 0 then TIME_MAX else l in
  let r := if r0 =? 0 then e / 2 + 1
           else if r0 <? 0 then TIME_MAX else r0 in
  let r := if r <=? TIME_MAX / 3 - 3
           then (3 * r + 3) / 4 + (x mod r + 3) / 4 else r in
  let b := if b0 <=? 0
           then if e <=? TIME_MAX / 7 then e * 7 / 8 else e / 8 * 7
           else b0 in
  let r := if b <? r
           then if b <=? TIME_MAX / 3 then b * 3 / 4 else b / 4 * 3
           else r in
  (saturating_add now e, saturating_add now r, saturating_add now b).

(** The clock is a value of [TIME] past the epoch; and either
    [TIME_MAX] is the largest value of [TIME], or the clock is far
    enough from it for no sum with a 32-bit time to overflow. *)
Definition clock_ok (now : Z) : Prop :=
  0 <= now <= time_max_value /\
  (TIME_MAX = time_max_value \/ now + 4294967296 <= time_max_value).

(** A value of [TIME] read from a 32-bit option. *)
Definition from_wire (v : Z) : Prop :=
  exists u, 0 <= u < 4294967296 /\ v = time_of u.

(** [db_view w] is the world with the lease file and every
    [last_write] blanked: two worlds with the same view differ in
    nothing else. *)
Definition blank_interface (ip : interface_info) : interface_info :=
  set_client (map (set_last_write 0) (client ip)) ip.

Definition db_view (w : world) : world :=
  set_leaseFile None
    (set_interfaces (map blank_interface (interfaces w))
       (set_dummy_interfaces
          (map blank_interface (dummy_interfaces w)) w)).

(** The lease file cannot be written or synchronised. *)
Definition store_fails (w : world) : Prop :=
  (leaseFile w = None /\ fopen_ok w = false)
  \/ fprintf_ok w = false \/ fflush_ok w = false \/ fsync_ok w = false.

(** A sequence of calls of [write_client_lease] in append mode
    ([rewrite] clear): the client, the lease and [makesure] of each. *)
Definition append_writes (calls : list (cref * client_lease * bool))
    (w : world) : world :=
  fold_left
    (fun w call =>
       snd (write_client_lease (fst (fst call)) (snd (fst call)) false
              (snd call) w))
    calls w.

(** Starting from a fresh count, the database is rewritten once every
    [period] writes in append mode. *)
Definition rewrite_every (period : nat) : Prop :=
  forall calls w,
    leases_written w = 0 ->
    rewrites (append_writes calls w)
    = (rewrites w + length calls / period)%nat.
End Statements.

(** ** Concrete worlds

    A 64-bit [time_t] with the [TIME_MAX] of includes/dhcpd.h, one
    interface with one client, and the packets the examples use. *)

Definition lp64 : Platform :=
  {| time_bits := 64; TIME_MAX := 2147483647; MIN_LEASE_WRITE := 15 |}.

Definition config0 : client_config :=
  {| initial_interval := 3; backoff_cutoff := 15; timeout := 60;
     reboot_timeout := 10; select_interval := 0; retry_interval := 300;
     media := []; required_options := []; requested_options := [1; 3];
     reject_list := []; on_receipt := fun o => o; on_transmission := None |}.

Definition client0 : client_state :=
  {| state := S_REQUESTING; xid := 77; active := None; new := None;
     alias := None; offered_leases := []; leases := []; medium := [];
     destination := iaddr_broadcast; first_sending := 1000; interval := 3;
     c_packet := packet_zero; secs := 0; requested_address := [];
     sent_options := []; last_write := 0; env := []; c_name := None;
     config := config0 |}.

Definition eth0 (c : client_state) : interface_info :=
  {| if_name := "eth0"; hw_hlen := 7; hw_hbuf := [1; 2; 0; 0; 0; 0; 10];
     unicast_unconfigured := false; client := [c] |}.

(** The world with the client [c] on eth0, at 1000.6 s, where the client
    script exits with [status]. *)
Definition world_of (c : client_state) (status : Z) : world :=
  {| interfaces := [eth0 c]; dummy_interfaces := [];
     cur_tv := {| tv_sec := 1000; tv_usec := 600000 |}; timeouts := [];
     leaseFile := Some []; leases_written := 0; default_duid := [];
     giaddr := iaddr_any; fallback_interface := false; onetry := false;
     decline_wait_time := 10;
     rand_src := fun n => 12345 + Z.of_nat n; rand_pos := 0;
     script_src := fun _ => (status, {| tv_sec := 1001; tv_usec := 5 |});
     script_pos := 0;
     dmalloc_ok := true; fopen_ok := true; fprintf_ok := true;
     fflush_ok := true; fsync_ok := true;
     scripts := []; sent := []; freed := []; rewrites := 0;
     heap_next := 100 |}.

Definition world0 : world := world_of client0 0.

(** The same world with a disk on which [fsync] fails. *)
Definition fsync_fails (w : world) : world :=
  {| interfaces := interfaces w; dummy_interfaces := dummy_interfaces w;
     cur_tv := cur_tv w; timeouts := timeouts w; leaseFile := leaseFile w;
     leases_written := leases_written w; default_duid := default_duid w;
     giaddr := giaddr w; fallback_interface := fallback_interface w;
     onetry := onetry w; decline_wait_time := decline_wait_time w;
     rand_src := rand_src w; rand_pos := rand_pos w;
     script_src := script_src w; script_pos := script_pos w;
     dmalloc_ok := dmalloc_ok w; fopen_ok := fopen_ok w;
     fprintf_ok := fprintf_ok w; fflush_ok := fflush_ok w; fsync_ok := false;
     scripts := scripts w; sent := sent w; freed := freed w;
     rewrites := rewrites w; heap_next := heap_next w |}.

(** Four bytes, most significant first. *)
Definition be32 (z : Z) : list Z :=
  [z / 16777216 mod 256; z / 65536 mod 256; z / 256 mod 256; z mod 256].

(** A reply to eth0 for the transaction [x], of type [ty] (0 for a BOOTP
    reply), with the options [os]. *)
Definition reply (x ty : Z) (os : option_state) : packet :=
  {| raw := {| op := BOOTREPLY; htype := 1; hlen := 6; hops := 0;
               p_xid := x; p_secs := 0; flags := 0; ciaddr := iaddr_any;
               yiaddr := [192; 0; 2; 50]; siaddr := iaddr_any;
               p_giaddr := iaddr_any;
               chaddr := [2; 0; 0; 0; 0; 10; 0; 0; 0; 0; 0; 0; 0; 0; 0; 0];
               sname := []; file := []; p_options := [] |};
     packet_type := ty; options_valid := true; options := os;
     client_addr := [192; 0; 2; 1]; interface := 0 |}.

(** A lease as the lease file or the configuration gives it. *)
Definition lease0 (ptr : nat) (static : bool) : client_lease :=
  {| l_ptr := ptr; expiry := 5000; renewal := 2000; rebind := 4000;
     address := [192; 0; 2; 50]; next_srv_addr := iaddr_any;
     server_name := None; filename := None; l_medium := [];
     is_static := static; is_bootp := false;
     l_options := [(DHO_DHCP_SERVER_IDENTIFIER, Some [192; 0; 2; 1])] |}.

(** A client that has been discovering since 900 s without an answer and
    whose only lease is a fallback lease of the configuration. *)
Definition client_silent : client_state :=
  {| state := S_SELECTING; xid := 77; active := None; new := None;
     alias := None; offered_leases := []; leases := [lease0 7 true];
     medium := []; destination := iaddr_broadcast; first_sending := 900;
     interval := 3; c_packet := packet_zero; secs := 0;
     requested_address := []; sent_options := []; last_write := 0;
     env := []; c_name := None; config := config0 |}.

(** A client in [st] with the active lease [a] and the tentative lease
    [n]. *)
Definition client_with (st : dhcp_state) (a n : option client_lease)
  : client_state :=
  {| state := st; xid := 77; active := a; new := n; alias := None;
     offered_leases := []; leases := []; medium := [];
     destination := iaddr_broadcast; first_sending := 1000; interval := 3;
     c_packet := packet_zero; secs := 0; requested_address := [];
     sent_options := []; last_write := 0; env := []; c_name := None;
     config := config0 |}.

(** A BOOTP lease as [dhcpoffer] records it, and a client in SELECTING
    that has been offered it. *)
Definition bootp_lease : client_lease :=
  set_times 0 0 0 (set_is_bootp true (lease0 3 false)).

Definition client_offered : client_state :=
  set_offered_leases [bootp_lease] (client_with S_SELECTING None None).

(** ** Checks of option values before they reach the client script *)

(** A C string is the list of the bytes of its buffer; it ends at the
    first NUL, or at the end of the list (the terminator is then the
    next byte of the buffer). *)
Definition cstring := list ascii.

Definition NUL : ascii := "000"%char.

(** [*p] and [p[1]] where [p] points to the head of the list. *)
Definition peek (p : cstring) : ascii := hd NUL p.

(** [strlen]. *)
Fixpoint strlen (s : cstring) : nat :=
  match s with
  | [] => O
  | c :: rest => if Ascii.eqb c NUL then O else S (strlen rest)
  end.

(** [isalnum] of the C library, in the C locale. *)
Definition isalnum (c : ascii) : bool :=
  let n := nat_of_ascii c in
  ((48 <=? n) && (n <=? 57) || (65 <=? n) && (n <=? 90)
   || (97 <=? n) && (n <=? 122))%nat.

(** The value of [dots ? -1 : 0]. *)
Definition dots_left (dots : Z) : Z := if dots =? 0 then 0 else -1.

(** The loop of [check_domain_name]: [p] is the rest of the string,
    [d] is [p - ptr], the number of characters since the start of the
    label, and [len] the number of characters still to be looked at. *)
Fixpoint check_domain_name_loop (p : cstring) (d : nat) (len : N) (dots : Z)
  {struct p} : Z :=
  match p with
  | [] => dots_left dots
  | c :: p1 =>
      if Ascii.eqb c NUL || (len =? 0)%N then dots_left dots else
      let len := (len - 1)%N in
      if Ascii.eqb c "-" || Ascii.eqb c "_" then
        (* not allowed at begin or end of a label *)
        if Nat.eqb d 0 || (len =? 0)%N || Ascii.eqb (peek p1) "." then -1
        else check_domain_name_loop p1 (S d) len dots
      else if Ascii.eqb c "." then
        (* each label has to be 1-63 characters *)
        if (d <=? 0)%nat || (64 <=? d)%nat then -1
        else check_domain_name_loop p1 0 len
               (if (0 <? dots) && (0 <? len)%N then dots - 1 else dots)
      else if negb (isalnum c) then -1
      else check_domain_name_loop p1 (S d) len dots
  end.

(** [check_domain_name]. *)
Definition check_domain_name (ptr : cstring) (len : N) (dots : Z) : Z :=
  (* not empty or complete length not over 255 characters *)
  if (len =? 0)%N || (256 <? len)%N then -1
  else check_domain_name_loop ptr 0 len dots.

(** The loop of [check_domain_name_list]: [ptr] is the string from the
    start of the current name, [p] the rest of it, [d] is [p - ptr]. *)
Fixpoint check_domain_name_list_loop (ptr p : cstring) (d : nat) (len : N)
    (dots ret : Z) {struct p} : Z :=
  let last :=
    if (0 <? d)%nat then check_domain_name ptr (N.of_nat d) dots else ret in
  match p with
  | [] => last
  | c :: p1 =>
      if Ascii.eqb c NUL || negb (0 <? len)%N then last else
      if negb (Ascii.eqb c " ") then
        check_domain_name_list_loop ptr p1 (S d) (len - 1)%N dots ret
      else if (0 <? d)%nat then
        if negb (check_domain_name ptr (N.of_nat d) dots =? 0) then -1
        else check_domain_name_list_loop p1 p1 0 (len - 1)%N dots 0
      else check_domain_name_list_loop p1 p1 0 (len - 1)%N dots ret
  end.

(** [check_domain_name_list]; a null [ptr] is [None]. *)
Definition check_domain_name_list (ptr : option cstring) (len : N) (dots : Z)
  : Z :=
  match ptr with
  | None => -1
  | Some s =>
      if (len =? 0)%N then -1
      else check_domain_name_list_loop s s 0 len dots (-1)
  end.

(** The characters [check_option_values] lets through in a root path. *)
Definition root_path_char (c : ascii) : bool :=
  isalnum c
  || existsb (Ascii.eqb c)
       ["#"; "%"; "+"; "-"; "_"; ":"; "."; ","; "@"; "~"; "\"; "/"; "[";
        "]"; "="; " "]%char.

Fixpoint root_path_loop (ptr : cstring) (len : N) : Z :=
  match ptr with
  | [] => 0
  | c :: rest =>
      if Ascii.eqb c NUL || (len =? 0)%N then 0
      else if negb (root_path_char c) then -1
      else root_path_loop rest (len - 1)%N
  end.

(** Option codes of includes/dhcp.h (RFC 2132, RFC 3397). *)
Definition DHO_HOST_NAME : Z := 12.
Definition DHO_DOMAIN_NAME : Z := 15.
Definition DHO_ROOT_PATH : Z := 17.
Definition DHO_NIS_DOMAIN : Z := 40.
Definition DHO_NETBIOS_SCOPE : Z := 47.
Definition DHO_DOMAIN_SEARCH : Z := 119.

(** Option codes of includes/dhcp6.h (RFC 3319, RFC 3646, RFC 3898). *)
Definition D6O_SIP_SERVERS_DNS : Z := 21.
Definition D6O_DOMAIN_SEARCH : Z := 24.
Definition D6O_NIS_DOMAIN_NAME : Z := 29.
Definition D6O_NISP_DOMAIN_NAME : Z := 30.

(** An option space ([struct universe]) is [dhcp_universe],
    [dhcpv6_universe] or another one; the functions below read the
    name of a space only when it is not [dhcp_universe].  A null
    universe is [None]. *)
Inductive universe :=
| dhcp_universe
| dhcpv6_universe (name : cstring)
| other_universe (name : cstring).

(** [check_option_values]; [accept_list] and [dhcpv6] are the
    compile-time switches ACCEPT_LIST_IN_DOMAIN_NAME and DHCPv6.  The
    value of a [return] inside a [switch] is [Some], and [None] is
    falling out of it. *)
Definition check_option_values (accept_list dhcpv6 : bool)
    (u : option universe) (opt : Z) (ptr : option cstring) (len : N) : Z :=
  match ptr with
  | None => -1
  | Some s =>
      let protected :=
        match u with
        | None | Some dhcp_universe =>
            (* just reject options we want to protect *)
            if opt =? DHO_DOMAIN_NAME then
              Some (if accept_list then check_domain_name_list ptr len 0
                    else check_domain_name s len 0)
            else if (opt =? DHO_HOST_NAME) || (opt =? DHO_NIS_DOMAIN)
                    || (opt =? DHO_NETBIOS_SCOPE) then
              Some (check_domain_name s len 0)
            else if opt =? DHO_DOMAIN_SEARCH then
              Some (check_domain_name_list ptr len 0)
            else if opt =? DHO_ROOT_PATH then
              Some (if (len =? 0)%N then -1 else root_path_loop s len)
            else None
        | _ => None
        end in
      match protected with
      | Some v => v
      | None =>
          match u with
          | Some (dhcpv6_universe _) =>
              if dhcpv6
                 && ((opt =? D6O_SIP_SERVERS_DNS) || (opt =? D6O_DOMAIN_SEARCH)
                     || (opt =? D6O_NIS_DOMAIN_NAME)
                     || (opt =? D6O_NISP_DOMAIN_NAME))
              then check_domain_name_list ptr len 0
              else 0
          | _ => 0
          end
      end
  end.

(** ** Names of the variables of the client script *)

(** The fields of [struct option] that [dhcp_option_ev_name] reads. *)
Record option_t := { o_name : cstring; o_universe : universe }.

(** The inner loop of [dhcp_option_ev_name]: [s] is copied to the
    buffer, [-] as [_]; [buf] is what the buffer holds, so that [j] is
    its length.  The boolean is false when the function returns 0. *)
Fixpoint ev_name_copy (s : cstring) (buf : cstring) (buflen : N)
  : bool * cstring :=
  match s with
  | [] => (true, buf)
  | c :: rest =>
      if Ascii.eqb c NUL then (true, buf)
      else if (N.of_nat (length buf) + 1 =? buflen)%N then (false, buf)
      else ev_name_copy rest
             (buf ++ [if Ascii.eqb c "-" then "_"%char else c]) buflen
  end.

(** [dhcp_option_ev_name]: the value returned and the bytes written to
    [buf]. *)
Definition dhcp_option_ev_name (buflen : N) (o : option_t) : Z * cstring :=
  match o_universe o with
  | dhcp_universe =>
      let (ok, buf) := ev_name_copy (o_name o) [] buflen in
      if ok then (1, buf ++ [NUL]) else (0, buf)
  | dhcpv6_universe uname | other_universe uname =>
      let (ok, buf) := ev_name_copy uname [] buflen in
      if negb ok then (0, buf)
      else if (N.of_nat (length buf) + 1 =? buflen)%N then (0, buf)
      else
        let (ok, buf) := ev_name_copy (o_name o) (buf ++ ["_"%char]) buflen in
        if ok then (1, buf ++ [NUL]) else (0, buf)
  end.

(** ** The statements about option values and script variables *)

(** The characters of a label, and those of a name. *)
Definition name_char (c : ascii) : bool :=
  isalnum c || Ascii.eqb c "-" || Ascii.eqb c "_".

Definition domain_char (c : ascii) : bool := name_char c || Ascii.eqb c ".".

(** The part of a string that a check with the length [len] looks at. *)
Definition examined (s : cstring) (len : N) : cstring :=
  firstn (N.to_nat len) (firstn (strlen s) s).

Definition dash (c : ascii) : bool := Ascii.eqb c "-" || Ascii.eqb c "_".

(** The labels of a name: the pieces between its dots. *)
Fixpoint labels (t : cstring) : list cstring :=
  match t with
  | [] => [[]]
  | c :: r =>
      if Ascii.eqb c "." then [] :: labels r
      else match labels r with
           | l :: ls => (c :: l) :: ls
           | [] => [[c]]
           end
  end.

(** A label is made of letters, digits, [-] and [_], and neither
    starts nor ends with [-] or [_]. *)
Definition label_ok (l : cstring) : bool :=
  match l with
  | [] => false
  | c :: _ => forallb name_char l && negb (dash c) && negb (dash (last l NUL))
  end.

(** Every label that a dot ends is a good label of at most 63
    characters; what follows the last dot is empty or a good label. *)
Fixpoint labels_ok (ls : list cstring) : bool :=
  match ls with
  | [] => false
  | l :: rest =>
      match rest with
      | [] => match l with [] => true | _ => label_ok l end
      | _ => label_ok l && (length l <=? 63)%nat && labels_ok rest
      end
  end.

Definition valid_domain_name (t : cstring) : bool :=
  (1 <=? length t)%nat && (length t <=? 256)%nat && labels_ok (labels t).

(** A character other than the terminator. *)
Definition not_nul (c : ascii) : bool := negb (Ascii.eqb c NUL).

(** The names of a list: the pieces between its blanks that are not
    empty; [cur] is the start of the first one. *)
Fixpoint names_from (cur t : cstring) : list cstring :=
  match t with
  | [] => match cur with [] => [] | _ => [cur] end
  | c :: r =>
      if Ascii.eqb c " " then
        match cur with
        | [] => names_from [] r
        | _ => cur :: names_from [] r
        end
      else names_from (cur ++ [c]) r
  end.

Definition names (t : cstring) : list cstring := names_from [] t.

Definition nonempty {A} (l : list A) : bool :=
  match l with [] => false | _ => true end.

(** The characters of a list of names. *)
Definition list_char (c : ascii) : bool := domain_char c || Ascii.eqb c " ".

(** The options whose values [check_option_values] screens. *)
Definition screened_options : list Z :=
  [DHO_HOST_NAME; DHO_DOMAIN_NAME; DHO_ROOT_PATH; DHO_NIS_DOMAIN;
   DHO_NETBIOS_SCOPE; DHO_DOMAIN_SEARCH].

Definition dash_to_underscore (c : ascii) : ascii :=
  if Ascii.eqb c "-" then "_"%char else c.

(** The characters of a C string. *)
Definition chars (s : cstring) : cstring := firstn (strlen s) s.

(** The name [dhcp_option_ev_name] is to produce: the option name,
    after the name of its option space and [_] when the space is not
    the DHCP one. *)
Definition ev_name (o : option_t) : cstring :=
  match o_universe o with
  | dhcp_universe => chars (o_name o)
  | dhcpv6_universe uname | other_universe uname =>
      chars uname ++ "_"%char :: chars (o_name o)
  end.

(** ** The statement about the list of leases *)

(** At most one lease per address from the server or the lease file,
    and at most one per address from the configuration file. *)
Definition one_per_address (ls : list client_lease) : Prop :=
  ForallOrdPairs
    (fun x y => is_static x = is_static y -> address x <> address y) ls.

(** ** The statements about requests and releases *)

(** The address a client talks to about the lease [a]: the first four
    bytes of the server identifier of the lease, and the broadcast
    address when it has none of at least four bytes. *)
Definition server_of (a : client_lease) : iaddr :=
  match lookup_option DHO_DHCP_SERVER_IDENTIFIER (l_options a) with
  | Some (Some ds) => if (3 <? length ds)%nat then firstn 4 ds
                      else iaddr_broadcast
  | _ => iaddr_broadcast
  end.

(** The timers that [do_release] cancels. *)
Definition release_cancels : list callback :=
  [CB_state_bound; CB_send_discover; CB_state_init; CB_send_request;
   CB_state_reboot].

(** * Properties *)

Unset Implicit Arguments.

(** ** The store of client states *)

Lemma nth_error_alter_nth {A : Type} (f : A -> A) (n m : nat) (l : list A) :
  nth_error (alter_nth f n l) m
  = if Nat.eqb n m then option_map f (nth_error l m) else nth_error l m.
Proof.
  revert n m. induction l as [|x l IH]; intros [|n] [|m]; cbn; try reflexivity.
  - destruct (Nat.eqb n m); reflexivity.
  - apply IH.
Qed.

Lemma length_alter_nth {A : Type} (f : A -> A) (n : nat) (l : list A) :
  length (alter_nth f n l) = length l.
Proof.
  revert n. induction l as [|x l IH]; intros [|n]; cbn; try reflexivity.
  f_equal. apply IH.
Qed.

Lemma cref_eqb_refl r : cref_eqb r r = true.
Proof.
  unfold cref_eqb. rewrite !Nat.eqb_refl.
  destruct (r_dummy r); reflexivity.
Qed.

Lemma cref_eqb_eq r r' : cref_eqb r r' = true <-> r = r'.
Proof.
  split; [|intros ->; apply cref_eqb_refl].
  destruct r as [d i n], r' as [d' i' n']. unfold cref_eqb. cbn.
  rewrite !andb_true_iff, !Nat.eqb_eq, Bool.eqb_true_iff.
  intros ((-> & ->) & ->). reflexivity.
Qed.

Lemma eqb_false_negb (a b : bool) : Bool.eqb a b = false -> b = negb a.
Proof. destruct a, b; cbn; congruence. Qed.

Lemma iface_list_upd_same r f w :
  iface_list (r_dummy r) (upd_client r f w)
  = upd_iface_list r f (iface_list (r_dummy r) w).
Proof. unfold upd_client, iface_list. destruct (r_dummy r); reflexivity. Qed.

Lemma iface_list_upd_other r f w :
  iface_list (negb (r_dummy r)) (upd_client r f w)
  = iface_list (negb (r_dummy r)) w.
Proof. unfold upd_client, iface_list. destruct (r_dummy r); reflexivity. Qed.

(** Reading a client after an assignment through a client pointer. *)
Lemma get_client_upd r' f w r :
  get_client (upd_client r' f w) r
  = if cref_eqb r' r then option_map f (get_client w r) else get_client w r.
Proof.
  unfold get_client, cref_eqb.
  destruct (Bool.eqb (r_dummy r') (r_dummy r)) eqn:Ed.
  - apply Bool.eqb_prop in Ed. rewrite <- Ed, iface_list_upd_same.
    unfold upd_iface_list. rewrite nth_error_alter_nth.
    destruct (Nat.eqb (r_if r') (r_if r)) eqn:Ei; cbn [andb]; [|reflexivity].
    destruct (nth_error (iface_list (r_dummy r') w) (r_if r)) as [ip|];
      cbn [option_map client set_client];
      [|destruct (Nat.eqb (r_cl r') (r_cl r)); reflexivity].
    apply nth_error_alter_nth.
  - cbn [andb].
    assert (E : r_dummy r = negb (r_dummy r'))
      by (apply eqb_false_negb; exact Ed).
    rewrite E, iface_list_upd_other. reflexivity.
Qed.

Lemma get_client_upd_same r f w :
  get_client (upd_client r f w) r = option_map f (get_client w r).
Proof. rewrite get_client_upd, cref_eqb_refl. reflexivity. Qed.

Lemma deref_Some w r c : get_client w r = Some c -> deref w r = c.
Proof. unfold deref. intros ->. reflexivity. Qed.

(** The name and the hardware address of an interface do not change. *)
Lemma iface_of_upd r' f w r :
  iface_of (upd_client r' f w) r
  = (if Bool.eqb (r_dummy r') (r_dummy r) && Nat.eqb (r_if r') (r_if r)
     then set_client (alter_nth f (r_cl r') (client (iface_of w r)))
            (iface_of w r)
     else iface_of w r)
  \/ (nth_error (iface_list (r_dummy r) w) (r_if r) = None
      /\ iface_of (upd_client r' f w) r = iface_null
      /\ iface_of w r = iface_null).
Proof.
  unfold iface_of.
  destruct (nth_error (iface_list (r_dummy r) w) (r_if r)) as [ip|] eqn:En.
  - left. destruct (Bool.eqb (r_dummy r') (r_dummy r)) eqn:Ed.
    + apply Bool.eqb_prop in Ed. rewrite <- !Ed in *.
      rewrite iface_list_upd_same. unfold upd_iface_list.
      rewrite (nth_error_nth _ _ _ En).
      destruct (Nat.eqb (r_if r') (r_if r)) eqn:Ei; cbn [andb].
      * apply nth_error_nth.
        rewrite nth_error_alter_nth, Ei, En. reflexivity.
      * apply nth_error_nth.
        rewrite nth_error_alter_nth, Ei, En. reflexivity.
    + cbn [andb].
      assert (E : r_dummy r = negb (r_dummy r'))
        by (apply eqb_false_negb; exact Ed).
      rewrite E, iface_list_upd_other. reflexivity.
  - right. split; [reflexivity|].
    assert (Hn : forall l, nth_error l (r_if r) = None ->
                           nth (r_if r) l iface_null = iface_null).
    { intros l Hl. apply nth_overflow. apply nth_error_None. exact Hl. }
    split; [|apply Hn; exact En].
    apply Hn.
    destruct (Bool.eqb (r_dummy r') (r_dummy r)) eqn:Ed.
    + apply Bool.eqb_prop in Ed. rewrite <- !Ed in *.
      rewrite iface_list_upd_same. unfold upd_iface_list.
      rewrite nth_error_alter_nth, En.
      destruct (Nat.eqb (r_if r') (r_if r)); reflexivity.
    + assert (E : r_dummy r = negb (r_dummy r'))
        by (apply eqb_false_negb; exact Ed).
      rewrite E, iface_list_upd_other. rewrite <- E. exact En.
Qed.

Lemma if_name_upd r' f w r :
  if_name (iface_of (upd_client r' f w) r) = if_name (iface_of w r).
Proof.
  destruct (iface_of_upd r' f w r) as [-> | (_ & -> & ->)]; [|reflexivity].
  destruct (_ && _); reflexivity.
Qed.

(** The rest of the world does not change. *)
Lemma cur_tv_upd r f w : cur_tv (upd_client r f w) = cur_tv w.
Proof. unfold upd_client. destruct (r_dummy r); reflexivity. Qed.

Lemma timeouts_upd r f w : timeouts (upd_client r f w) = timeouts w.
Proof. unfold upd_client. destruct (r_dummy r); reflexivity. Qed.

Lemma leaseFile_upd r f w : leaseFile (upd_client r f w) = leaseFile w.
Proof. unfold upd_client. destruct (r_dummy r); reflexivity. Qed.

Lemma leases_written_upd r f w :
  leases_written (upd_client r f w) = leases_written w.
Proof. unfold upd_client. destruct (r_dummy r); reflexivity. Qed.

Lemma default_duid_upd r f w : default_duid (upd_client r f w) = default_duid w.
Proof. unfold upd_client. destruct (r_dummy r); reflexivity. Qed.

Lemma giaddr_upd r f w : giaddr (upd_client r f w) = giaddr w.
Proof. unfold upd_client. destruct (r_dummy r); reflexivity. Qed.

Lemma fallback_interface_upd r f w :
  fallback_interface (upd_client r f w) = fallback_interface w.
Proof. unfold upd_client. destruct (r_dummy r); reflexivity. Qed.

Lemma onetry_upd r f w : onetry (upd_client r f w) = onetry w.
Proof. unfold upd_client. destruct (r_dummy r); reflexivity. Qed.

Lemma decline_wait_time_upd r f w :
  decline_wait_time (upd_client r f w) = decline_wait_time w.
Proof. unfold upd_client. destruct (r_dummy r); reflexivity. Qed.

Lemma rand_src_upd r f w : rand_src (upd_client r f w) = rand_src w.
Proof. unfold upd_client. destruct (r_dummy r); reflexivity. Qed.

Lemma rand_pos_upd r f w : rand_pos (upd_client r f w) = rand_pos w.
Proof. unfold upd_client. destruct (r_dummy r); reflexivity. Qed.

Lemma script_src_upd r f w : script_src (upd_client r f w) = script_src w.
Proof. unfold upd_client. destruct (r_dummy r); reflexivity. Qed.

Lemma script_pos_upd r f w : script_pos (upd_client r f w) = script_pos w.
Proof. unfold upd_client. destruct (r_dummy r); reflexivity. Qed.

Lemma dmalloc_ok_upd r f w : dmalloc_ok (upd_client r f w) = dmalloc_ok w.
Proof. unfold upd_client. destruct (r_dummy r); reflexivity. Qed.

Lemma fopen_ok_upd r f w : fopen_ok (upd_client r f w) = fopen_ok w.
Proof. unfold upd_client. destruct (r_dummy r); reflexivity. Qed.

Lemma fprintf_ok_upd r f w : fprintf_ok (upd_client r f w) = fprintf_ok w.
Proof. unfold upd_client. destruct (r_dummy r); reflexivity. Qed.

Lemma fflush_ok_upd r f w : fflush_ok (upd_client r f w) = fflush_ok w.
Proof. unfold upd_client. destruct (r_dummy r); reflexivity. Qed.

Lemma fsync_ok_upd r f w : fsync_ok (upd_client r f w) = fsync_ok w.
Proof. unfold upd_client. destruct (r_dummy r); reflexivity. Qed.

Lemma scripts_upd r f w : scripts (upd_client r f w) = scripts w.
Proof. unfold upd_client. destruct (r_dummy r); reflexivity. Qed.

Lemma sent_upd r f w : sent (upd_client r f w) = sent w.
Proof. unfold upd_client. destruct (r_dummy r); reflexivity. Qed.

Lemma freed_upd r f w : freed (upd_client r f w) = freed w.
Proof. unfold upd_client. destruct (r_dummy r); reflexivity. Qed.

Lemma rewrites_upd r f w : rewrites (upd_client r f w) = rewrites w.
Proof. unfold upd_client. destruct (r_dummy r); reflexivity. Qed.

Lemma heap_next_upd r f w : heap_next (upd_client r f w) = heap_next w.
Proof. unfold upd_client. destruct (r_dummy r); reflexivity. Qed.

(** Assignments to the globals do not touch the client store. *)
Lemma get_client_set_cur_tv v w r :
  get_client (set_cur_tv v w) r = get_client w r.
Proof. reflexivity. Qed.

Lemma iface_of_set_cur_tv v w r : iface_of (set_cur_tv v w) r = iface_of w r.
Proof. reflexivity. Qed.

Lemma iface_set_cur_tv v w i : iface (set_cur_tv v w) i = iface w i.
Proof. reflexivity. Qed.

Lemma get_client_set_timeouts v w r :
  get_client (set_timeouts v w) r = get_client w r.
Proof. reflexivity. Qed.

Lemma iface_of_set_timeouts v w r :
  iface_of (set_timeouts v w) r = iface_of w r.
Proof. reflexivity. Qed.

Lemma iface_set_timeouts v w i : iface (set_timeouts v w) i = iface w i.
Proof. reflexivity. Qed.

Lemma get_client_set_leaseFile v w r :
  get_client (set_leaseFile v w) r = get_client w r.
Proof. reflexivity. Qed.

Lemma iface_of_set_leaseFile v w r :
  iface_of (set_leaseFile v w) r = iface_of w r.
Proof. reflexivity. Qed.

Lemma iface_set_leaseFile v w i : iface (set_leaseFile v w) i = iface w i.
Proof. reflexivity. Qed.

Lemma get_client_set_leases_written v w r :
  get_client (set_leases_written v w) r = get_client w r.
Proof. reflexivity. Qed.

Lemma iface_of_set_leases_written v w r :
  iface_of (set_leases_written v w) r = iface_of w r.
Proof. reflexivity. Qed.

Lemma iface_set_leases_written v w i :
  iface (set_leases_written v w) i = iface w i.
Proof. reflexivity. Qed.

Lemma get_client_set_rand_pos v w r :
  get_client (set_rand_pos v w) r = get_client w r.
Proof. reflexivity. Qed.

Lemma iface_of_set_rand_pos v w r :
  iface_of (set_rand_pos v w) r = iface_of w r.
Proof. reflexivity. Qed.

Lemma iface_set_rand_pos v w i : iface (set_rand_pos v w) i = iface w i.
Proof. reflexivity. Qed.

Lemma get_client_set_script_pos v w r :
  get_client (set_script_pos v w) r = get_client w r.
Proof. reflexivity. Qed.

Lemma iface_of_set_script_pos v w r :
  iface_of (set_script_pos v w) r = iface_of w r.
Proof. reflexivity. Qed.

Lemma iface_set_script_pos v w i : iface (set_script_pos v w) i = iface w i.
Proof. reflexivity. Qed.

Lemma get_client_set_scripts v w r :
  get_client (set_scripts v w) r = get_client w r.
Proof. reflexivity. Qed.

Lemma iface_of_set_scripts v w r : iface_of (set_scripts v w) r = iface_of w r.
Proof. reflexivity. Qed.

Lemma iface_set_scripts v w i : iface (set_scripts v w) i = iface w i.
Proof. reflexivity. Qed.

Lemma get_client_set_sent v w r : get_client (set_sent v w) r = get_client w r.
Proof. reflexivity. Qed.

Lemma iface_of_set_sent v w r : iface_of (set_sent v w) r = iface_of w r.
Proof. reflexivity. Qed.

Lemma iface_set_sent v w i : iface (set_sent v w) i = iface w i.
Proof. reflexivity. Qed.

Lemma get_client_set_freed v w r :
  get_client (set_freed v w) r = get_client w r.
Proof. reflexivity. Qed.

Lemma iface_of_set_freed v w r : iface_of (set_freed v w) r = iface_of w r.
Proof. reflexivity. Qed.

Lemma iface_set_freed v w i : iface (set_freed v w) i = iface w i.
Proof. reflexivity. Qed.

Lemma get_client_set_rewrites v w r :
  get_client (set_rewrites v w) r = get_client w r.
Proof. reflexivity. Qed.

Lemma iface_of_set_rewrites v w r :
  iface_of (set_rewrites v w) r = iface_of w r.
Proof. reflexivity. Qed.

Lemma iface_set_rewrites v w i : iface (set_rewrites v w) i = iface w i.
Proof. reflexivity. Qed.

Lemma get_client_set_heap_next v w r :
  get_client (set_heap_next v w) r = get_client w r.
Proof. reflexivity. Qed.

Lemma iface_of_set_heap_next v w r :
  iface_of (set_heap_next v w) r = iface_of w r.
Proof. reflexivity. Qed.

Lemma iface_set_heap_next v w i : iface (set_heap_next v w) i = iface w i.
Proof. reflexivity. Qed.

Lemma get_client_add_timeout tv f0 r0 w r :
  get_client (add_timeout tv f0 r0 w) r = get_client w r.
Proof. reflexivity. Qed.

Lemma iface_of_add_timeout tv f0 r0 w r :
  iface_of (add_timeout tv f0 r0 w) r = iface_of w r.
Proof. reflexivity. Qed.

Lemma get_client_cancel_timeout f0 r0 w r :
  get_client (cancel_timeout f0 r0 w) r = get_client w r.
Proof. reflexivity. Qed.

Lemma iface_of_cancel_timeout f0 r0 w r :
  iface_of (cancel_timeout f0 r0 w) r = iface_of w r.
Proof. reflexivity. Qed.

Lemma get_client_send_packet b i p a1 a2 w r :
  get_client (send_packet b i p a1 a2 w) r = get_client w r.
Proof. reflexivity. Qed.

Lemma iface_of_send_packet b i p a1 a2 w r :
  iface_of (send_packet b i p a1 a2 w) r = iface_of w r.
Proof. reflexivity. Qed.

Lemma get_client_destroy_client_lease l w r :
  get_client (destroy_client_lease l w) r = get_client w r.
Proof. reflexivity. Qed.

Lemma iface_of_destroy_client_lease l w r :
  iface_of (destroy_client_lease l w) r = iface_of w r.
Proof. reflexivity. Qed.

(** Assignments to globals and through client pointers commute. *)
Lemma upd_client_set_cur_tv r f v w :
  upd_client r f (set_cur_tv v w) = set_cur_tv v (upd_client r f w).
Proof. unfold upd_client. destruct (r_dummy r); reflexivity. Qed.

Lemma upd_client_set_timeouts r f v w :
  upd_client r f (set_timeouts v w) = set_timeouts v (upd_client r f w).
Proof. unfold upd_client. destruct (r_dummy r); reflexivity. Qed.

Lemma upd_client_set_leaseFile r f v w :
  upd_client r f (set_leaseFile v w) = set_leaseFile v (upd_client r f w).
Proof. unfold upd_client. destruct (r_dummy r); reflexivity. Qed.

Lemma upd_client_set_leases_written r f v w :
  upd_client r f (set_leases_written v w) = set_leases_written v (upd_client
    r f w).
Proof. unfold upd_client. destruct (r_dummy r); reflexivity. Qed.

Lemma upd_client_set_rand_pos r f v w :
  upd_client r f (set_rand_pos v w) = set_rand_pos v (upd_client r f w).
Proof. unfold upd_client. destruct (r_dummy r); reflexivity. Qed.

Lemma upd_client_set_script_pos r f v w :
  upd_client r f (set_script_pos v w) = set_script_pos v (upd_client r f w).
Proof. unfold upd_client. destruct (r_dummy r); reflexivity. Qed.

Lemma upd_client_set_scripts r f v w :
  upd_client r f (set_scripts v w) = set_scripts v (upd_client r f w).
Proof. unfold upd_client. destruct (r_dummy r); reflexivity. Qed.

Lemma upd_client_set_sent r f v w :
  upd_client r f (set_sent v w) = set_sent v (upd_client r f w).
Proof. unfold upd_client. destruct (r_dummy r); reflexivity. Qed.

Lemma upd_client_set_freed r f v w :
  upd_client r f (set_freed v w) = set_freed v (upd_client r f w).
Proof. unfold upd_client. destruct (r_dummy r); reflexivity. Qed.

Lemma upd_client_set_rewrites r f v w :
  upd_client r f (set_rewrites v w) = set_rewrites v (upd_client r f w).
Proof. unfold upd_client. destruct (r_dummy r); reflexivity. Qed.

Lemma upd_client_set_heap_next r f v w :
  upd_client r f (set_heap_next v w) = set_heap_next v (upd_client r f w).
Proof. unfold upd_client. destruct (r_dummy r); reflexivity. Qed.

Lemma upd_client_add_timeout r f tv f0 r0 w :
  upd_client r f (add_timeout tv f0 r0 w) = add_timeout tv f0 r0 (upd_client
    r f w).
Proof. unfold upd_client. destruct (r_dummy r); reflexivity. Qed.

Lemma upd_client_cancel_timeout r f f0 r0 w :
  upd_client r f (cancel_timeout f0 r0 w) = cancel_timeout f0 r0 (upd_client
    r f w).
Proof. unfold upd_client. destruct (r_dummy r); reflexivity. Qed.

Lemma upd_client_send_packet r f b i p a1 a2 w :
  upd_client r f (send_packet b i p a1 a2 w) = send_packet b i p a1 a2
    (upd_client r f w).
Proof. unfold upd_client. destruct (r_dummy r); reflexivity. Qed.

Lemma upd_client_destroy_client_lease r f l w :
  upd_client r f (destroy_client_lease l w) = destroy_client_lease l
    (upd_client r f w).
Proof. unfold upd_client. destruct (r_dummy r); reflexivity. Qed.

Create Rewrite HintDb world.

#[export] Hint Rewrite get_client_upd cref_eqb_refl if_name_upd
  cur_tv_upd timeouts_upd leaseFile_upd leases_written_upd default_duid_upd
  giaddr_upd fallback_interface_upd onetry_upd decline_wait_time_upd
  rand_src_upd rand_pos_upd script_src_upd script_pos_upd dmalloc_ok_upd
  fopen_ok_upd fprintf_ok_upd fflush_ok_upd fsync_ok_upd scripts_upd
  sent_upd freed_upd rewrites_upd heap_next_upd : world.

#[export] Hint Rewrite
  get_client_set_cur_tv iface_of_set_cur_tv iface_set_cur_tv
  get_client_set_timeouts iface_of_set_timeouts iface_set_timeouts
  get_client_set_leaseFile iface_of_set_leaseFile iface_set_leaseFile
  get_client_set_leases_written iface_of_set_leases_written
  iface_set_leases_written get_client_set_rand_pos iface_of_set_rand_pos
  iface_set_rand_pos get_client_set_script_pos iface_of_set_script_pos
  iface_set_script_pos get_client_set_scripts iface_of_set_scripts
  iface_set_scripts get_client_set_sent iface_of_set_sent iface_set_sent
  get_client_set_freed iface_of_set_freed iface_set_freed
  get_client_set_rewrites iface_of_set_rewrites iface_set_rewrites
  get_client_set_heap_next iface_of_set_heap_next iface_set_heap_next
  get_client_add_timeout iface_of_add_timeout get_client_cancel_timeout
  iface_of_cancel_timeout get_client_send_packet iface_of_send_packet
  get_client_destroy_client_lease iface_of_destroy_client_lease
  upd_client_set_cur_tv upd_client_set_timeouts upd_client_set_leaseFile
  upd_client_set_leases_written upd_client_set_rand_pos
  upd_client_set_script_pos upd_client_set_scripts upd_client_set_sent
  upd_client_set_freed upd_client_set_rewrites upd_client_set_heap_next
  upd_client_add_timeout upd_client_cancel_timeout upd_client_send_packet
  upd_client_destroy_client_lease : world.

(** Bookkeeping: projections of records after setters, and the rewrite
    rules of the client store. *)
Ltac record_simpl :=
  cbn [interfaces dummy_interfaces cur_tv timeouts leaseFile leases_written
    default_duid giaddr fallback_interface onetry decline_wait_time rand_src
    rand_pos script_src script_pos dmalloc_ok fopen_ok fprintf_ok fflush_ok
    fsync_ok scripts sent freed rewrites heap_next
       set_interfaces set_dummy_interfaces set_cur_tv set_timeouts
       set_leaseFile set_leases_written set_rand_pos set_script_pos
       set_scripts set_sent set_freed set_rewrites set_heap_next
       state xid active new alias offered_leases leases medium destination
       first_sending interval c_packet secs requested_address sent_options
       last_write env c_name config
       set_state set_xid set_active set_new set_offered_leases set_leases
       set_medium set_destination set_first_sending set_interval
       set_c_packet set_secs set_requested_address set_sent_options
       set_last_write set_env set_config
       l_ptr expiry renewal rebind address next_srv_addr server_name
       filename l_medium is_static is_bootp l_options set_times set_expiry
       set_renewal set_rebind set_l_medium
       set_is_bootp
       reject_list set_reject_list
       cancel_timeout add_timeout send_packet destroy_client_lease cur_time
       tv_sec tv_usec t_when t_func t_what
       option_map fst snd negb andb orb] in *.

Ltac wsimpl :=
  repeat (progress (unfold cur_time in *; autorewrite with world in *;
                    record_simpl)).

(** ** Arithmetic of [TIME] *)

Section TimeFacts.
Context {P : Platform}.
Hypothesis HP : platform_ok P.

Let H := 2 ^ (time_bits - 1).

Lemma time_range :
  2147483648 <= H /\ 2 ^ time_bits = 2 * H /\ 0 < TIME_MAX <= H - 1.
Proof.
  destruct HP as (Hb & Hpos & Hmax). unfold H.
  split; [|split; [|lia]].
  - change 2147483648 with (2 ^ 31). apply Z.pow_le_mono_r; lia.
  - replace time_bits with (Z.succ (time_bits - 1)) at 1 by lia.
    rewrite Z.pow_succ_r by lia. reflexivity.
Qed.

Lemma time_of_small z : - H <= z < H -> time_of z = z.
Proof.
  intros Hz. destruct time_range as (H31 & H2 & _).
  unfold time_of, wrap. fold H. rewrite H2.
  rewrite Z.mod_small by lia. lia.
Qed.

Lemma time_of_over z : H <= z < 2 * H -> time_of z = z - 2 * H.
Proof.
  intros Hz. destruct time_range as (H31 & H2 & _).
  unfold time_of, wrap. fold H. rewrite H2.
  replace (z + H) with ((z - H) + 1 * (2 * H)) by lia.
  rewrite Z.mod_add by lia. rewrite Z.mod_small by lia. lia.
Qed.

Lemma time_of_range z : - H <= time_of z < H.
Proof.
  destruct time_range as (H31 & H2 & _).
  unfold time_of, wrap. fold H. rewrite H2.
  pose proof (Z.mod_pos_bound (z + H) (2 * H)). lia.
Qed.

(** A 32-bit value converted to [TIME] is the value itself when [TIME]
    is wider than 32 bits. *)
Lemma time_of_u32 z :
  0 <= z < 4294967296 ->
  time_of z = z \/ (time_bits = 32 /\ time_of z = z - 4294967296).
Proof.
  intros Hz. destruct HP as (Hb & _).
  destruct (Z.eq_dec time_bits 32) as [E|NE].
  - assert (HH : H = 2147483648) by (unfold H; rewrite E; reflexivity).
    destruct (Z_lt_dec z H).
    + left. apply time_of_small. lia.
    + right. split; [exact E|]. rewrite time_of_over by lia. lia.
  - left. apply time_of_small.
    assert (4294967296 <= H).
    { unfold H. change 4294967296 with (2 ^ 32).
      apply Z.pow_le_mono_r; lia. }
    lia.
Qed.

Lemma getULong_range d : 0 <= getULong d < 4294967296.
Proof.
  unfold getULong, u32_of.
  destruct d as [|b0 [|b1 [|b2 [|b3 d]]]]; try lia.
  apply Z.mod_pos_bound. lia.
Qed.

Lemma ack_add_eq now v :
  0 <= now <= H - 1 -> 0 <= v <= H - 1 ->
  ack_add now v = saturating_add now v.
Proof.
  intros Hn Hv. unfold ack_add, saturating_add, tadd, time_max_value.
  fold H.
  destruct (Z_lt_dec (v + now) H).
  - rewrite time_of_small by lia.
    destruct (Z.ltb_spec (v + now) now); destruct (Z.leb_spec (now + v) (H
      - 1)); lia.
  - rewrite time_of_over by lia.
    destruct (Z.ltb_spec (v + now - 2 * H) now); destruct (Z.leb_spec (now
      + v) (H - 1)); lia.
Qed.

Lemma saturating_add_mono now v1 v2 :
  clock_ok now -> 0 <= v1 <= v2 -> v2 <= H - 1 ->
  (TIME_MAX = time_max_value \/ v2 < 4294967296) ->
  saturating_add now v1 <= saturating_add now v2.
Proof.
  intros (Hn & Hsat) Hv Hv2 Hb. destruct time_range as (_ & _ & HT).
  unfold saturating_add, time_max_value in *. fold H in Hn, Hsat, Hb |- *.
  destruct (Z.leb_spec (now + v1) (H - 1));
    destruct (Z.leb_spec (now + v2) (H - 1)); try lia.
Qed.

(** Each step of the computation of [dhcpack] is free of overflow: it
    is the same step in exact arithmetic. *)

Ltac time_small := rewrite ?time_of_small; try lia.

Lemma ack_expiry_eq l :
  - H <= l < H -> l <> 0 ->
  ack_expiry l = (if l <? 0 then TIME_MAX else l)
  /\ 0 < ack_expiry l <= H - 1.
Proof.
  intros Hl Hn. destruct time_range as (_ & _ & HT). unfold ack_expiry.
  split; [reflexivity|]. destruct (Z.ltb_spec l 0); lia.
Qed.

Lemma ack_renewal_eq e r0 :
  0 < e <= H - 1 -> - H <= r0 < H ->
  ack_renewal e r0
  = (if r0 =? 0 then e / 2 + 1 else if r0 <? 0 then TIME_MAX else r0)
  /\ 0 < ack_renewal e r0 <= H - 1.
Proof.
  intros He Hr. destruct time_range as (H31 & _ & HT).
  unfold ack_renewal, tadd, tdiv.
  assert (Hq : Z.quot e 2 = e / 2) by (apply Z.quot_div_nonneg; lia).
  assert (Hd : 0 <= e / 2 <= e - 1)
    by (Z.to_euclidean_division_equations; lia).
  rewrite Hq.
  rewrite (time_of_small (e / 2)) by lia.
  rewrite (time_of_small (e / 2 + 1)) by lia.
  destruct (Z.eqb_spec r0 0) as [->|Hr0].
  - destruct (Z.leb_spec (e / 2 + 1) 0); lia.
  - destruct (Z.leb_spec r0 0); destruct (Z.ltb_spec r0 0); lia.
Qed.

Lemma ack_jitter_eq r x :
  0 < r <= TIME_MAX / 3 - 3 -> 0 <= x ->
  ack_jitter r x = (3 * r + 3) / 4 + (x mod r + 3) / 4
  /\ 0 < ack_jitter r x <= r + 2.
Proof.
  intros Hr Hx. destruct time_range as (H31 & _ & HT).
  assert (H3 : 3 * r + 9 <= TIME_MAX)
    by (Z.to_euclidean_division_equations; lia).
  assert (Hm : 0 <= x mod r < r) by (apply Z.mod_pos_bound; lia).
  assert (Hrem : Z.rem x r = x mod r) by (apply Z.rem_mod_nonneg; lia).
  assert (Ha : 0 <= (3 * r + 3) / 4 <= r)
    by (Z.to_euclidean_division_equations; lia).
  assert (Hb : 0 <= (x mod r + 3) / 4 <= r + 2 - (3 * r + 3) / 4)
    by (Z.to_euclidean_division_equations; lia).
  assert (Hc : 0 < (3 * r + 3) / 4)
    by (Z.to_euclidean_division_equations; lia).
  unfold ack_jitter, tadd, tdiv, tmul, trem. rewrite Hrem.
  replace (r * 3) with (3 * r) by lia.
  rewrite (time_of_small (3 * r)) by lia.
  rewrite (time_of_small (3 * r + 3)) by lia.
  rewrite (Z.quot_div_nonneg (3 * r + 3) 4) by lia.
  rewrite (time_of_small ((3 * r + 3) / 4)) by lia.
  rewrite (time_of_small (x mod r)) by lia.
  rewrite (time_of_small (x mod r + 3)) by lia.
  rewrite (Z.quot_div_nonneg (x mod r + 3) 4) by lia.
  rewrite (time_of_small ((x mod r + 3) / 4)) by lia.
  rewrite time_of_small by lia.
  split; [reflexivity | lia].
Qed.

Lemma ack_rebind_eq e b0 :
  0 < e <= H - 1 -> - H <= b0 < H ->
  ack_rebind e b0
  = (if b0 <=? 0
     then if e <=? TIME_MAX / 7 then e * 7 / 8 else e / 8 * 7
     else b0)
  /\ 0 <= ack_rebind e b0 <= H - 1
  /\ (b0 <= e -> ack_rebind e b0 <= e).
Proof.
  intros He Hb. destruct time_range as (H31 & _ & HT).
  unfold ack_rebind, tdiv, tmul.
  rewrite (Z.quot_div_nonneg TIME_MAX 7) by lia.
  destruct (Z.leb_spec b0 0); [|repeat split; lia].
  destruct (Z.leb_spec e (TIME_MAX / 7)) as [Hs|Hs].
  - assert (7 * e <= TIME_MAX) by (Z.to_euclidean_division_equations; lia).
    assert (0 <= e * 7 / 8 <= e) by (Z.to_euclidean_division_equations; lia).
    rewrite (time_of_small (e * 7)) by lia.
    rewrite (Z.quot_div_nonneg (e * 7) 8) by lia.
    rewrite time_of_small by lia. repeat split; lia.
  - assert (0 <= e / 8 * 7 <= e) by (Z.to_euclidean_division_equations; lia).
    assert (0 <= e / 8 <= e) by (Z.to_euclidean_division_equations; lia).
    rewrite (Z.quot_div_nonneg e 8) by lia.
    rewrite (time_of_small (e / 8)) by lia.
    rewrite time_of_small by lia. repeat split; lia.
Qed.

Lemma ack_clamp_eq r b :
  0 <= r <= H - 1 -> 0 <= b <= H - 1 ->
  ack_clamp r b
  = (if b <? r
     then if b <=? TIME_MAX / 3 then b * 3 / 4 else b / 4 * 3
     else r)
  /\ 0 <= ack_clamp r b <= b.
Proof.
  intros Hr Hb. destruct time_range as (H31 & _ & HT).
  unfold ack_clamp, tdiv, tmul.
  rewrite (Z.quot_div_nonneg TIME_MAX 3) by lia.
  destruct (Z.ltb_spec b r); [|split; lia].
  destruct (Z.leb_spec b (TIME_MAX / 3)) as [Hs|Hs].
  - assert (3 * b <= TIME_MAX) by (Z.to_euclidean_division_equations; lia).
    assert (0 <= b * 3 / 4 <= b) by (Z.to_euclidean_division_equations; lia).
    rewrite (time_of_small (b * 3)) by lia.
    rewrite (Z.quot_div_nonneg (b * 3) 4) by lia.
    rewrite time_of_small by lia. split; [reflexivity | lia].
  - assert (0 <= b / 4 * 3 <= b) by (Z.to_euclidean_division_equations; lia).
    assert (0 <= b / 4 <= b) by (Z.to_euclidean_division_equations; lia).
    rewrite (Z.quot_div_nonneg b 4) by lia.
    rewrite (time_of_small (b / 4)) by lia.
    rewrite time_of_small by lia. split; [reflexivity | lia].
Qed.

(** The renewal time before the clamp: the jitter, where the guard
    allows it. *)
Lemma jittered_range r x :
  0 < r <= H - 1 -> 0 <= x ->
  0 <= (if jitter_allowed r then ack_jitter r x else r) <= H - 1
  /\ (if jitter_allowed r then ack_jitter r x else r)
     = (if r <=? TIME_MAX / 3 - 3
        then (3 * r + 3) / 4 + (x mod r + 3) / 4 else r).
Proof.
  intros Hr Hx. destruct time_range as (H31 & _ & HT).
  unfold jitter_allowed. rewrite (Z.quot_div_nonneg TIME_MAX 3) by lia.
  destruct (Z.leb_spec r (TIME_MAX / 3 - 3)) as [Hs|Hs]; [|split;
    [lia|reflexivity]].
  destruct (ack_jitter_eq r x) as (-> & Hj); [lia|lia|].
  assert (3 * r + 9 <= TIME_MAX) by (Z.to_euclidean_division_equations; lia).
  split; [|reflexivity].
  assert (Hm : 0 <= x mod r < r) by (apply Z.mod_pos_bound; lia).
  Z.to_euclidean_division_equations; lia.
Qed.

Lemma option_time_from_wire code os : from_wire (option_time code os).
Proof.
  unfold option_time, from_wire, evaluate_option_cache.
  assert (Hz : exists u, 0 <= u < 4294967296 /\ 0 = time_of u).
  { exists 0. split; [lia|]. symmetry. apply time_of_small.
    destruct time_range. lia. }
  destruct (lookup_option code os) as [[ds|]|]; try exact Hz.
  destruct (3 <? length ds)%nat; [|exact Hz].
  exists (getULong ds). split; [apply getULong_range | reflexivity].
Qed.

Lemma from_wire_range v : from_wire v -> - H <= v < H.
Proof. intros (u & _ & ->). apply time_of_range. Qed.

Lemma from_wire_cases v :
  from_wire v ->
  (0 <= v < 4294967296) \/ (time_bits = 32 /\ v < 0).
Proof.
  intros (u & Hu & ->).
  destruct (time_of_u32 u Hu) as [-> | (E & ->)]; [left; lia | right; lia].
Qed.

(** The code computes the guarded times. *)
Lemma dhcpack_times_guarded now l r0 b0 x :
  0 <= now <= H - 1 -> from_wire l -> l <> 0 -> from_wire r0 ->
  from_wire b0 -> 0 <= x ->
  dhcpack_times now l r0 b0 x = guarded_times now l r0 b0 x.
Proof.
  intros Hn Hl Hl0 Hr Hb Hx.
  apply from_wire_range in Hl, Hr, Hb.
  unfold dhcpack_times, guarded_times.
  destruct (ack_expiry_eq l Hl Hl0) as (Ee & He).
  destruct (ack_renewal_eq (ack_expiry l) r0 He Hr) as (Er & Hr').
  destruct (jittered_range (ack_renewal (ack_expiry l) r0) x Hr' Hx)
    as (Hj & Ej).
  destruct (ack_rebind_eq (ack_expiry l) b0 He Hb) as (Eb & Hb' & _).
  destruct (ack_clamp_eq _ _ Hj Hb') as (Ec & Hc).
  rewrite !ack_add_eq by lia.
  rewrite Ec, Ej, Eb, Er, Ee. reflexivity.
Qed.

(** The order of the three times. *)
Lemma dhcpack_times_ordered now l r0 b0 x :
  clock_ok now -> from_wire l -> l <> 0 -> from_wire r0 ->
  from_wire b0 -> 0 <= x ->
  let '(e, r, b) := dhcpack_times now l r0 b0 x in
  r <= b /\ (b0 <= ack_expiry l -> b <= e).
Proof.
  intros Hc Hl Hl0 Hr Hb Hx.
  pose proof Hc as (Hn & Hsat).
  unfold time_max_value in Hn, Hsat. fold H in Hn, Hsat.
  destruct time_range as (H31 & _ & HT).
  pose proof (from_wire_cases _ Hl) as Cl.
  pose proof (from_wire_cases _ Hb) as Cb.
  apply from_wire_range in Hl, Hr, Hb.
  unfold dhcpack_times.
  destruct (ack_expiry_eq l Hl Hl0) as (Ee & He).
  destruct (ack_renewal_eq (ack_expiry l) r0 He Hr) as (Er & Hr').
  destruct (jittered_range (ack_renewal (ack_expiry l) r0) x Hr' Hx)
    as (Hj & Ej).
  destruct (ack_rebind_eq (ack_expiry l) b0 He Hb) as (Eb & Hb' & Hbe).
  destruct (ack_clamp_eq _ _ Hj Hb') as (Ec & Hcl).
  rewrite !ack_add_eq by lia.
  assert (Hwide : TIME_MAX = time_max_value \/
                  (ack_expiry l < 4294967296 /\
                   ack_rebind (ack_expiry l) b0 < 4294967296)).
  { unfold time_max_value. fold H.
    destruct Hsat as [Hs|Hs]; [left; exact Hs|].
    right.
    assert (time_bits <> 32).
    { intros E. unfold H in H31, Hs. rewrite E in Hs. cbn in Hs. lia. }
    destruct Cl as [Cl|(E & _)]; [|contradiction].
    destruct Cb as [Cb|(E & _)]; [|contradiction].
    assert (Hel : ack_expiry l < 4294967296).
    { rewrite Ee. destruct (Z.ltb_spec l 0); lia. }
    split; [exact Hel|].
    destruct (Z.leb_spec b0 0) as [Hb0|Hb0].
    - assert (ack_rebind (ack_expiry l) b0 <= ack_expiry l)
        by (apply Hbe; lia).
      lia.
    - rewrite Eb. destruct (Z.leb_spec b0 0); lia. }
  split.
  - apply saturating_add_mono; [exact Hc | lia | lia |].
    destruct Hwide as [Hw|(_ & Hw)]; [left; exact Hw | right; exact Hw].
  - intros Hle. apply saturating_add_mono; [exact Hc | | lia |].
    + split; [lia | apply Hbe; exact Hle].
    + destruct Hwide as [Hw|(Hw & _)]; [left; exact Hw | right; exact Hw].
Qed.
End TimeFacts.

(** ** Option values *)

Lemma dots_left_cases dots : dots_left dots = 0 \/ dots_left dots = -1.
Proof. unfold dots_left. destruct (dots =? 0); auto. Qed.

Lemma examined_cons c s len :
  Ascii.eqb c NUL = false -> (len =? 0)%N = false ->
  examined (c :: s) len = c :: examined s (len - 1).
Proof.
  intros Hc Hl. unfold examined. cbn [strlen]. rewrite Hc.
  apply N.eqb_neq in Hl.
  replace (N.to_nat len) with (S (N.to_nat (len - 1))) by lia.
  reflexivity.
Qed.

Lemma check_domain_name_loop_chars p : forall d len dots,
  check_domain_name_loop p d len dots = 0 ->
  forallb domain_char (examined p len) = true.
Proof.
  induction p as [|c p1 IH]; intros d len dots H.
  - unfold examined. cbn. destruct (N.to_nat len); reflexivity.
  - cbn [check_domain_name_loop] in H.
    destruct (Ascii.eqb c NUL) eqn:Ec.
    { unfold examined. cbn [strlen]. rewrite Ec. cbn.
      destruct (N.to_nat len); reflexivity. }
    destruct (len =? 0)%N eqn:El.
    { apply N.eqb_eq in El. subst len. reflexivity. }
    cbn [orb] in H. rewrite (examined_cons _ _ _ Ec El).
    cbn [forallb]. unfold domain_char at 1, name_char.
    destruct (Ascii.eqb c "-" || Ascii.eqb c "_") eqn:Ed.
    + destruct (Nat.eqb d 0 || (len - 1 =? 0)%N || Ascii.eqb (peek p1) ".");
        [discriminate|].
      rewrite (IH _ _ _ H).
      apply orb_true_iff in Ed. destruct Ed as [-> | ->];
        rewrite ?orb_true_r; reflexivity.
    + destruct (Ascii.eqb c ".") eqn:Edot.
      * destruct ((d <=? 0)%nat || (64 <=? d)%nat); [discriminate|].
        rewrite (IH _ _ _ H). rewrite ?orb_true_r. reflexivity.
      * destruct (isalnum c); [|discriminate].
        rewrite (IH _ _ _ H). reflexivity.
Qed.

(** A name that [check_domain_name] accepts has 1 to 256 characters,
    and those it looked at are letters, digits, [-], [_] and [.]. *)
Lemma check_domain_name_chars s len dots :
  check_domain_name s len dots = 0 ->
  (1 <= len <= 256)%N /\ forallb domain_char (examined s len) = true.
Proof.
  unfold check_domain_name. intros H.
  destruct (len =? 0)%N eqn:E0; [discriminate|].
  destruct (256 <? len)%N eqn:E1; [discriminate|].
  apply N.eqb_neq in E0. apply N.ltb_ge in E1.
  split; [lia|]. exact (check_domain_name_loop_chars _ _ _ _ H).
Qed.

(** *** What [check_domain_name] accepts *)

Lemma labels_nonempty t : labels t <> [].
Proof.
  destruct t as [|c r]; cbn; [discriminate|].
  destruct (Ascii.eqb c "."); [discriminate|].
  destruct (labels r); discriminate.
Qed.

Lemma name_char_not_dot c : name_char c = true -> Ascii.eqb c "." = false.
Proof.
  intros H. destruct (Ascii.eqb_spec c "."); [|reflexivity].
  subst c. discriminate.
Qed.

Lemma dash_name_char c : dash c = true -> name_char c = true.
Proof.
  unfold dash, name_char. intros H. apply orb_true_iff in H.
  destruct H as [-> | ->]; rewrite ?orb_true_r; reflexivity.
Qed.

Lemma labels_app pre t :
  forallb name_char pre = true ->
  exists l ls, labels t = l :: ls /\ labels (pre ++ t) = (pre ++ l) :: ls.
Proof.
  intros Hpre. induction pre as [|c pre IH].
  - destruct (labels t) as [|l ls] eqn:E; [destruct (labels_nonempty _ E)|].
    exists l, ls. split; [reflexivity | exact E].
  - cbn [forallb] in Hpre. apply andb_true_iff in Hpre.
    destruct Hpre as (Hc & Hpre).
    destruct (IH Hpre) as (l & ls & E1 & E2).
    exists l, ls. split; [exact E1|].
    cbn [app labels]. rewrite (name_char_not_dot _ Hc), E2. reflexivity.
Qed.

Lemma labels_name pre :
  forallb name_char pre = true -> labels pre = [pre].
Proof.
  intros H. destruct (labels_app pre [] H) as (l & ls & E1 & E2).
  cbn in E1. injection E1 as <- <-. rewrite !app_nil_r in E2. exact E2.
Qed.

Lemma label_ok_snoc_dash pre c :
  dash c = true -> label_ok (pre ++ [c]) = false.
Proof.
  intros Hc. unfold label_ok.
  destruct (pre ++ [c]) as [|x y] eqn:E; [reflexivity|].
  rewrite <- E, last_last, Hc. cbn. apply andb_false_r.
Qed.

Lemma labels_ok_first l ls :
  l <> [] -> labels_ok (l :: ls) = true -> label_ok l = true.
Proof.
  intros Hl. cbn [labels_ok]. destruct ls.
  - destruct l; [contradiction|]. auto.
  - intros H. apply andb_true_iff in H. destruct H as (H & _).
    apply andb_true_iff in H. apply H.
Qed.

Lemma forallb_snoc {A} (f : A -> bool) l x :
  forallb f (l ++ [x]) = forallb f l && f x.
Proof. rewrite forallb_app. cbn. rewrite andb_true_r. reflexivity. Qed.

Lemma strlen_firstn_nul p :
  forallb (fun c => negb (Ascii.eqb c NUL)) (firstn (strlen p) p) = true.
Proof.
  induction p as [|c p IH]; [reflexivity|].
  cbn [strlen]. destruct (Ascii.eqb c NUL) eqn:E; [reflexivity|].
  cbn. rewrite E. exact IH.
Qed.

(** The loop, when [len] is the length of the string and no dot is
    asked for: [pre] is the part of the current label that the loop
    has passed. *)
Lemma check_domain_name_loop_spec p : forall pre,
  forallb name_char pre = true ->
  (pre <> [] -> dash (hd NUL pre) = false) ->
  (pre <> [] -> dash (last pre NUL) = true ->
   strlen p <> O /\ Ascii.eqb (peek p) "." = false) ->
  (check_domain_name_loop p (length pre) (N.of_nat (strlen p)) 0 = 0
   <-> labels_ok (labels (pre ++ firstn (strlen p) p)) = true).
Proof.
  induction p as [|c p1 IH]; intros pre Hpre Hfirst Hlast.
  - cbn. rewrite app_nil_r, (labels_name _ Hpre). cbn.
    split; [intros _|reflexivity].
    destruct pre as [|x y] eqn:E; [reflexivity|]. rewrite <- E in *.
    assert (Hne : pre <> []) by (subst; discriminate).
    unfold label_ok. rewrite E. rewrite <- E. rewrite Hpre.
    replace (dash x) with (dash (hd NUL pre)) by (subst; reflexivity).
    rewrite (Hfirst Hne). cbn.
    destruct (dash (last pre NUL)) eqn:Ed; [|reflexivity].
    destruct (Hlast Hne eq_refl) as (H & _). contradiction.
  - cbn [strlen check_domain_name_loop].
    destruct (Ascii.eqb c NUL) eqn:Ec.
    { cbn. rewrite app_nil_r, (labels_name _ Hpre). cbn.
      split; [intros _|reflexivity].
      destruct pre as [|x y] eqn:E; [reflexivity|]. rewrite <- E in *.
      assert (Hne : pre <> []) by (subst; discriminate).
      unfold label_ok. rewrite E. rewrite <- E. rewrite Hpre.
      replace (dash x) with (dash (hd NUL pre)) by (subst; reflexivity).
      rewrite (Hfirst Hne). cbn.
      destruct (dash (last pre NUL)) eqn:Ed; [|reflexivity].
      destruct (Hlast Hne eq_refl) as (H & _).
      cbn [strlen] in H. rewrite Ec in H. contradiction. }
    replace (N.of_nat (S (strlen p1)) =? 0)%N with false
      by (symmetry; apply N.eqb_neq; lia).
    cbn [orb firstn].
    replace (N.of_nat (S (strlen p1)) - 1)%N with (N.of_nat (strlen p1))
      by lia.
    fold (dash c).
    assert (Happ : pre ++ c :: firstn (strlen p1) p1
                   = (pre ++ [c]) ++ firstn (strlen p1) p1)
      by (rewrite <- app_assoc; reflexivity).
    assert (Hlen : length (pre ++ [c]) = S (length pre))
      by (rewrite length_app; cbn; lia).
    destruct (dash c) eqn:Ed.
    + (* [-] or [_] *)
      assert (Hn : name_char c = true) by (apply dash_name_char; exact Ed).
      assert (Hpre' : forallb name_char (pre ++ [c]) = true)
        by (rewrite forallb_snoc, Hpre, Hn; reflexivity).
      destruct (Nat.eqb (length pre) 0) eqn:E0.
      { cbn [orb]. split; [discriminate|]. intros H. exfalso.
        apply Nat.eqb_eq in E0. destruct pre; [|discriminate].
        cbn [app] in H.
        destruct (labels_app [c] (firstn (strlen p1) p1)) as (l & ls & _ & E2).
        { cbn. rewrite Hn. reflexivity. }
        cbn [app] in E2. rewrite E2 in H.
        apply labels_ok_first in H; [|discriminate].
        cbn in H. rewrite Ed in H. rewrite andb_false_r in H. discriminate. }
      destruct (N.of_nat (strlen p1) =? 0)%N eqn:E1.
      { cbn [orb]. split; [discriminate|]. intros H. exfalso.
        apply N.eqb_eq in E1.
        replace (strlen p1) with O in H by lia. cbn [firstn] in H.
        rewrite (labels_name (pre ++ [c]) Hpre') in H.
        cbn [labels_ok] in H.
        destruct (pre ++ [c]) eqn:E; [destruct pre; discriminate|].
        rewrite <- E in H. rewrite label_ok_snoc_dash in H by exact Ed.
        discriminate. }
      destruct (Ascii.eqb (peek p1) ".") eqn:E2.
      { cbn [orb]. split; [discriminate|]. intros H. exfalso.
        destruct p1 as [|x p2]; [discriminate|]. cbn [peek hd] in E2.
        apply Ascii.eqb_eq in E2. subst x. rewrite Happ in H.
        cbn [strlen] in H.
        change (Ascii.eqb "." NUL) with false in H. cbn [firstn] in H.
        destruct (labels_app (pre ++ [c]) ("."%char :: firstn (strlen p2) p2)
                    Hpre') as (l & ls & E3 & E4).
        rewrite E4 in H. cbn [labels] in E3.
        change (Ascii.eqb "." ".") with true in E3. injection E3 as <- <-.
        rewrite app_nil_r in H. cbn [labels_ok] in H.
        destruct (labels (firstn (strlen p2) p2)) eqn:E5;
          [destruct (labels_nonempty _ E5)|].
        rewrite label_ok_snoc_dash in H by exact Ed. discriminate. }
      cbn [orb]. rewrite Happ, <- Hlen. apply IH.
      * exact Hpre'.
      * intros _. destruct pre as [|x y]; [discriminate|]. cbn.
        apply (Hfirst ltac:(discriminate)).
      * intros _ _. apply N.eqb_neq in E1.
        split; [lia | first [exact E2 | reflexivity]].
    + destruct (Ascii.eqb c ".") eqn:Edot.
      * (* a dot ends the label [pre] *)
        apply Ascii.eqb_eq in Edot. subst c.
        destruct (labels_app pre ("."%char :: firstn (strlen p1) p1) Hpre)
          as (l & ls & E3 & E4).
        rewrite E4. cbn [labels] in E3.
        change (Ascii.eqb "." ".") with true in E3. injection E3 as <- <-.
        rewrite app_nil_r. cbn [labels_ok].
        destruct (labels (firstn (strlen p1) p1)) as [|l1 ls1] eqn:E5;
          [destruct (labels_nonempty _ E5)|].
        rewrite <- E5.
        destruct pre as [|x y] eqn:E.
        { cbn. split; discriminate. }
        rewrite <- E in *.
        assert (Hne : pre <> []) by (subst; discriminate).
        replace ((length pre <=? 0)%nat) with false
          by (subst; reflexivity).
        cbn [orb].
        destruct (64 <=? length pre)%nat eqn:E64.
        { apply Nat.leb_le in E64.
          replace (length pre <=? 63)%nat with false
            by (symmetry; apply Nat.leb_gt; lia).
          rewrite andb_false_r. cbn. split; discriminate. }
        apply Nat.leb_gt in E64.
        replace (length pre <=? 63)%nat with true
          by (symmetry; apply Nat.leb_le; lia).
        assert (Hok : label_ok pre = true).
        { unfold label_ok. rewrite E. rewrite <- E. rewrite Hpre.
          replace (dash x) with (dash (hd NUL pre)) by (subst; reflexivity).
          rewrite (Hfirst Hne). cbn.
          destruct (dash (last pre NUL)) eqn:Ed'; [|reflexivity].
          destruct (Hlast Hne eq_refl) as (_ & H). discriminate. }
        rewrite Hok. cbn [andb].
        change (0 <? 0) with false. cbn [andb].
        apply (IH []); [reflexivity | contradiction | contradiction].
      * destruct (isalnum c) eqn:Ea; cbn [negb].
        -- assert (Hn : name_char c = true)
             by (unfold name_char; rewrite Ea; reflexivity).
           assert (Hpre' : forallb name_char (pre ++ [c]) = true)
             by (rewrite forallb_snoc, Hpre, Hn; reflexivity).
           rewrite Happ, <- Hlen. apply IH.
           ++ exact Hpre'.
           ++ intros _. destruct pre as [|x y]; [exact Ed|]. cbn.
              apply (Hfirst ltac:(discriminate)).
           ++ intros _ H. rewrite last_last in H. congruence.
        -- split; [discriminate|]. intros H. exfalso.
           assert (Hn : name_char c = false).
           { unfold name_char. fold (dash c). rewrite <- orb_assoc.
             fold (dash c). rewrite Ea, Ed. reflexivity. }
           destruct (labels (firstn (strlen p1) p1)) as [|l1 ls1] eqn:E5;
             [destruct (labels_nonempty _ E5)|].
           destruct (labels_app pre (c :: firstn (strlen p1) p1) Hpre)
             as (l & ls & E3 & E4).
           rewrite E4 in H. cbn [labels] in E3. rewrite Edot, E5 in E3.
           injection E3 as <- <-.
           apply labels_ok_first in H; [|destruct pre; discriminate].
           unfold label_ok in H.
           destruct (pre ++ c :: l1) eqn:E6; [discriminate|].
           rewrite <- E6 in H. rewrite forallb_app in H. cbn [forallb] in H.
           rewrite Hn in H. rewrite andb_false_r in H. discriminate.
Qed.

Lemma check_domain_name_valid s :
  check_domain_name s (N.of_nat (strlen s)) 0 = 0
  <-> valid_domain_name (firstn (strlen s) s) = true.
Proof.
  unfold check_domain_name, valid_domain_name.
  assert (Hlen : length (firstn (strlen s) s) = strlen s).
  { induction s as [|c s IH]; [reflexivity|]. cbn [strlen].
    destruct (Ascii.eqb c NUL); [reflexivity|]. cbn. rewrite IH.
    reflexivity. }
  rewrite Hlen.
  destruct (strlen s) as [|n] eqn:En.
  { cbn. split; discriminate. }
  replace (N.of_nat (S n) =? 0)%N with false
    by (symmetry; apply N.eqb_neq; lia).
  cbn [orb]. change (1 <=? S n)%nat with true. cbn [andb].
  destruct (256 <? N.of_nat (S n))%N eqn:E.
  - apply N.ltb_lt in E.
    replace (S n <=? 256)%nat with false
      by (symmetry; apply Nat.leb_gt; lia).
    cbn. split; discriminate.
  - apply N.ltb_ge in E.
    replace (S n <=? 256)%nat with true by (symmetry; apply Nat.leb_le; lia).
    cbn [andb]. rewrite <- En.
    apply (check_domain_name_loop_spec s []);
      [reflexivity | contradiction | contradiction].
Qed.

(** X1: [check_domain_name], called with the length of the string and no dot
    asked for, accepts exactly the names of 1 to 256 characters whose labels
    are as [labels_ok] says: a label that a dot ends has 1 to 63 characters,
    what follows the last dot may be empty and is not bounded by 63, and no
    label starts or ends with [-] or [_]. *)
Theorem check_domain_name_accepts s :
  check_domain_name s (N.of_nat (strlen s)) 0 = 0
  <-> valid_domain_name (firstn (strlen s) s) = true.
Proof. exact (check_domain_name_valid s). Qed.

(** *** Lists of names *)

Lemma strlen_not_nul a : forallb not_nul a = true -> strlen a = length a.
Proof.
  induction a as [|c a IH]; [reflexivity|]. cbn. unfold not_nul at 1.
  destruct (Ascii.eqb c NUL); [discriminate|]. cbn. intros H.
  rewrite (IH H). reflexivity.
Qed.

(** The loop looks at no more than [len] characters. *)
Lemma check_domain_name_loop_prefix a b : forall d dots,
  forallb not_nul a = true ->
  check_domain_name_loop (a ++ b) d (N.of_nat (length a)) dots
  = check_domain_name_loop a d (N.of_nat (length a)) dots.
Proof.
  induction a as [|c a IH]; intros d dots Ha.
  - cbn. destruct b as [|x b]; [reflexivity|]. cbn.
    rewrite orb_true_r. reflexivity.
  - cbn [forallb] in Ha. apply andb_true_iff in Ha. destruct Ha as (Hc & Ha).
    unfold not_nul in Hc. apply negb_true_iff in Hc.
    cbn [app length check_domain_name_loop]. rewrite Hc.
    replace (N.of_nat (S (length a)) =? 0)%N with false
      by (symmetry; apply N.eqb_neq; lia).
    cbn [orb].
    replace (N.of_nat (S (length a)) - 1)%N with (N.of_nat (length a)) by lia.
    rewrite !IH by exact Ha.
    destruct a as [|y a]; [|reflexivity].
    cbn [length]. change (N.of_nat 0 =? 0)%N with true.
    rewrite !orb_true_r. reflexivity.
Qed.

Lemma check_domain_name_prefix a b :
  forallb not_nul a = true ->
  (check_domain_name (a ++ b) (N.of_nat (length a)) 0 =? 0)
  = valid_domain_name a.
Proof.
  intros Ha.
  assert (E : check_domain_name (a ++ b) (N.of_nat (length a)) 0
              = check_domain_name a (N.of_nat (strlen a)) 0).
  { unfold check_domain_name. rewrite (strlen_not_nul _ Ha).
    rewrite check_domain_name_loop_prefix by exact Ha. reflexivity. }
  rewrite E. pose proof (check_domain_name_valid a) as H.
  rewrite (strlen_not_nul _ Ha), firstn_all in H.
  rewrite (strlen_not_nul _ Ha).
  destruct (valid_domain_name a).
  - apply Z.eqb_eq. apply H. reflexivity.
  - apply Z.eqb_neq. intros H0. apply H in H0. discriminate.
Qed.

Lemma check_domain_name_list_loop_spec p : forall cur ret,
  forallb not_nul cur = true ->
  (check_domain_name_list_loop (cur ++ p) p (length cur)
     (N.of_nat (strlen p)) 0 ret =? 0)
  = forallb valid_domain_name (names_from cur (firstn (strlen p) p))
    && ((ret =? 0) || nonempty (names_from cur (firstn (strlen p) p))).
Proof.
  induction p as [|c p1 IH]; intros cur ret Hcur.
  - cbn [check_domain_name_list_loop strlen firstn names_from].
    destruct cur as [|x y] eqn:E;
      [cbn; rewrite orb_false_r; reflexivity|]. rewrite <- E in *.
    replace (0 <? length cur)%nat with true by (subst; reflexivity).
    rewrite check_domain_name_prefix by exact Hcur.
    cbn. rewrite orb_true_r, !andb_true_r. reflexivity.
  - cbn [check_domain_name_list_loop strlen].
    destruct (Ascii.eqb c NUL) eqn:Ec.
    { cbn [orb firstn names_from].
      destruct cur as [|x y] eqn:E;
      [cbn; rewrite orb_false_r; reflexivity|]. rewrite <- E in *.
      replace (0 <? length cur)%nat with true by (subst; reflexivity).
      rewrite check_domain_name_prefix by exact Hcur.
      cbn. rewrite orb_true_r, !andb_true_r. reflexivity. }
    replace (0 <? N.of_nat (S (strlen p1)))%N with true
      by (symmetry; apply N.ltb_lt; lia).
    cbn [orb negb firstn names_from].
    replace (N.of_nat (S (strlen p1)) - 1)%N with (N.of_nat (strlen p1))
      by lia.
    destruct (Ascii.eqb c " ") eqn:Esp; cbn [negb].
    + destruct cur as [|x y] eqn:E.
      * cbn [length app]. change (0 <? 0)%nat with false. cbn iota.
        apply (IH [] ret). reflexivity.
      * rewrite <- E in *.
        replace (0 <? length cur)%nat with true by (subst; reflexivity).
        rewrite check_domain_name_prefix by exact Hcur.
        cbn [forallb nonempty]. rewrite orb_true_r, andb_true_r.
        destruct (valid_domain_name cur); cbn [negb andb]; [|reflexivity].
        pose proof (IH [] 0 eq_refl) as H. cbn [app length] in H.
        rewrite H. cbn. rewrite andb_true_r. reflexivity.
    + assert (Hcur' : forallb not_nul (cur ++ [c]) = true).
      { rewrite forallb_snoc, Hcur. unfold not_nul. rewrite Ec. reflexivity. }
      replace (cur ++ c :: p1) with ((cur ++ [c]) ++ p1)
        by (rewrite <- app_assoc; reflexivity).
      replace (S (length cur)) with (length (cur ++ [c]))
        by (rewrite length_app; cbn; lia).
      apply IH. exact Hcur'.
Qed.

(** X2: [check_domain_name_list], called with the length of the string and
    no dot asked for, accepts exactly the lists that hold at least one name
    and in which every name between blanks is one that [check_domain_name]
    accepts. *)
Theorem check_domain_name_list_accepts s :
  check_domain_name_list (Some s) (N.of_nat (strlen s)) 0 = 0
  <-> names (firstn (strlen s) s) <> []
      /\ forallb valid_domain_name (names (firstn (strlen s) s)) = true.
Proof.
  unfold check_domain_name_list, names.
  destruct (strlen s) as [|n] eqn:En.
  { cbn. split; [discriminate | intros (H & _); contradiction]. }
  replace (N.of_nat (S n) =? 0)%N with false
    by (symmetry; apply N.eqb_neq; lia).
  rewrite <- En.
  pose proof (check_domain_name_list_loop_spec s [] (-1) eq_refl) as H.
  cbn [app length] in H. change (-1 =? 0) with false in H. cbn [orb] in H.
  split.
  - intros H0. rewrite H0 in H. cbn in H. symmetry in H.
    apply andb_true_iff in H. destruct H as (H1 & H2).
    split; [|exact H1]. intros E. rewrite E in H2. discriminate.
  - intros (H1 & H2). rewrite H2 in H.
    destruct (names_from [] (firstn (strlen s) s)); [contradiction|].
    cbn in H. apply Z.eqb_eq. exact H.
Qed.

(** *** Protected options *)

Lemma examined_prefix a b :
  forallb not_nul a = true -> examined (a ++ b) (N.of_nat (length a)) = a.
Proof.
  intros Ha. unfold examined.
  replace (N.to_nat (N.of_nat (length a))) with (length a) by lia.
  assert (H : forall b, firstn (length a) (firstn (strlen (a ++ b)) (a ++ b))
                        = a).
  { clear b. induction a as [|c a IH]; intros b.
    - reflexivity.
    - cbn [forallb] in Ha. apply andb_true_iff in Ha.
      destruct Ha as (Hc & Ha). unfold not_nul in Hc.
      apply negb_true_iff in Hc. cbn [app strlen]. rewrite Hc. cbn.
      rewrite (IH Ha). reflexivity. }
  apply H.
Qed.

Lemma domain_list_char l :
  forallb domain_char l = true -> forallb list_char l = true.
Proof.
  intros H. rewrite forallb_forall in *. intros c Hc.
  unfold list_char. rewrite (H c Hc). reflexivity.
Qed.

Lemma check_domain_name_list_loop_chars p : forall cur len dots ret,
  forallb not_nul cur = true ->
  check_domain_name_list_loop (cur ++ p) p (length cur) len dots ret = 0 ->
  forallb list_char (cur ++ examined p len) = true.
Proof.
  assert (Hlast : forall cur q dots ret,
             forallb not_nul cur = true ->
             (if (0 <? length cur)%nat
              then check_domain_name (cur ++ q) (N.of_nat (length cur)) dots
              else ret) = 0 ->
             forallb list_char cur = true).
  { intros cur q dots ret Hcur H.
    destruct cur as [|x y] eqn:E; [reflexivity|]. rewrite <- E in *.
    replace (0 <? length cur)%nat with true in H by (subst; reflexivity).
    apply check_domain_name_chars in H. destruct H as (_ & H).
    rewrite examined_prefix in H by exact Hcur.
    apply domain_list_char. exact H. }
  induction p as [|c p1 IH]; intros cur len dots ret Hcur H.
  - cbn [check_domain_name_list_loop] in H.
    unfold examined. cbn. rewrite firstn_nil, app_nil_r.
    exact (Hlast _ _ _ _ Hcur H).
  - cbn [check_domain_name_list_loop] in H.
    destruct (Ascii.eqb c NUL) eqn:Ec.
    { cbn [orb] in H. unfold examined. cbn [strlen]. rewrite Ec.
      cbn [firstn]. rewrite firstn_nil, app_nil_r.
      exact (Hlast _ _ _ _ Hcur H). }
    destruct (0 <? len)%N eqn:El; cbn [orb negb] in H.
    2:{ apply N.ltb_ge in El. replace len with 0%N by lia.
        unfold examined. cbn [N.to_nat firstn]. rewrite app_nil_r.
        exact (Hlast _ _ _ _ Hcur H). }
    apply N.ltb_lt in El.
    rewrite examined_cons by (try exact Ec; apply N.eqb_neq; lia).
    destruct (Ascii.eqb c " ") eqn:Esp; cbn [negb] in H.
    + assert (Hc : list_char c = true)
        by (unfold list_char; rewrite Esp; apply orb_true_r).
      rewrite forallb_app. cbn [forallb]. rewrite Hc. cbn [andb].
      destruct (0 <? length cur)%nat eqn:Ed.
      * destruct (check_domain_name (cur ++ c :: p1) (N.of_nat (length cur))
                    dots =? 0) eqn:Ek; cbn [negb] in H; [|discriminate].
        apply Z.eqb_eq in Ek.
        assert (H1 : forallb list_char cur = true).
        { apply (Hlast cur (c :: p1) dots 0 Hcur). rewrite Ed. exact Ek. }
        rewrite H1. apply (IH [] _ _ _ eq_refl H).
      * destruct cur; [|discriminate]. apply (IH [] _ _ _ eq_refl H).
    + assert (Hcur' : forallb not_nul (cur ++ [c]) = true).
      { rewrite forallb_snoc, Hcur. unfold not_nul. rewrite Ec. reflexivity. }
      replace (cur ++ c :: examined p1 (len - 1))
        with ((cur ++ [c]) ++ examined p1 (len - 1))
        by (rewrite <- app_assoc; reflexivity).
      apply (IH (cur ++ [c]) _ dots ret Hcur').
      rewrite <- app_assoc, length_app. cbn [app length].
      replace (length cur + 1)%nat with (S (length cur)) by lia. exact H.
Qed.

Lemma root_path_loop_chars s : forall len,
  root_path_loop s len = 0 ->
  forallb root_path_char (examined s len) = true.
Proof.
  induction s as [|c s IH]; intros len H.
  - unfold examined. cbn. rewrite firstn_nil. reflexivity.
  - cbn [root_path_loop] in H.
    destruct (Ascii.eqb c NUL) eqn:Ec.
    { unfold examined. cbn [strlen]. rewrite Ec. cbn. rewrite firstn_nil.
      reflexivity. }
    destruct (len =? 0)%N eqn:El.
    { apply N.eqb_eq in El. subst. reflexivity. }
    cbn [orb] in H. rewrite examined_cons by assumption.
    destruct (root_path_char c) eqn:Er; cbn [negb] in H; [|discriminate].
    cbn [forallb]. rewrite Er. exact (IH _ H).
Qed.

Lemma list_root_path_char l :
  forallb list_char l = true -> forallb root_path_char l = true.
Proof.
  intros H. rewrite forallb_forall in *. intros c Hc.
  specialize (H c Hc). unfold list_char, domain_char, name_char in H.
  unfold root_path_char. destruct (isalnum c); [reflexivity|]. cbn [orb] in *.
  repeat match goal with
         | H : (_ || _) = true |- _ => apply orb_true_iff in H; destruct H
         | H : Ascii.eqb c _ = true |- _ => apply Ascii.eqb_eq in H; subst c
         end; reflexivity.
Qed.

(** X3: A value that [check_option_values] accepts for a screened option of
    the DHCP option space is not empty, and the characters looked at are
    letters, digits, blanks and [# % + - _ : . , @ ~ \ / [ ] =]: no quote,
    [$], [;], [&], [|] or newline reaches the script. *)
Theorem check_option_values_screens accept_list dhcpv6 u opt s len :
  u = None \/ u = Some dhcp_universe ->
  In opt screened_options ->
  check_option_values accept_list dhcpv6 u opt (Some s) len = 0 ->
  (1 <= len)%N /\ forallb root_path_char (examined s len) = true.
Proof.
  intros Hu Hopt H.
  assert (Hname : check_domain_name s len 0 = 0 ->
                  (1 <= len)%N
                  /\ forallb root_path_char (examined s len) = true).
  { intros Hk. apply check_domain_name_chars in Hk. destruct Hk as (Hl & Hk).
    split; [lia|]. apply list_root_path_char, domain_list_char, Hk. }
  assert (Hlist : check_domain_name_list (Some s) len 0 = 0 ->
                  (1 <= len)%N
                  /\ forallb root_path_char (examined s len) = true).
  { unfold check_domain_name_list. intros Hk.
    destruct (len =? 0)%N eqn:El; [discriminate|]. apply N.eqb_neq in El.
    split; [lia|]. apply list_root_path_char.
    apply (check_domain_name_list_loop_chars s [] len 0 (-1) eq_refl Hk). }
  assert (H' : check_option_values accept_list dhcpv6 (Some dhcp_universe)
                 opt (Some s) len = 0)
    by (destruct Hu as [-> | ->]; exact H).
  clear H Hu. unfold check_option_values in H'.
  unfold screened_options in Hopt. cbn [In] in Hopt.
  destruct Hopt as [<- | [<- | [<- | [<- | [<- | [<- | []]]]]]];
    cbn in H'; try (apply Hname; exact H'); try (apply Hlist; exact H').
  - destruct accept_list; [apply Hlist | apply Hname]; exact H'.
  - destruct (len =? 0)%N eqn:El; [discriminate|]. apply N.eqb_neq in El.
    split; [lia|]. apply root_path_loop_chars. exact H'.
Qed.

(** *** Names of script variables *)

Lemma strlen_chars s : length (chars s) = strlen s.
Proof.
  unfold chars. induction s as [|c s IH]; [reflexivity|]. cbn [strlen].
  destruct (Ascii.eqb c NUL); [reflexivity|]. cbn. rewrite IH. reflexivity.
Qed.

Lemma ev_name_copy_spec s : forall buf buflen,
  (N.of_nat (length buf) < buflen)%N ->
  let r := ev_name_copy s buf buflen in
  (fst r = true <-> (N.of_nat (length buf + strlen s) < buflen)%N)
  /\ (fst r = true -> snd r = buf ++ map dash_to_underscore (chars s))
  /\ (N.of_nat (length (snd r)) < buflen)%N.
Proof.
  induction s as [|c s IH]; intros buf buflen Hbuf.
  - cbn. rewrite Nat.add_0_r, app_nil_r. repeat split; auto.
  - cbn [ev_name_copy strlen]. unfold chars. cbn [strlen].
    destruct (Ascii.eqb c NUL) eqn:Ec.
    { cbn. rewrite Nat.add_0_r, app_nil_r. repeat split; auto. }
    destruct (N.of_nat (length buf) + 1 =? buflen)%N eqn:Ef.
    { apply N.eqb_eq in Ef. cbn. repeat split; try discriminate; try lia. }
    apply N.eqb_neq in Ef.
    specialize (IH (buf ++ [if Ascii.eqb c "-" then "_"%char else c]) buflen).
    rewrite length_app in IH. cbn [length] in IH.
    destruct IH as (IH1 & IH2 & IH3); [lia|].
    split; [|split].
    + rewrite IH1. lia.
    + intros H. rewrite (IH2 H), <- app_assoc. reflexivity.
    + exact IH3.
Qed.

(** The name of an option of a space other than the DHCP one. *)
Lemma ev_name_prefixed_spec buflen uname name :
  (0 < buflen)%N ->
  let r :=
    let (ok, buf) := ev_name_copy uname [] buflen in
    if negb ok then (0, buf)
    else if (N.of_nat (length buf) + 1 =? buflen)%N then (0, buf)
    else
      let (ok, buf) := ev_name_copy name (buf ++ ["_"%char]) buflen in
      if ok then (1, buf ++ [NUL]) else (0, buf) in
  let nm := chars uname ++ "_"%char :: chars name in
  (fst r = 1 \/ fst r = 0)
  /\ (fst r = 1 <-> (N.of_nat (length nm) < buflen)%N)
  /\ (fst r = 1 -> snd r = map dash_to_underscore nm ++ [NUL])
  /\ (N.of_nat (length (snd r)) <= buflen)%N.
Proof.
  intros Hpos. cbv zeta.
  rewrite length_app. cbn [length]. rewrite !strlen_chars.
  destruct (ev_name_copy_spec uname [] buflen Hpos) as (H1 & H2 & H3).
  destruct (ev_name_copy uname [] buflen) as [ok buf].
  cbn [fst snd length Nat.add app] in *. destruct ok; cbn [negb].
  2:{ cbn [fst snd]. split; [auto|]. split; [|split; [discriminate | lia]].
      split; [discriminate|]. intros H.
      assert (H' : (N.of_nat (strlen uname) < buflen)%N) by lia.
      apply H1 in H'. discriminate. }
  destruct H1 as (H1 & _). specialize (H1 eq_refl).
  specialize (H2 eq_refl). subst buf. rewrite length_map, strlen_chars in *.
  destruct (N.of_nat (strlen uname) + 1 =? buflen)%N eqn:Ef.
  { apply N.eqb_eq in Ef. cbn [fst snd]. rewrite length_map, strlen_chars.
    split; [auto|]. split; [|split; [discriminate | lia]].
    split; [discriminate | lia]. }
  apply N.eqb_neq in Ef.
  destruct (ev_name_copy_spec name
              (map dash_to_underscore (chars uname) ++ ["_"%char]) buflen)
    as (K1 & K2 & K3).
  { rewrite length_app, length_map, strlen_chars. cbn. lia. }
  rewrite length_app, length_map, strlen_chars in K1. cbn [length] in K1.
  destruct (ev_name_copy name
              (map dash_to_underscore (chars uname) ++ ["_"%char]) buflen)
    as [ok buf].
  cbn [fst snd] in *. destruct ok; cbn [fst snd].
  + split; [auto|].
    assert (Hfit : (N.of_nat (strlen uname + 1 + strlen name)
                    < buflen)%N) by (apply K1; reflexivity).
    split; [split; [intros _; lia | auto]|].
    split.
    * intros _. rewrite (K2 eq_refl), map_app. cbn [map].
      rewrite <- !app_assoc. reflexivity.
    * rewrite length_app. cbn. lia.
  + split; [auto|]. split; [|split; [discriminate | lia]].
    split; [discriminate|]. intros H.
    assert (H' : (N.of_nat (strlen uname + 1 + strlen name)
                  < buflen)%N) by lia.
    apply K1 in H'. discriminate.
Qed.

Lemma dhcp_option_ev_name_spec buflen o :
  (0 < buflen)%N ->
  let r := dhcp_option_ev_name buflen o in
  (fst r = 1 \/ fst r = 0)
  /\ (fst r = 1 <-> (N.of_nat (length (ev_name o)) < buflen)%N)
  /\ (fst r = 1 -> snd r = map dash_to_underscore (ev_name o) ++ [NUL])
  /\ (N.of_nat (length (snd r)) <= buflen)%N.
Proof.
  intros Hpos. unfold dhcp_option_ev_name, ev_name.
  destruct (o_universe o) as [|uname|uname].
  - destruct (ev_name_copy_spec (o_name o) [] buflen Hpos) as (H1 & H2 & H3).
    rewrite strlen_chars.
    destruct (ev_name_copy (o_name o) [] buflen) as [ok buf].
    cbn [fst snd length Nat.add] in *. destruct ok; cbn [fst snd].
    + split; [auto|]. split; [split; [intros _; apply H1; reflexivity|auto]|].
      split; [intros _; rewrite (H2 eq_refl); reflexivity|].
      rewrite length_app. cbn. lia.
    + split; [auto|]. split; [|split; [discriminate | lia]].
      split; [discriminate|]. intros H. apply H1 in H. discriminate.
  - exact (ev_name_prefixed_spec buflen uname (o_name o) Hpos).
  - exact (ev_name_prefixed_spec buflen uname (o_name o) Hpos).
Qed.

(** X4: With a buffer of at least one byte, [dhcp_option_ev_name] returns 1
    exactly when the name and its terminator fit in [buflen] bytes; the
    buffer then holds the name with every [-] turned into [_], and in no
    case are more than [buflen] bytes written. *)
Theorem dhcp_option_ev_name_fits buflen o :
  (0 < buflen)%N ->
  let r := dhcp_option_ev_name buflen o in
  (fst r = 1 \/ fst r = 0)
  /\ (fst r = 1 <-> (N.of_nat (length (ev_name o)) < buflen)%N)
  /\ (fst r = 1 -> snd r = map dash_to_underscore (ev_name o) ++ [NUL])
  /\ (N.of_nat (length (snd r)) <= buflen)%N.
Proof. exact (dhcp_option_ev_name_spec buflen o). Qed.

(** ** The lease lists *)

Lemma bytes_eqb_eq a : forall b, bytes_eqb a b = true <-> a = b.
Proof.
  induction a as [|x a IH]; intros [|y b]; cbn; split; try discriminate;
    try reflexivity.
  - intros H. apply andb_true_iff in H. destruct H as (H1 & H2).
    apply Z.eqb_eq in H1. apply IH in H2. congruence.
  - intros [= -> ->]. rewrite Z.eqb_refl. apply IH. reflexivity.
Qed.

Lemma same_lease_iff l x :
  same_lease l x = true
  <-> is_static x = is_static l /\ address x = address l.
Proof.
  unfold same_lease. rewrite !andb_true_iff, Bool.eqb_true_iff, Nat.eqb_eq,
    bytes_eqb_eq.
  split; [intros (H1 & _ & H2); auto | intros (H1 & H2)].
  rewrite H2. auto.
Qed.

Lemma discard_duplicate_spec ls l w :
  one_per_address ls ->
  let ls' := fst (discard_duplicate ls l w) in
  one_per_address ls'
  /\ Forall (fun x => is_static x = is_static l -> address x <> address l) ls'
  /\ (forall x, In x ls' -> In x ls)
  /\ (forall x, In x ls ->
                is_static x <> is_static l \/ address x <> address l ->
                In x ls').
Proof.
  induction ls as [|cur ls IH]; intros Hone; cbn [discard_duplicate].
  - cbn. repeat split; auto; constructor.
  - inversion Hone as [|? ? Hcur Hrest]; subst.
    destruct (same_lease l cur) eqn:Es.
    + apply same_lease_iff in Es. destruct Es as (Es & Ea). cbn [fst].
      split; [exact Hrest|]. split; [|split].
      * rewrite Forall_forall in *. intros x Hx Hsx. rewrite <- Ea.
        intros Heq. apply (Hcur x Hx); congruence.
      * intros x Hx. right. exact Hx.
      * intros x [<- | Hx] Hd; [|exact Hx]. destruct Hd; contradiction.
    + destruct (IH Hrest) as (H1 & H2 & H3 & H4).
      destruct (discard_duplicate ls l w) as [rest w'] eqn:E.
      cbn [fst] in *. split; [|split; [|split]].
      * constructor; [|exact H1]. rewrite Forall_forall in *.
        intros x Hx. apply Hcur. apply H3. exact Hx.
      * constructor; [|exact H2]. intros Hs Ha.
        assert (same_lease l cur = true) by (apply same_lease_iff; auto).
        congruence.
      * intros x [<- | Hx]; [left; reflexivity | right; auto].
      * intros x [<- | Hx] Hd; [left; reflexivity | right; auto].
Qed.

Lemma one_per_address_snoc ls l :
  one_per_address ls ->
  Forall (fun x => is_static x = is_static l -> address x <> address l) ls ->
  one_per_address (ls ++ [l]).
Proof.
  induction ls as [|x ls IH]; intros H1 H2; cbn.
  - constructor; constructor.
  - inversion H1 as [|? ? Hx Hls]; subst.
    inversion H2 as [|? ? Hxl Hl]; subst.
    constructor; [|exact (IH Hls Hl)].
    apply Forall_app. split; [exact Hx|]. constructor; [exact Hxl|].
    constructor.
Qed.

Lemma discard_duplicate_frees ls l w :
  let w' := snd (discard_duplicate ls l w) in
  w' = w
  \/ exists x, In x ls /\ is_static x = is_static l
               /\ address x = address l
               /\ w' = destroy_client_lease x w.
Proof.
  induction ls as [|cur ls IH]; cbn [discard_duplicate].
  - left. reflexivity.
  - destruct (same_lease l cur) eqn:Es.
    + right. apply same_lease_iff in Es. destruct Es as (Es & Ea).
      exists cur. cbn. auto.
    + destruct (discard_duplicate ls l w) as [rest w'] eqn:E.
      cbn [snd] in *. destruct IH as [IH | (x & Hx & H)]; [left; exact IH|].
      right. exists x. split; [right; exact Hx | exact H].
Qed.

(** X5: [add_to_tail] keeps the lease list with one lease per address and
    source: the lease added is the last of the new list; the only lease that
    can go, and be freed, is one with its address and its [is_static], so
    that a fallback lease of the configuration is not discarded for a lease
    of a server with the same address. *)
Theorem add_to_tail_one_per_address ls l w :
  one_per_address ls ->
  let ls' := fst (add_to_tail ls (Some l) w) in
  let w' := snd (add_to_tail ls (Some l) w) in
  one_per_address ls'
  /\ (exists rest, ls' = rest ++ [l] /\ forall x, In x rest -> In x ls)
  /\ (forall x, In x ls ->
                is_static x <> is_static l \/ address x <> address l ->
                In x ls')
  /\ (w' = w
      \/ exists x, In x ls /\ is_static x = is_static l
                   /\ address x = address l
                   /\ w' = destroy_client_lease x w).
Proof.
  intros Hone. unfold add_to_tail.
  destruct (discard_duplicate_spec ls l w Hone) as (H1 & H2 & H3 & H4).
  pose proof (discard_duplicate_frees ls l w) as H5.
  destruct (discard_duplicate ls l w) as [rest w'].
  cbn [fst snd] in *. split; [|split; [|split]].
  - apply one_per_address_snoc; assumption.
  - exists rest. split; [reflexivity | exact H3].
  - intros x Hx Hd. apply in_or_app. left. auto.
  - exact H5.
Qed.

(** ** Packets of other transactions *)

Section Handlers.
Context {P : Platform}.

Lemma find_xid_none x cs n :
  Forall (fun c => xid c <> x) cs -> find_xid x cs n = None.
Proof.
  intros Hall. revert n. induction Hall as [|c cs Hc _ IH]; intros n.
  - reflexivity.
  - cbn. destruct (Z.eqb_spec (xid c) x); [contradiction | apply IH].
Qed.

Lemma find_xid_some x cs n m :
  find_xid x cs n = Some m ->
  (n <= m)%nat /\ exists c, nth_error cs (m - n) = Some c /\ xid c = x.
Proof.
  revert n. induction cs as [|c cs IH]; intros n; cbn; [discriminate|].
  destruct (Z.eqb_spec (xid c) x) as [E|NE].
  - intros [= <-]. split; [lia|]. rewrite Nat.sub_diag. exists c. auto.
  - intros Hf. destruct (IH _ Hf) as (Hle & c' & Hn & Hx).
    split; [lia|]. exists c'. split; [|exact Hx].
    replace (m - n)%nat with (S (m - S n)) by lia. exact Hn.
Qed.

(** The client [find_client] returns is a client of the receiving
    interface whose [xid] is the one of the packet. *)
Lemma find_client_some pkt w r :
  find_client pkt w = Some r ->
  exists k c, r = live (interface pkt) k
              /\ get_client w r = Some c /\ xid c = p_xid (raw pkt).
Proof.
  unfold find_client, iface.
  destruct (find_xid _ _ 0) as [k|] eqn:Hf; [|discriminate].
  intros [= <-]. exists k.
  destruct (find_xid_some _ _ _ _ Hf) as (_ & c & Hn & Hx).
  rewrite Nat.sub_0_r in Hn. exists c. split; [reflexivity|].
  split; [|exact Hx]. unfold get_client, live, iface_list. cbn.
  destruct (nth_error (interfaces w) (interface pkt)) as [ip|] eqn:Ei.
  - rewrite (nth_error_nth _ _ _ Ei) in Hn. exact Hn.
  - rewrite nth_overflow in Hn by (apply nth_error_None; exact Ei).
    destruct k; discriminate.
Qed.

(** C3: an OFFER, ACK or NAK whose xid is the xid of no client of the
    receiving interface, or whose hlen or chaddr is not the hardware
    address of the interface, leaves the whole world, and so every
    client state, as it was. *)
Theorem foreign_packet_changes_nothing fuel pkt w :
  Forall (fun c => xid c <> p_xid (raw pkt))
    (client (iface w (interface pkt)))
  \/ hw_hlen (iface w (interface pkt)) - 1 <> hlen (raw pkt)
  \/ memcmp_eq (tl (hw_hbuf (iface w (interface pkt))))
       (chaddr (raw pkt)) (hlen (raw pkt)) = false ->
  dhcpoffer fuel pkt w = Running w
  /\ dhcpack pkt w = Running w
  /\ dhcpnak fuel pkt w = Running w.
Proof.
  intros Hforeign.
  assert (Hcase : find_client pkt w = None \/ hw_matches pkt w = false).
  { destruct Hforeign as [Hx | [Hl | Hm]].
    - left. unfold find_client. rewrite (find_xid_none _ _ _ Hx). reflexivity.
    - right. unfold hw_matches.
      destruct (Z.eqb_spec (hw_hlen (iface w (interface pkt)) - 1)
                  (hlen (raw pkt))); [contradiction | reflexivity].
    - right. unfold hw_matches. rewrite Hm. apply andb_false_r. }
  unfold dhcpoffer, dhcpack, dhcpnak.
  destruct (find_client pkt w) as [r|]; [|repeat split; reflexivity].
  destruct Hcase as [Hn | Hm]; [discriminate|]. rewrite Hm. cbn [negb].
  repeat split; try reflexivity.
  destruct (negb (state_eqb (state (deref w r)) S_SELECTING)); reflexivity.
Qed.

Lemma filter_same_timer_add f r tv l :
  filter (same_timer f r)
    ({| t_when := tv; t_func := f; t_what := r |}
       :: filter (fun t => negb (same_timer f r t)) l)
  = [{| t_when := tv; t_func := f; t_what := r |}].
Proof.
  cbn [filter]. unfold same_timer at 1. cbn [t_func t_what].
  assert (Hf : callback_eqb f f = true) by (destruct f; reflexivity).
  rewrite Hf, cref_eqb_refl. cbn [andb]. f_equal.
  induction l as [|t l IH]; [reflexivity|].
  cbn [filter]. destruct (same_timer f r t) eqn:E; cbn [negb]; [exact IH|].
  cbn [filter]. rewrite E. exact IH.
Qed.

Lemma first_client_exists w i k c :
  get_client w (live i k) = Some c ->
  exists c0, get_client w (live i 0) = Some c0.
Proof.
  unfold get_client, live. cbn.
  destruct (nth_error (interfaces w) i) as [ip|]; [|discriminate].
  destruct (client ip) as [|c0 cs]; [destruct k; discriminate|].
  intros _. exists c0. reflexivity.
Qed.

Lemma option_time_absent code os :
  lookup_option code os = None -> option_time code os = 0.
Proof. unfold option_time. intros ->. reflexivity. Qed.

(** C4: an ACK of the transaction of a client in a receptive state
    whose lease time is absent or evaluates to zero.  The lease is not
    committed: the active lease and the state stay, nothing is written
    to the lease database and the client script does not run.  The
    source address of the packet is put on the reject list of the
    interface, and exactly one call of [state_init] is pending for the
    client, half a second after the current time. *)
Theorem ack_without_lease_time_rejected pkt w r :
  platform_ok P ->
  find_client pkt w = Some r ->
  hw_matches pkt w = true ->
  receptive (state (deref w r)) = true ->
  dmalloc_ok w = true ->
  0 <= cur_time w < time_max_value ->
  (let os := on_receipt (config (deref w r)) (options pkt) in
   lookup_option DHO_DHCP_LEASE_TIME os = None
   \/ option_time DHO_DHCP_LEASE_TIME os = 0) ->
  exists w',
    dhcpack pkt w = Running w'
    /\ active (deref w' r) = active (deref w r)
    /\ state (deref w' r) = state (deref w r)
    /\ leaseFile w' = leaseFile w
    /\ scripts w' = scripts w
    /\ reject_list (config (deref w' (live (interface pkt) 0)))
       = {| m_addr := client_addr pkt;
            m_mask := repeat 255 (length (client_addr pkt)) |}
           :: reject_list (config (deref w (live (interface pkt) 0)))
    /\ exists t,
         filter (same_timer CB_state_init r) (timeouts w') = [t]
         /\ 1000000 * tv_sec (t_when t) + tv_usec (t_when t)
            = 1000000 * tv_sec (cur_tv w) + tv_usec (cur_tv w) + 500000.
Proof.
  intros HP Hfind Hhw Hst Hmem Hclock Hzero.
  assert (Hl : option_time DHO_DHCP_LEASE_TIME
                 (on_receipt (config (deref w r)) (options pkt)) = 0).
  { destruct Hzero as [Hn|Hz]; [apply option_time_absent; exact Hn | exact Hz]. }
  clear Hzero.
  destruct (find_client_some _ _ _ Hfind) as (k & c & Hr & Hget & Hxid).
  pose proof Hget as Hget'. rewrite Hr in Hget'.
  unfold dhcpack. rewrite Hfind, Hhw, Hst. cbn [negb].
  unfold packet_to_lease. rewrite Hmem. cbn [negb].
  set (lease := lease_of_packet _ _ _).
  change (l_options lease) with (on_receipt (config (deref w r)) (options pkt)).
  rewrite Hl. cbn [Z.eqb].
  unfold add_reject. wsimpl. rewrite Hmem. wsimpl. cbn [and_then].
  eexists. split; [reflexivity|].
  unfold deref. wsimpl. rewrite Hget.
  destruct (first_client_exists _ _ _ _ Hget') as (c0 & Hget0).
  repeat split.
  - destruct (cref_eqb _ r); reflexivity.
  - destruct (cref_eqb _ r); reflexivity.
  - rewrite Hget0. destruct (cref_eqb r _); reflexivity.
  - eexists. split; [apply filter_same_timer_add|].
    cbn [t_when]. unfold tadd.
    assert (Hs : time_of (tv_sec (cur_tv w) + 1) = tv_sec (cur_tv w) + 1).
    { apply (time_of_small HP). unfold cur_time, time_max_value in Hclock.
      lia. }
    destruct (1000000 <=? tv_usec (cur_tv w) + 500000);
      cbn [tv_sec tv_usec]; rewrite ?Hs; lia.
Qed.

(** *** The client script only touches the environment of the client *)

Lemma alter_nth_ext {A : Type} (f g : A -> A) n l :
  (forall x, f x = g x) -> alter_nth f n l = alter_nth g n l.
Proof.
  intros E. revert n. induction l as [|x l IH]; intros [|n]; cbn;
    try reflexivity; [rewrite E | rewrite IH]; reflexivity.
Qed.

Lemma alter_nth_alter_nth {A : Type} (f g : A -> A) n l :
  alter_nth f n (alter_nth g n l) = alter_nth (fun x => f (g x)) n l.
Proof.
  revert n. induction l as [|x l IH]; intros [|n]; cbn; try reflexivity.
  rewrite IH. reflexivity.
Qed.

Lemma upd_client_ext r f g w :
  (forall c, f c = g c) -> upd_client r f w = upd_client r g w.
Proof.
  intros E. unfold upd_client, upd_iface_list.
  assert (H : forall l,
             alter_nth (fun ip => set_client (alter_nth f (r_cl r) (client ip)) ip)
               (r_if r) l
             = alter_nth (fun ip => set_client (alter_nth g (r_cl r) (client ip)) ip)
                 (r_if r) l).
  { intros l. apply alter_nth_ext. intros ip.
    rewrite (alter_nth_ext f g _ _ E). reflexivity. }
  rewrite !H. reflexivity.
Qed.

Lemma upd_client_upd_client r f g w :
  upd_client r f (upd_client r g w) = upd_client r (fun c => f (g c)) w.
Proof.
  unfold upd_client, upd_iface_list.
  destruct (r_dummy r); cbn [interfaces dummy_interfaces set_interfaces
                               set_dummy_interfaces];
    rewrite alter_nth_alter_nth; unfold set_interfaces, set_dummy_interfaces;
    cbn; f_equal; apply alter_nth_ext; intros ip; cbn;
    rewrite alter_nth_alter_nth; reflexivity.
Qed.

Lemma client_envadd_env r x e w :
  exists e', client_envadd r x (upd_client r (set_env e) w)
             = upd_client r (set_env e') w
             /\ incl e e' /\ (dmalloc_ok w = true -> In x e').
Proof.
  unfold client_envadd. rewrite dmalloc_ok_upd.
  destruct (dmalloc_ok w).
  - exists (x :: e). split; [|split].
    + rewrite upd_client_upd_client. apply upd_client_ext. reflexivity.
    + apply incl_tl, incl_refl.
    + intros _. left. reflexivity.
  - exists e. split; [reflexivity|]. split; [apply incl_refl | discriminate].
Qed.

Lemma script_init_env r reason m w :
  exists e, script_init r reason m w = upd_client r (set_env e) w
            /\ (dmalloc_ok w = true -> In (Env_reason reason) e).
Proof.
  unfold script_init.
  destruct (client_envadd_env r
              (Env_interface (if_name (iface_of (upd_client r (set_env []) w) r)))
              [] w) as (e1 & -> & _ & _).
  assert (Hfin : forall e0,
    exists e, client_envadd r Env_pid
                (client_envadd r (Env_reason reason)
                   (upd_client r (set_env e0) w))
              = upd_client r (set_env e) w
              /\ (dmalloc_ok w = true -> In (Env_reason reason) e)).
  { intros e0.
    destruct (client_envadd_env r (Env_reason reason) e0 w)
      as (e2 & -> & _ & H2).
    destruct (client_envadd_env r Env_pid e2 w) as (e3 & -> & Hi & _).
    exists e3. split; [reflexivity|]. intros Hm. apply Hi, H2, Hm. }
  destruct (c_name (deref (upd_client r (set_env e1) w) r)) as [nm|].
  - destruct (client_envadd_env r (Env_client nm) e1 w) as (e2 & -> & _ & _).
    destruct m as [|m0 m]; [apply Hfin|].
    destruct (client_envadd_env r (Env_medium m0) e2 w) as (e3 & -> & _ & _).
    apply Hfin.
  - destruct m as [|m0 m]; [apply Hfin|].
    destruct (client_envadd_env r (Env_medium m0) e1 w) as (e3 & -> & _ & _).
    apply Hfin.
Qed.

Lemma script_write_params_env r prefix l e w :
  exists e', script_write_params r prefix l (upd_client r (set_env e) w)
             = upd_client r (set_env e') w
             /\ incl e e'
             /\ (dmalloc_ok w = true -> In (Env_params prefix l) e').
Proof. apply client_envadd_env. Qed.

Lemma script_write_requested_env r e w :
  exists e', script_write_requested r (upd_client r (set_env e) w)
             = upd_client r (set_env e') w /\ incl e e'.
Proof.
  unfold script_write_requested.
  generalize (requested_options
                (config (deref (upd_client r (set_env e) w) r))).
  intros l. revert e. induction l as [|code l IH]; intros e; cbn [fold_left].
  - exists e. split; [reflexivity | apply incl_refl].
  - destruct (client_envadd_env r (Env_requested code) e w)
      as (e1 & -> & Hi & _).
    destruct (IH e1) as (e2 & -> & Hi2).
    exists e2. split; [reflexivity|]. eapply incl_tran; eassumption.
Qed.

Lemma write_alias_env r e w :
  exists e', write_alias r (upd_client r (set_env e) w)
             = upd_client r (set_env e') w /\ incl e e'.
Proof.
  unfold write_alias. destruct (alias _) as [a|].
  - destruct (script_write_params_env r "alias_" a e w) as (e' & -> & Hi & _).
    eauto.
  - exists e. split; [reflexivity | apply incl_refl].
Qed.

Lemma upd_client_set_env_twice r e e' w :
  upd_client r (set_env e') (upd_client r (set_env e) w)
  = upd_client r (set_env e') w.
Proof.
  rewrite upd_client_upd_client. apply upd_client_ext. reflexivity.
Qed.

(** The run of the script: the status and the clock come from the
    environment of the process, and the environment [e] assembled for
    the script is what it is run with. *)
Lemma script_go_env r e w c :
  get_client w r = Some c ->
  dmalloc_ok w = true ->
  script_go r (upd_client r (set_env e) w)
  = (fst (script_src w (script_pos w)),
     set_cur_tv (snd (script_src w (script_pos w)))
       (set_script_pos (S (script_pos w))
          (set_scripts (e :: scripts w)
             (upd_client r (set_env []) w)))).
Proof.
  intros Hget Hm. unfold script_go, deref. wsimpl. rewrite Hm, Hget.
  rewrite upd_client_set_env_twice. reflexivity.
Qed.

Ltac env_step :=
  match goal with
  | |- context [script_init ?r ?a ?m ?w] =>
      let e := fresh "e" in
      let Hr := fresh "Hreason" in
      destruct (script_init_env r a m w) as (e & -> & Hr)
  | |- context [script_write_params ?r ?p ?l (upd_client ?r (set_env ?e) ?w)] =>
      let e' := fresh "e" in
      let Hi := fresh "Hincl" in
      let Hp := fresh "Hparams" in
      destruct (script_write_params_env r p l e w) as (e' & -> & Hi & Hp)
  | |- context [script_write_requested ?r (upd_client ?r (set_env ?e) ?w)] =>
      let e' := fresh "e" in
      let Hi := fresh "Hincl" in
      destruct (script_write_requested_env r e w) as (e' & -> & Hi)
  | |- context [write_alias ?r (upd_client ?r (set_env ?e) ?w)] =>
      let e' := fresh "e" in
      let Hi := fresh "Hincl" in
      destruct (write_alias_env r e w) as (e' & -> & Hi)
  end.

(** The script phase of [bind_lease]. *)
Lemma bind_script_run r n w c :
  get_client w r = Some c ->
  dmalloc_ok w = true ->
  exists e,
    bind_script r n w
    = (fst (script_src w (script_pos w)),
       set_cur_tv (snd (script_src w (script_pos w)))
         (set_script_pos (S (script_pos w))
            (set_scripts (e :: scripts w)
               (upd_client r (set_env []) w))))
    /\ In (Env_reason (bind_reason (state c))) e
    /\ In (Env_params "new_" n) e.
Proof.
  intros Hget Hm. unfold bind_script. rewrite (deref_Some _ _ _ Hget).
  env_step.
  destruct (active c) as [a|];
    [destruct (negb (state_eqb (state c) S_REBOOTING))|];
    repeat env_step; rewrite (script_go_env _ _ _ _ Hget Hm);
    (eexists; split; [reflexivity|]); split; auto 10.
Qed.

(** *** Options saved and looked up *)

Lemma lookup_save_same code oc os :
  lookup_option code (save_option code oc os) = Some oc.
Proof. unfold save_option. cbn. rewrite Z.eqb_refl. reflexivity. Qed.

Lemma lookup_delete_other code code' os :
  code <> code' ->
  lookup_option code (delete_option code' os) = lookup_option code os.
Proof.
  intros Hne. induction os as [|[c oc] os IH]; [reflexivity|].
  cbn. destruct (Z.eqb_spec c code') as [->|Hc].
  - rewrite IH. destruct (Z.eqb_spec code' code); [congruence | reflexivity].
  - cbn. rewrite IH. reflexivity.
Qed.

Lemma lookup_save_other code code' oc os :
  code <> code' ->
  lookup_option code (save_option code' oc os) = lookup_option code os.
Proof.
  intros Hne. unfold save_option. cbn.
  destruct (Z.eqb_spec code' code); [congruence|].
  apply lookup_delete_other. exact Hne.
Qed.

(** [bind_lease] when the client script exits non-zero: a DHCPDECLINE
    is built and broadcast and the new lease is destroyed; then the
    process exits in one-try mode, and [state_init] is scheduled
    otherwise. *)
Lemma bind_lease_declines r w c n :
  get_client w r = Some c ->
  new c = Some n ->
  dmalloc_ok w = true ->
  fst (script_src w (script_pos w)) <> 0 ->
  exists w2 pk e,
    bind_lease r w
    = (if onetry w then Exited 2 w2
       else Running
              (add_timeout
                 {| tv_sec := tadd (tv_sec (snd (script_src w (script_pos w))))
                                (decline_wait_time w);
                    tv_usec := tv_usec (snd (script_src w (script_pos w))) |}
                 CB_state_init r w2))
    /\ get_client w2 r
       = Some (set_c_packet pk
                 (set_requested_address (address n)
                    (set_env [] (set_new None c))))
    /\ p_xid pk = xid c
    /\ (on_transmission (config c) = None ->
        lookup_option DHO_DHCP_MESSAGE_TYPE (p_options pk)
        = Some (Some [DHCPDECLINE])
        /\ lookup_option DHO_DHCP_REQUESTED_ADDRESS (p_options pk)
           = Some (Some (address n)))
    /\ sent w2
       = {| s_via_fallback := false; s_interface := r_if r; s_packet := pk;
            s_from := iaddr_any; s_to := iaddr_broadcast |} :: sent w
    /\ freed w2 = l_ptr n :: freed w
    /\ scripts w2 = e :: scripts w
    /\ In (Env_params "new_" (set_l_medium (medium c) n)) e
    /\ cur_tv w2 = snd (script_src w (script_pos w))
    /\ timeouts w2 = timeouts w
    /\ leaseFile w2 = leaseFile w
    /\ leases_written w2 = leases_written w
    /\ rewrites w2 = rewrites w
    /\ (forall r', r' <> r -> get_client w2 r' = get_client w r').
Proof.
  intros Hget Hnew Hmem Hst.
  unfold bind_lease. rewrite (deref_Some _ _ _ Hget), Hnew.
  set (n' := set_l_medium (medium c) n).
  destruct (bind_script_run r n' (upd_client r (set_new (Some n')) w)
              (set_new (Some n') c))
    as (e & -> & _ & Hnew_env);
    [wsimpl; rewrite Hget; reflexivity | wsimpl; exact Hmem|].
  wsimpl.
  destruct (Z.eqb_spec (fst (script_src w (script_pos w))) 0);
    [contradiction|]. cbn [negb].
  unfold bind_decline, make_decline, make_client_options, send_decline.
  wsimpl.
  eexists. eexists. exists e. split; [reflexivity|].
  split; [wsimpl; rewrite Hget; cbn [option_map]; reflexivity|].
  wsimpl. unfold deref. wsimpl. rewrite Hget. cbn [option_map].
  wsimpl.
  repeat match goal with |- _ /\ _ => split end; try reflexivity;
    try exact Hnew_env.
  - intros ->. cbn [p_options header]. split.
    + apply lookup_save_same.
    + rewrite lookup_save_other by discriminate. apply lookup_save_same.
  - intros r' Hne. wsimpl.
    destruct (cref_eqb r r') eqn:E; [|reflexivity].
    apply cref_eqb_eq in E. congruence.
Qed.

Lemma in_add_timeout_other tv f r w t :
  same_timer f r t = false ->
  In t (timeouts (add_timeout tv f r w)) <-> In t (timeouts w).
Proof.
  intros Ht. unfold add_timeout. cbn. rewrite filter_In, Ht. cbn.
  split; [intros [H | (H & _)]; [subst t|exact H] | intros H; right; auto].
  unfold same_timer in Ht. cbn in Ht.
  assert (H : callback_eqb f f = true) by (destruct f; reflexivity).
  rewrite H, cref_eqb_refl in Ht. discriminate.
Qed.

(** C10, as the code has it.  When the client script exits non-zero
    in [bind_lease] and one-try mode is off, memory being available: a
    DHCPDECLINE for the address of the new lease is built in the
    packet buffer of the client, which makes that address the
    requested address, and it is broadcast; the tentative lease is
    destroyed.  The rest of the state of the client is as before (the
    environment of the script is dropped): the active lease, the
    state, the time of the last write; nothing is written to the
    lease database; the other clients and the other timeouts are as
    before; and [state_init] is scheduled [decline_wait_time] seconds
    after the clock read when the script returned. *)
Theorem declined_commit_keeps_the_rest r w c n :
  get_client w r = Some c ->
  new c = Some n ->
  dmalloc_ok w = true ->
  fst (script_src w (script_pos w)) <> 0 ->
  onetry w = false ->
  exists w' c' pk,
    bind_lease r w = Running w'
    /\ get_client w' r = Some c'
    (* the DHCPDECLINE *)
    /\ c_packet c' = pk /\ p_xid pk = xid c
    /\ (on_transmission (config c) = None ->
        lookup_option DHO_DHCP_MESSAGE_TYPE (p_options pk)
        = Some (Some [DHCPDECLINE])
        /\ lookup_option DHO_DHCP_REQUESTED_ADDRESS (p_options pk)
           = Some (Some (address n)))
    /\ requested_address c' = address n
    /\ sent w'
       = {| s_via_fallback := false; s_interface := r_if r; s_packet := pk;
            s_from := iaddr_any; s_to := iaddr_broadcast |} :: sent w
    (* the tentative lease is destroyed *)
    /\ new c' = None
    /\ freed w' = l_ptr n :: freed w
    (* the rest of the client is as it was *)
    /\ c' = set_c_packet pk
              (set_requested_address (address n)
                 (set_env [] (set_new None c)))
    /\ active c' = active c
    /\ state c' = state c
    /\ last_write c' = last_write c
    (* nothing is written to the lease database *)
    /\ leaseFile w' = leaseFile w
    /\ leases_written w' = leases_written w
    /\ rewrites w' = rewrites w
    (* the other clients are as they were *)
    /\ (forall r', r' <> r -> get_client w' r' = get_client w r')
    (* the return to INIT is scheduled, the other timeouts stay *)
    /\ filter (same_timer CB_state_init r) (timeouts w')
       = [{| t_when :=
               {| tv_sec := tadd (tv_sec (snd (script_src w (script_pos w))))
                              (decline_wait_time w);
                  tv_usec := tv_usec (snd (script_src w (script_pos w))) |};
             t_func := CB_state_init; t_what := r |}]
    /\ (forall t, same_timer CB_state_init r t = false ->
                  In t (timeouts w') <-> In t (timeouts w)).
Proof.
  intros Hget Hnew Hmem Hst Hone.
  destruct (bind_lease_declines r w c n Hget Hnew Hmem Hst)
    as (w2 & pk & e & Hrun & Hget2 & Hxid & Hty & Hsent & Hfreed & _ & _ & _
        & Htime & Hfile & Hwritten & Hrw & Hothers).
  rewrite Hone in Hrun.
  eexists. eexists. exists pk. split; [exact Hrun|].
  split; [wsimpl; exact Hget2|].
  cbn [c_packet set_c_packet requested_address set_requested_address new
       set_new set_env active state last_write].
  wsimpl.
  repeat match goal with |- _ /\ _ => split end; try assumption;
    try reflexivity; try apply filter_same_timer_add.
  intros t Ht. rewrite <- Htime.
  exact (in_add_timeout_other _ CB_state_init r w2 t Ht).
Qed.

(** *** What a write to the lease database leaves alone *)

Lemma map_alter_nth {A B : Type} (g : A -> B) (f : A -> A) n l :
  (forall x, g (f x) = g x) -> map g (alter_nth f n l) = map g l.
Proof.
  intros E. revert n. induction l as [|x l IH]; intros [|n]; cbn;
    try reflexivity; [rewrite E | rewrite IH]; reflexivity.
Qed.

Lemma db_view_upd_last_write r v w :
  db_view (upd_client r (set_last_write v) w) = db_view w.
Proof.
  assert (E : forall l, map blank_interface
                          (upd_iface_list r (set_last_write v) l)
                        = map blank_interface l).
  { intros l. unfold upd_iface_list. apply map_alter_nth. intros ip.
    unfold blank_interface. cbn [client set_client].
    rewrite map_alter_nth by reflexivity. reflexivity. }
  unfold db_view, upd_client.
  destruct (r_dummy r); cbn; rewrite E; reflexivity.
Qed.

Lemma db_view_set_leaseFile v w : db_view (set_leaseFile v w) = db_view w.
Proof. reflexivity. Qed.

Lemma db_view_set_leases_written v w :
  db_view (set_leases_written v w) = set_leases_written v (db_view w).
Proof. reflexivity. Qed.

Lemma db_view_set_rewrites v w :
  db_view (set_rewrites v w) = set_rewrites v (db_view w).
Proof. reflexivity. Qed.

Lemma db_view_db_append e w : db_view (db_append e w) = db_view w.
Proof. unfold db_append. destruct (leaseFile w); reflexivity. Qed.

Lemma db_view_write_duid d w : db_view (write_duid d w) = db_view w.
Proof.
  unfold write_duid. destruct (_ <=? 2); [reflexivity|].
  destruct (leaseFile w) eqn:E.
  - rewrite E. destruct (_ && _); [apply db_view_db_append | reflexivity].
  - destruct (fopen_ok w); cbn [leaseFile set_leaseFile]; rewrite ?E.
    + destruct (_ && _); [rewrite db_view_db_append|]; reflexivity.
    + reflexivity.
Qed.

(** The part of [write_client_lease] that follows the count of the
    writes. *)
Lemma db_view_write_rewrite f r l ms w :
  db_view (snd (write_client_lease_body f r l true ms w)) = db_view w.
Proof.
  unfold write_client_lease_body.
  destruct (is_static l); [reflexivity|].
  set (w2 := match leaseFile w with Some _ => w | None => _ end).
  assert (E2 : db_view w2 = db_view w).
  { unfold w2. destruct (leaseFile w); [reflexivity|].
    destruct (fopen_ok w); reflexivity. }
  clearbody w2. rewrite <- E2. clear E2 w.
  destruct (leaseFile w2); [|reflexivity].
  set (w3 := if fprintf_ok w2 then _ else w2).
  assert (E3 : db_view w3 = db_view w2).
  { unfold w3. destruct (fprintf_ok w2);
      [apply db_view_db_append | reflexivity]. }
  set (errors := _ || _ || _).
  clearbody w3 errors. rewrite <- E3. clear E3.
  destruct (negb errors && ms); [destruct (fsync_ok _)|destruct errors];
    cbn [snd]; apply db_view_upd_last_write.
Qed.

Lemma write_client_lease_body_split f r l ms w :
  write_client_lease_body f r l false ms w
  = write_client_lease_body f r l true ms
      (if 20 <? leases_written w
       then set_leases_written 0
              (f (set_leases_written (int_of (leases_written w + 1)) w))
       else set_leases_written (int_of (leases_written w + 1)) w).
Proof. reflexivity. Qed.

Lemma db_view_fold {A : Type} (f : world -> A -> world) (l : list A) w :
  (forall w0 x, db_view (f w0 x) = db_view w0) ->
  db_view (fold_left f l w) = db_view w.
Proof.
  intros Hf. revert w. induction l as [|x l IH]; intros w; cbn [fold_left];
    [reflexivity|]. rewrite IH. apply Hf.
Qed.

Lemma db_view_rewrite_one_client r w :
  db_view (rewrite_one_client r w) = db_view w.
Proof.
  unfold rewrite_one_client. rewrite db_view_upd_last_write.
  destruct (active (deref w r)).
  - rewrite db_view_write_rewrite.
    apply db_view_fold. intros w0 x. apply db_view_write_rewrite.
  - apply db_view_fold. intros w0 x. apply db_view_write_rewrite.
Qed.

(** A rewrite of the database is counted, and changes nothing but the
    file and the times of the last writes. *)
Lemma db_view_rewrite_client_leases w :
  db_view (rewrite_client_leases w)
  = set_rewrites (S (rewrites w)) (db_view w).
Proof.
  unfold rewrite_client_leases.
  set (w1 := set_rewrites (S (rewrites w)) w).
  change (set_rewrites (S (rewrites w)) (db_view w)) with (db_view w1).
  clearbody w1.
  destruct (fopen_ok w1); cbn [negb]; [|reflexivity].
  rewrite db_view_fold.
  - rewrite db_view_fold.
    + destruct (negb _); [rewrite db_view_write_duid|]; reflexivity.
    + intros w0 i. unfold rewrite_interface. apply db_view_fold.
      intros w2 n. apply db_view_rewrite_one_client.
  - intros w0 i. unfold rewrite_interface. apply db_view_fold.
    intros w2 n. apply db_view_rewrite_one_client.
Qed.

(** A write in append mode: the count of writes goes up by one, and
    once it has passed 20 the database is rewritten and the count
    starts again. *)
Lemma db_view_write_client_lease r l ms w :
  db_view (snd (write_client_lease r l false ms w))
  = if 20 <? leases_written w
    then set_leases_written 0 (set_rewrites (S (rewrites w)) (db_view w))
    else set_leases_written (int_of (leases_written w + 1)) (db_view w).
Proof.
  unfold write_client_lease. rewrite write_client_lease_body_split.
  rewrite db_view_write_rewrite.
  destruct (20 <? leases_written w); [|reflexivity].
  rewrite db_view_set_leases_written, db_view_rewrite_client_leases.
  reflexivity.
Qed.

(** What equal views say. *)
Lemma nth_error_map_blank (f : client_state -> client_state) l n :
  nth_error (map f l) n = option_map f (nth_error l n).
Proof. apply nth_error_map. Qed.

Lemma get_client_db_view w r :
  get_client (db_view w) r = option_map (set_last_write 0) (get_client w r).
Proof.
  unfold get_client, db_view, iface_list.
  destruct (r_dummy r); cbn [interfaces dummy_interfaces set_leaseFile
    set_interfaces set_dummy_interfaces];
    rewrite nth_error_map;
    (destruct (nth_error _ (r_if r)) as [ip|]; cbn [option_map];
     [unfold blank_interface; cbn [client set_client]; apply nth_error_map
     | reflexivity]).
Qed.

Lemma db_view_client w w' r c :
  db_view w' = db_view w -> get_client w r = Some c ->
  exists c', get_client w' r = Some c'
             /\ set_last_write 0 c' = set_last_write 0 c.
Proof.
  intros Hv Hget.
  assert (E : get_client (db_view w') r = get_client (db_view w) r)
    by (rewrite Hv; reflexivity).
  rewrite !get_client_db_view, Hget in E.
  destruct (get_client w' r) as [c'|]; [|discriminate].
  exists c'. split; [reflexivity|]. cbn in E. congruence.
Qed.

(** ** The rewrite threshold of the lease database *)

Lemma int_of_small z : -2147483648 <= z < 2147483648 -> int_of z = z.
Proof.
  intros Hz. unfold int_of, wrap.
  change (2 ^ (32 - 1)) with 2147483648. change (2 ^ 32) with 4294967296.
  rewrite Z.mod_small by lia. lia.
Qed.

Lemma append_counts r l ms w :
  0 <= leases_written w <= 21 ->
  let w' := snd (write_client_lease r l false ms w) in
  (leases_written w <= 20 ->
   leases_written w' = leases_written w + 1 /\ rewrites w' = rewrites w)
  /\ (leases_written w = 21 ->
      leases_written w' = 0 /\ rewrites w' = S (rewrites w)).
Proof.
  intros Hn w'.
  pose proof (db_view_write_client_lease r l ms w) as Hv. fold w' in Hv.
  pose proof (f_equal leases_written Hv) as Hc.
  pose proof (f_equal rewrites Hv) as Hr.
  change (leases_written (db_view w')) with (leases_written w') in Hc.
  change (rewrites (db_view w')) with (rewrites w') in Hr.
  split; intros Hcase.
  - destruct (Z.ltb_spec 20 (leases_written w)); [lia|].
    cbn in Hc, Hr. rewrite int_of_small in Hc by lia. auto.
  - destruct (Z.ltb_spec 20 (leases_written w)); [|lia].
    cbn in Hc, Hr. auto.
Qed.

Lemma append_writes_counts calls : forall w,
  0 <= leases_written w <= 21 ->
  leases_written (append_writes calls w)
  = Z.of_nat ((Z.to_nat (leases_written w) + length calls) mod 22)
  /\ rewrites (append_writes calls w)
     = (rewrites w + (Z.to_nat (leases_written w) + length calls) / 22)%nat.
Proof.
  induction calls as [|[[r l] ms] calls IH]; intros w Hn.
  - cbn [append_writes fold_left length]. rewrite Nat.add_0_r.
    rewrite Nat.mod_small by lia. rewrite Nat.div_small by lia. lia.
  - change (append_writes ((r, l, ms) :: calls) w)
      with (append_writes calls (snd (write_client_lease r l false ms w))).
    destruct (append_counts r l ms w Hn) as (Hlow & Hhigh).
    set (w' := snd (write_client_lease r l false ms w)) in *.
    cbn [length].
    destruct (Z_le_gt_dec (leases_written w) 20) as [Hle|Hgt].
    + destruct (Hlow Hle) as (Ec & Er).
      destruct (IH w') as (IHc & IHr); [lia|].
      rewrite IHc, IHr, Ec, Er.
      replace (Z.to_nat (leases_written w + 1) + length calls)%nat
        with (Z.to_nat (leases_written w) + S (length calls))%nat by lia.
      split; reflexivity.
    + assert (E21 : leases_written w = 21) by lia.
      destruct (Hhigh E21) as (Ec & Er).
      destruct (IH w') as (IHc & IHr); [lia|].
      rewrite IHc, IHr, Ec, Er, E21.
      change (Z.to_nat 0) with 0%nat. change (Z.to_nat 21) with 21%nat.
      replace (21 + S (length calls))%nat
        with (0 + length calls + 1 * 22)%nat by lia.
      rewrite Nat.Div0.mod_add, Nat.div_add by lia.
      split; [reflexivity | lia].
Qed.

(** C8, as the code has it: starting from a fresh count, the lease
    database is rewritten in full on every 22nd call of
    [write_client_lease] in append mode, whatever the clients, the
    leases and the outcome of the writes. *)
Theorem database_rewritten_every_22_writes : rewrite_every 22.
Proof.
  intros calls w H0.
  destruct (append_writes_counts calls w) as (_ & Hr); [lia|].
  rewrite Hr, H0. reflexivity.
Qed.

(** C8 as the specification words it does not hold: after 20 and after
    21 writes in append mode the database has not been rewritten. *)
Lemma database_not_rewritten_every_20_writes :
  ~ rewrite_every 20 /\ ~ rewrite_every 21.
Proof.
  split; intros Hclaim.
  - specialize (Hclaim (repeat (live 0 0, lease0 1 false, true) 20) world0
                  eq_refl).
    vm_compute in Hclaim. discriminate.
  - specialize (Hclaim (repeat (live 0 0, lease0 1 false, true) 21) world0
                  eq_refl).
    vm_compute in Hclaim. discriminate.
Qed.

(** ** Release *)

Lemma write_fails f r l w :
  is_static l = false -> store_fails w ->
  fst (write_client_lease_body f r l true true w) = 0.
Proof.
  intros Hs Hf. unfold write_client_lease_body. rewrite Hs.
  destruct (leaseFile w) as [fl|] eqn:Efile.
  - rewrite Efile.
    destruct Hf as [(Hn & _) | [Hf | [Hf | Hf]]]; [congruence| | |].
    + rewrite Hf. cbn [negb orb andb]. reflexivity.
    + rewrite Hf. cbn [negb]. rewrite !orb_true_r. reflexivity.
    + destruct (negb (_ || _ || _) && true) eqn:E.
      * wsimpl. destruct (fprintf_ok w); unfold db_append; rewrite ?Efile;
          wsimpl; rewrite Hf; reflexivity.
      * rewrite andb_true_r in E. apply negb_false_iff in E. rewrite E.
        reflexivity.
  - destruct (fopen_ok w) eqn:Eopen.
    + cbn [leaseFile set_leaseFile].
      destruct Hf as [(_ & Hn) | [Hf | [Hf | Hf]]]; [congruence| | |].
      * cbn [fprintf_ok set_leaseFile]. rewrite Hf. reflexivity.
      * cbn [fprintf_ok fflush_ok dmalloc_ok set_leaseFile]. rewrite Hf.
        cbn [negb]. rewrite !orb_true_r. reflexivity.
      * cbn [fprintf_ok fflush_ok dmalloc_ok set_leaseFile].
        destruct (negb (_ || _ || _) && true) eqn:E.
        -- wsimpl. destruct (fprintf_ok w); unfold db_append;
             cbn [leaseFile set_leaseFile]; wsimpl; rewrite Hf; reflexivity.
        -- rewrite andb_true_r in E. apply negb_false_iff in E. rewrite E.
           reflexivity.
    + rewrite Efile. reflexivity.
Qed.

(** C9, as the code has it.  When the lease file cannot be written or
    synchronised during a release, [write_client_lease] returns 0 to
    [send_release], which returns without sending the DHCPRELEASE.
    The expiry, renewal and rebind times of the active lease have been
    set to the current time before the write and stay so; nothing else
    in memory changes but [last_write]. *)
Theorem failed_release_write_is_reported r w c a :
  get_client w r = Some c ->
  active c = Some a ->
  is_static a = false ->
  store_fails w ->
  let now := cur_time w in
  let a' := set_times now now now a in
  exists w' c',
    (* the writer reports the failure to [send_release] *)
    fst (write_client_lease r a' true true
           (upd_client r (set_active (Some a')) w)) = 0
    /\ send_release r w = Running w'
    (* which sends no DHCPRELEASE *)
    /\ sent w' = sent w
    /\ get_client w' r = Some c'
    (* the lease has been set to end now *)
    /\ active c' = Some a'
    (* and nothing else in memory has changed but [last_write] *)
    /\ set_last_write 0 c' = set_last_write 0 (set_active (Some a') c)
    /\ db_view w' = db_view (upd_client r (set_active (Some a')) w).
Proof.
  intros Hget Hact Hstat Hfail now a'.
  set (w1 := upd_client r (set_active (Some a')) w).
  assert (Hf1 : store_fails w1).
  { unfold store_fails, w1. wsimpl. exact Hfail. }
  assert (Hget1 : get_client w1 r = Some (set_active (Some a') c)).
  { unfold w1. wsimpl. rewrite Hget. reflexivity. }
  assert (H0 : fst (write_client_lease r a' true true w1) = 0)
    by (apply write_fails; [exact Hstat | exact Hf1]).
  pose proof (db_view_write_rewrite rewrite_client_leases r a' true w1) as Hv.
  fold write_client_lease in Hv.
  destruct (db_view_client _ _ r _ Hv Hget1) as (c' & Hget' & Hc').
  unfold send_release. rewrite (deref_Some _ _ _ Hget), Hact.
  fold now a' w1.
  destruct (write_client_lease r a' true true w1) as [ok w'] eqn:Ew.
  cbn [fst snd] in *. subst ok. cbn [Z.eqb].
  exists w', c'. repeat split; try assumption.
  - change (sent w') with (sent (db_view w')). rewrite Hv. unfold w1.
    cbn [db_view sent set_leaseFile set_interfaces set_dummy_interfaces].
    wsimpl. reflexivity.
  - apply (f_equal active) in Hc'. exact Hc'.
Qed.

(** ** The commit *)

Lemma set_freed_same w : set_freed (freed w) w = w.
Proof. destruct w; reflexivity. Qed.

Lemma discard_duplicate_world l x w :
  exists fr, snd (discard_duplicate l x w) = set_freed (fr ++ freed w) w.
Proof.
  induction l as [|cur l IH]; cbn [discard_duplicate].
  - exists []. cbn. symmetry. apply set_freed_same.
  - destruct (same_lease x cur).
    + exists [l_ptr cur]. reflexivity.
    + destruct (discard_duplicate l x w) as [rest w'] eqn:E.
      cbn [snd] in *. exact IH.
Qed.

(** A write to the database keeps every client but for [last_write],
    and frees nothing. *)
Lemma write_keeps_client r0 l rw ms w r c :
  get_client w r = Some c ->
  let w' := snd (write_client_lease r0 l rw ms w) in
  freed w' = freed w /\ cur_tv w' = cur_tv w /\ rand_pos w' = rand_pos w
  /\ rand_src w' = rand_src w /\ timeouts w' = timeouts w
  /\ exists c', get_client w' r = Some c'
                /\ set_last_write 0 c' = set_last_write 0 c.
Proof.
  intros Hget w'.
  assert (Hv : exists n k, db_view w'
                           = set_leases_written n (set_rewrites k (db_view w))).
  { unfold w'. destruct rw.
    - exists (leases_written w), (rewrites w).
      unfold write_client_lease. rewrite db_view_write_rewrite.
      destruct w; reflexivity.
    - rewrite db_view_write_client_lease.
      destruct (20 <? leases_written w).
      + eexists. eexists. reflexivity.
      + exists (int_of (leases_written w + 1)), (rewrites w).
        destruct w; reflexivity. }
  destruct Hv as (n & k & Hv).
  repeat split.
  - change (freed w') with (freed (db_view w')). rewrite Hv. reflexivity.
  - change (cur_tv w') with (cur_tv (db_view w')). rewrite Hv. reflexivity.
  - change (rand_pos w') with (rand_pos (db_view w')). rewrite Hv. reflexivity.
  - change (rand_src w') with (rand_src (db_view w')). rewrite Hv. reflexivity.
  - change (timeouts w') with (timeouts (db_view w')). rewrite Hv. reflexivity.
  - assert (E : get_client (db_view w') r = get_client (db_view w) r)
      by (rewrite Hv; reflexivity).
    rewrite !get_client_db_view, Hget in E.
    destruct (get_client w' r) as [c'|]; [|discriminate].
    exists c'. split; [reflexivity|]. cbn in E. congruence.
Qed.

Lemma bind_commit_run r n w c :
  get_client w r = Some c ->
  new c = Some n ->
  exists w' c',
    bind_commit r n w = Running w'
    /\ get_client w' r = Some c'
    /\ active c' = Some n /\ new c' = None /\ state c' = S_BOUND
    /\ (forall a, active c = Some a -> is_static a = true ->
                  exists rest, leases c' = rest ++ [a])
    /\ (forall a, active c = Some a -> is_static a = false ->
                  freed w' = l_ptr a :: freed w)
    /\ exists usec,
         filter (same_timer CB_state_bound r) (timeouts w')
         = [{| t_when := {| tv_sec := renewal n; tv_usec := usec |};
               t_func := CB_state_bound; t_what := r |}].
Proof.
  intros Hget Hnew. unfold bind_commit.
  rewrite (deref_Some _ _ _ Hget).
  set (w1 := if _ || _ then _ else w).
  assert (H1 : freed w1 = freed w
               /\ exists c1, get_client w1 r = Some c1
                             /\ set_last_write 0 c1 = set_last_write 0 c).
  { unfold w1. destruct (_ || _).
    - destruct (write_keeps_client r n false true w r c Hget)
        as (Hf & _ & _ & _ & _ & Hc). split; assumption.
    - split; [reflexivity|]. exists c. split; [exact Hget | reflexivity]. }
  destruct H1 as (Hfreed & c1 & Hget1 & Hc1).
  clearbody w1.
  assert (Ea : active c1 = active c) by (apply (f_equal active) in Hc1; exact Hc1).
  assert (En : new c1 = new c) by (apply (f_equal new) in Hc1; exact Hc1).
  rewrite (deref_Some _ _ _ Hget1), Ea.
  set (w2 := match active c with Some _ => _ | None => w1 end).
  assert (H2 : exists c2, get_client w2 r = Some c2 /\ new c2 = Some n
               /\ (forall a, active c = Some a -> is_static a = true ->
                             exists rest, leases c2 = rest ++ [a])
               /\ (forall a, active c = Some a -> is_static a = false ->
                             freed w2 = l_ptr a :: freed w)).
  { unfold w2. destruct (active c) as [a|] eqn:Eact.
    - destruct (is_static a) eqn:Est.
      + unfold add_to_tail.
        destruct (discard_duplicate_world (leases c1) a w1) as (fr & Hw).
        destruct (discard_duplicate (leases c1) a w1) as [rest w'].
        cbn [snd] in Hw. subst w'.
        eexists. split; [wsimpl; rewrite Hget1; reflexivity|].
        record_simpl. split; [congruence|]. split.
        * intros a0 [= <-] _. eauto.
        * intros a0 [= <-] Hs. congruence.
      + exists c1. split; [exact Hget1|]. split; [congruence|]. split.
        * intros a0 [= <-] Hs. congruence.
        * intros a0 [= <-] _. cbn. rewrite Hfreed. reflexivity.
    - exists c1. split; [exact Hget1|]. split; [congruence|].
      split; intros a0 Ha; discriminate. }
  destruct H2 as (c2 & Hget2 & Hn2 & Hstatic & Hdyn).
  clearbody w2. clear w1 Hfreed c1 Hget1 Hc1 Ea En.
  unfold set_tv_usec_jitter, random.
  destruct (1 <? _).
  - wsimpl. eexists. eexists. split; [reflexivity|].
    split; [wsimpl; rewrite Hget2; reflexivity|].
    wsimpl. rewrite Hn2. repeat split; try assumption.
    eexists. apply filter_same_timer_add.
  - wsimpl. eexists. eexists. split; [reflexivity|].
    split; [wsimpl; rewrite Hget2; reflexivity|].
    wsimpl. rewrite Hn2. repeat split; try assumption.
    eexists. apply filter_same_timer_add.
Qed.

(** [bind_lease] when the script accepts the lease. *)
Lemma bind_lease_commits r w c n0 :
  get_client w r = Some c ->
  new c = Some n0 ->
  dmalloc_ok w = true ->
  fst (script_src w (script_pos w)) = 0 ->
  exists w' c',
    bind_lease r w = Running w'
    /\ get_client w' r = Some c'
    /\ active c' = Some (set_l_medium (medium c) n0)
    /\ new c' = None /\ state c' = S_BOUND
    /\ (forall a, active c = Some a -> is_static a = true ->
                  exists rest, leases c' = rest ++ [a])
    /\ (forall a, active c = Some a -> is_static a = false ->
                  freed w' = l_ptr a :: freed w).
Proof.
  intros Hget Hnew Hmem Hst.
  unfold bind_lease. rewrite (deref_Some _ _ _ Hget), Hnew.
  set (n := set_l_medium (medium c) n0).
  destruct (bind_script_run r n (upd_client r (set_new (Some n)) w)
              (set_new (Some n) c))
    as (e & -> & _);
    [wsimpl; rewrite Hget; reflexivity | wsimpl; exact Hmem|].
  wsimpl. rewrite Hst. cbn [Z.eqb negb].
  match goal with |- context [bind_commit r n ?w0] => set (w1 := w0) end.
  destruct (bind_commit_run r n w1 (set_env [] (set_new (Some n) c)))
    as (w' & c' & Hrun & Hget' & Hact & Hn & Hs & Hstatic & Hdyn & _).
  { unfold w1. wsimpl. rewrite Hget. reflexivity. }
  { reflexivity. }
  assert (Hf1 : freed w1 = freed w) by (unfold w1; wsimpl; reflexivity).
  rewrite Hf1 in Hdyn.
  exists w', c'. repeat split; assumption.
Qed.

(** [dhcpack] for an ACK of the transaction of a client in a receptive
    state with a lease time: the new lease gets the times of
    [dhcpack_times] and is handed to [bind_lease]. *)
Lemma dhcpack_accepts pkt w r c :
  find_client pkt w = Some r ->
  get_client w r = Some c ->
  hw_matches pkt w = true ->
  receptive (state c) = true ->
  dmalloc_ok w = true ->
  let os := on_receipt (config c) (options pkt) in
  let l := option_time DHO_DHCP_LEASE_TIME os in
  let r0 := option_time DHO_DHCP_RENEWAL_TIME os in
  let b0 := option_time DHO_DHCP_REBINDING_TIME os in
  let x := rand_src w (rand_pos w) mod 2147483648 in
  l <> 0 ->
  exists w1 lease,
    dhcpack pkt w = bind_lease r w1
    /\ get_client w1 r = Some (set_new (Some lease) c)
    /\ (expiry lease, renewal lease, rebind lease)
       = dhcpack_times (cur_time w) l r0 b0 x
    /\ l_ptr lease = heap_next w /\ is_bootp lease = false
    /\ dmalloc_ok w1 = true
    /\ script_src w1 (script_pos w1) = script_src w (script_pos w)
    /\ freed w1 = freed w.
Proof.
  intros Hfind Hget Hhw Hst Hmem os l r0 b0 x Hl.
  unfold dhcpack. rewrite Hfind, Hhw, (deref_Some _ _ _ Hget), Hst.
  cbn [negb]. unfold packet_to_lease. rewrite Hmem. cbn [negb].
  rewrite (deref_Some _ _ _ Hget).
  set (lease := lease_of_packet _ _ _).
  change (l_options lease) with os. fold l r0 b0.
  destruct (Z.eqb_spec l 0) as [E|_]; [contradiction|].
  unfold dhcpack_times.
  set (e := ack_expiry l). set (rn := ack_renewal e r0).
  unfold random. wsimpl. fold x.
  destruct (jitter_allowed rn); wsimpl;
    (eexists; eexists; split; [reflexivity|]);
    (split; [wsimpl; rewrite Hget; reflexivity|]);
    wsimpl; repeat split; try assumption;
    unfold cur_time; wsimpl; reflexivity.
Qed.

Lemma destroy_all l w :
  fold_left (fun w lp => destroy_client_lease lp w) l w
  = set_freed (rev (map l_ptr l) ++ freed w) w.
Proof.
  revert w. induction l as [|x l IH]; intros w; cbn [fold_left map rev].
  - symmetry. apply set_freed_same.
  - rewrite IH. unfold destroy_client_lease. cbn [freed set_freed].
    rewrite <- app_assoc. reflexivity.
Qed.

(** [state_selecting] when the first offered lease is a BOOTP lease:
    the other leases are destroyed, the times are made up and the
    lease is handed to [bind_lease]. *)
Lemma state_selecting_bootp fuel r w c picked others :
  get_client w r = Some c ->
  offered_leases c = picked :: others ->
  is_bootp picked = true ->
  let now := cur_time w in
  let lease :=
    set_times (tadd now 12000) (tadd (renewal picked) (tadd now 8000))
      (tadd (rebind picked) (tadd now 10000)) picked in
  exists w1,
    state_selecting fuel r w = bind_lease r w1
    /\ get_client w1 r
       = Some (set_state S_REQUESTING
                 (set_new (Some lease) (set_offered_leases [] c)))
    /\ dmalloc_ok w1 = dmalloc_ok w
    /\ script_src w1 (script_pos w1) = script_src w (script_pos w)
    /\ freed w1 = rev (map l_ptr others) ++ freed w.
Proof.
  intros Hget Hoff Hb now lease.
  unfold state_selecting, deref. wsimpl. rewrite Hget, Hoff, Hb.
  cbn [tl]. rewrite destroy_all. wsimpl.
  eexists. split; [reflexivity|].
  split; [wsimpl; rewrite Hget; reflexivity|].
  wsimpl. repeat split; reflexivity.
Qed.

(** C1, as the code has it.  A lease committed from an ACK has
    renewal <= rebind, and rebind <= expiry when the rebind time of
    the server is absent, zero or not above the lease time; the code
    does not compare a rebind time the server gives with the lease
    time.  A BOOTP lease taken in SELECTING has
    renewal <= rebind <= expiry.  The commit is the one of an ACK with
    a lease time, or of a BOOTP lease as [dhcpoffer] records it, that
    the client script accepts. *)
Theorem committed_times_ordered :
  platform_ok P ->
  (forall pkt w r c,
      find_client pkt w = Some r ->
      get_client w r = Some c ->
      hw_matches pkt w = true ->
      receptive (state c) = true ->
      dmalloc_ok w = true ->
      fst (script_src w (script_pos w)) = 0 ->
      clock_ok (cur_time w) ->
      let os := on_receipt (config c) (options pkt) in
      option_time DHO_DHCP_LEASE_TIME os <> 0 ->
      exists w' c' l,
        dhcpack pkt w = Running w'
        /\ get_client w' r = Some c'
        /\ state c' = S_BOUND /\ active c' = Some l
        /\ renewal l <= rebind l
        /\ (option_time DHO_DHCP_REBINDING_TIME os
            <= ack_expiry (option_time DHO_DHCP_LEASE_TIME os) ->
            rebind l <= expiry l))
  /\ (forall fuel w r c picked others,
         get_client w r = Some c ->
         offered_leases c = picked :: others ->
         is_bootp picked = true ->
         renewal picked = 0 -> rebind picked = 0 ->
         dmalloc_ok w = true ->
         fst (script_src w (script_pos w)) = 0 ->
         0 <= cur_time w <= time_max_value - 12000 ->
         exists w' c' l,
           state_selecting fuel r w = Running w'
           /\ get_client w' r = Some c'
           /\ state c' = S_BOUND /\ active c' = Some l
           /\ renewal l <= rebind l <= expiry l).
Proof.
  intros HP. split.
  - intros pkt w r c Hfind Hget Hhw Hst Hmem Hscript Hclock os Hl.
    destruct (dhcpack_accepts pkt w r c Hfind Hget Hhw Hst Hmem Hl)
      as (w1 & lease & -> & Hget1 & Htimes & _ & _ & Hmem1 & Hsrc1 & _).
    destruct (bind_lease_commits r w1 _ lease Hget1 eq_refl Hmem1)
      as (w' & c' & Hrun & Hget' & Hact & _ & Hbound & _).
    { rewrite Hsrc1. exact Hscript. }
    exists w', c', (set_l_medium (medium (set_new (Some lease) c)) lease).
    repeat split; try assumption.
    + pose proof (dhcpack_times_ordered HP (cur_time w)
                    (option_time DHO_DHCP_LEASE_TIME os)
                    (option_time DHO_DHCP_RENEWAL_TIME os)
                    (option_time DHO_DHCP_REBINDING_TIME os)
                    (rand_src w (rand_pos w) mod 2147483648)) as Hord.
      fold os in Htimes. rewrite <- Htimes in Hord.
      cbn [renewal rebind set_l_medium].
      apply Hord; try assumption; try apply (option_time_from_wire HP).
      apply Z.mod_pos_bound. lia.
    + pose proof (dhcpack_times_ordered HP (cur_time w)
                    (option_time DHO_DHCP_LEASE_TIME os)
                    (option_time DHO_DHCP_RENEWAL_TIME os)
                    (option_time DHO_DHCP_REBINDING_TIME os)
                    (rand_src w (rand_pos w) mod 2147483648)) as Hord.
      fold os in Htimes. rewrite <- Htimes in Hord.
      cbn [expiry rebind set_l_medium].
      apply Hord; try assumption; try apply (option_time_from_wire HP).
      apply Z.mod_pos_bound. lia.
  - intros fuel w r c picked others Hget Hoff Hb Hr0 Hb0 Hmem Hscript Hclock.
    destruct (state_selecting_bootp fuel r w c picked others Hget Hoff Hb)
      as (w1 & -> & Hget1 & Hmem1 & Hsrc1 & _).
    destruct (bind_lease_commits r w1 _ _ Hget1 eq_refl)
      as (w' & c' & Hrun & Hget' & Hact & _ & Hbound & _).
    { rewrite Hmem1. exact Hmem. }
    { rewrite Hsrc1. exact Hscript. }
    eexists w', c', _. split; [exact Hrun|]. split; [exact Hget'|].
    split; [exact Hbound|]. split; [exact Hact|].
    cbn [renewal rebind expiry set_l_medium set_times].
    rewrite Hr0, Hb0. unfold tadd, time_max_value in *.
    destruct (time_range HP) as (H31 & _ & _).
    rewrite (time_of_small HP (cur_time w + 12000)) by lia.
    rewrite (time_of_small HP (cur_time w + 8000)) by lia.
    rewrite (time_of_small HP (cur_time w + 10000)) by lia.
    rewrite !(time_of_small HP) by lia. lia.
Qed.

(** C2, as the code has it.  For an ACK with a lease time, the times
    of the new lease handed to [bind_lease] are the guarded ones, in
    exact arithmetic: a lease time that reads as negative is
    [TIME_MAX]; the renewal time is half the lease plus one when the
    option is absent or zero; the jitter is applied only up to
    [TIME_MAX / 3 - 3]; the rebind time is 7/8 of the lease when the
    option is absent or zero, multiplied first only up to
    [TIME_MAX / 7]; the clamp is 3/4 of the rebind time, multiplied
    first only up to [TIME_MAX / 3]; the clock is added last and a sum
    that is not a value of [TIME] becomes [TIME_MAX]. *)
Theorem ack_times_are_guarded pkt w r c :
  platform_ok P ->
  find_client pkt w = Some r ->
  get_client w r = Some c ->
  hw_matches pkt w = true ->
  receptive (state c) = true ->
  dmalloc_ok w = true ->
  0 <= cur_time w <= time_max_value ->
  let os := on_receipt (config c) (options pkt) in
  let l := option_time DHO_DHCP_LEASE_TIME os in
  let r0 := option_time DHO_DHCP_RENEWAL_TIME os in
  let b0 := option_time DHO_DHCP_REBINDING_TIME os in
  let x := rand_src w (rand_pos w) mod 2147483648 in
  l <> 0 ->
  exists w1 lease,
    dhcpack pkt w = bind_lease r w1
    /\ new (deref w1 r) = Some lease
    /\ (expiry lease, renewal lease, rebind lease)
       = guarded_times (cur_time w) l r0 b0 x.
Proof.
  intros HP Hfind Hget Hhw Hst Hmem Hclock os l r0 b0 x Hl.
  destruct (dhcpack_accepts pkt w r c Hfind Hget Hhw Hst Hmem Hl)
    as (w1 & lease & Hrun & Hget1 & Htimes & _).
  exists w1, lease. split; [exact Hrun|].
  split; [rewrite (deref_Some _ _ _ Hget1); reflexivity|].
  rewrite Htimes. fold os l r0 b0 x.
  unfold time_max_value in Hclock.
  apply (dhcpack_times_guarded HP); try assumption;
    try apply (option_time_from_wire HP).
  apply Z.mod_pos_bound. lia.
Qed.

(** ** BOOTP replies *)


(** ** NAK *)

Lemma filter_cancelled f r l :
  filter (same_timer f r) (filter (fun t => negb (same_timer f r t)) l) = [].
Proof.
  induction l as [|t l IH]; [reflexivity|].
  cbn [filter]. destruct (same_timer f r t) eqn:E; cbn [negb]; [exact IH|].
  cbn [filter]. rewrite E. exact IH.
Qed.

(** [dhcpnak] for a NAK of the transaction of a client in a receptive
    state that has an active lease, up to the call of [state_init]. *)
Lemma dhcpnak_expires fuel pkt w r c a :
  find_client pkt w = Some r ->
  get_client w r = Some c ->
  hw_matches pkt w = true ->
  receptive (state c) = true ->
  active c = Some a ->
  dmalloc_ok w = true ->
  exists e1 e2 w2,
    dhcpnak fuel pkt w = state_init fuel r w2
    /\ scripts w2 = e2 :: e1 :: scripts w
    /\ In (Env_reason "EXPIRE") e1 /\ In (Env_params "old_" a) e1
    /\ In (Env_reason "PREINIT") e2
    /\ freed w2 = l_ptr a :: freed w
    /\ get_client w2 r = Some (set_state S_INIT (set_env [] (set_active None c)))
    /\ filter (same_timer CB_send_request r) (timeouts w2) = []
    /\ sent w2 = sent w /\ dmalloc_ok w2 = true
    /\ cur_tv w2 = snd (script_src w (S (script_pos w))).
Proof.
  intros Hfind Hget Hhw Hst Hact Hmem.
  unfold dhcpnak. rewrite Hfind, Hhw, (deref_Some _ _ _ Hget), Hst, Hact.
  cbn [negb].
  repeat env_step.
  rewrite (script_go_env _ _ _ _ Hget Hmem).
  wsimpl.
  env_step. repeat env_step.
  match goal with
  | |- context [script_go r (upd_client r (set_env ?e) ?w0)] =>
      rewrite (script_go_env r e w0 (set_active None (set_env [] c)))
  end; [|wsimpl; rewrite Hget; reflexivity | wsimpl; exact Hmem].
  wsimpl.
  eexists. eexists. eexists. split; [reflexivity|].
  wsimpl. rewrite Hget. cbn [option_map].
  repeat split; auto using filter_cancelled.
Qed.

(** [make_discover] builds a DHCPDISCOVER in the packet buffer of the
    client and touches nothing but the buffer, the requested address
    and the random source. *)
Lemma make_discover_client r l w c :
  get_client w r = Some c ->
  exists pk ra,
    get_client (make_discover r l w) r
    = Some (set_c_packet pk (set_requested_address ra c))
    /\ (on_transmission (config c) = None ->
        lookup_option DHO_DHCP_MESSAGE_TYPE (p_options pk)
        = Some (Some [DHCPDISCOVER]))
    /\ sent (make_discover r l w) = sent w
    /\ freed (make_discover r l w) = freed w
    /\ cur_tv (make_discover r l w) = cur_tv w.
Proof.
  intros Hget. unfold make_discover, make_client_options, random.
  rewrite (deref_Some _ _ _ Hget).
  unfold deref. wsimpl. rewrite Hget. cbn [option_map]. wsimpl.
  eexists. eexists. split; [reflexivity|].
  split; [|repeat split; reflexivity].
  intros ->. cbn [p_options header]. reflexivity.
Qed.

Lemma tsub_diag (HP : platform_ok P) x : int_of (tsub x x) = 0.
Proof.
  unfold tsub. rewrite Z.sub_diag. rewrite (time_of_small HP).
  - reflexivity.
  - destruct (time_range HP). lia.
Qed.

(** [send_discover] right after [state_init], when the panic timeout
    is not negative, no media list is configured and the divisors of
    the backoff are not zero. *)
Lemma send_discover_sends fuel r w c :
  platform_ok P ->
  get_client w r = Some c ->
  first_sending c = cur_time w ->
  0 <= timeout (config c) ->
  media (config c) = [] ->
  interval c = 0 \/ tmul 2 (interval c) <> 0 ->
  backoff_cutoff (config c) <> 0 ->
  exists w' i tv,
    send_discover (S fuel) r w = Running w'
    /\ get_client w' r
       = Some (set_secs 0
                 (set_c_packet (set_p_secs 0 (c_packet c))
                    (set_interval i c)))
    /\ sent w'
       = {| s_via_fallback := false; s_interface := r_if r;
            s_packet := set_p_secs 0 (c_packet c);
            s_from := iaddr_any; s_to := iaddr_broadcast |} :: sent w
    /\ freed w' = freed w
    /\ filter (same_timer CB_send_discover r) (timeouts w')
       = [{| t_when := tv; t_func := CB_send_discover; t_what := r |}].
Proof.
  intros HP Hget Hfirst Htime Hmedia Hint Hcut.
  cbn [send_discover]. rewrite (deref_Some _ _ _ Hget), Hfirst.
  rewrite (tsub_diag HP).
  destruct (Z.ltb_spec (timeout (config c)) 0); [lia|].
  unfold try_media. rewrite (deref_Some _ _ _ Hget), Hmedia.
  assert (Hm : match offered_leases c with
               | [] => (Running w, true)
               | _ :: _ => (Running w, true)
               end = (Running w, true))
    by (destruct (offered_leases c); reflexivity).
  rewrite Hm. cbn [and_then]. rewrite (deref_Some _ _ _ Hget).
  change (secs_of 0) with 0.
  unfold set_tv_usec_jitter, random, plus_rem.
  apply Z.eqb_neq in Hcut. rewrite Hcut.
  assert (Hdiv : (interval c =? 0) = false ->
                 (tmul 2 (interval c) =? 0) = false).
  { intros E. apply Z.eqb_neq in E. apply Z.eqb_neq. tauto. }
  destruct (interval c =? 0); [|rewrite (Hdiv eq_refl)];
    repeat match goal with
           | |- context [if ?b then _ else _] => destruct b
           end;
    wsimpl;
    (eexists; eexists; eexists; split; [reflexivity|]);
    wsimpl; rewrite Hget; cbn [option_map];
    (split; [reflexivity|]);
    (split; [unfold deref; wsimpl; rewrite Hget; reflexivity|]);
    (split; [reflexivity|]);
    apply filter_same_timer_add.
Qed.

Lemma tmul_2_nonzero (HP : platform_ok P) v :
  0 <= v <= time_max_value -> v = 0 \/ tmul 2 v <> 0.
Proof.
  intros Hv. unfold time_max_value in Hv.
  destruct (Z.eq_dec v 0) as [E|E]; [left; exact E | right].
  destruct (time_range HP) as (H31 & H2 & _). unfold tmul.
  destruct (Z_lt_le_dec (2 * v) (2 ^ (time_bits - 1))) as [Hs|Hs].
  - rewrite (time_of_small HP) by lia. lia.
  - rewrite (time_of_over HP) by lia. lia.
Qed.

(** [state_init] when the panic timeout is not negative, no media list
    is configured, the backoff cutoff is not zero and the initial
    interval is not negative: a DHCPDISCOVER is broadcast with the xid
    of the client, the client is in SELECTING and [send_discover] is
    scheduled. *)
Lemma state_init_discovers fuel r w c :
  platform_ok P ->
  get_client w r = Some c ->
  0 <= timeout (config c) ->
  media (config c) = [] ->
  on_transmission (config c) = None ->
  backoff_cutoff (config c) <> 0 ->
  0 <= initial_interval (config c) <= time_max_value ->
  exists w' c' p,
    state_init (S (S fuel)) r w = Running w'
    /\ get_client w' r = Some c'
    /\ state c' = S_SELECTING
    /\ active c' = active c
    /\ sent w' = p :: sent w
    /\ freed w' = freed w
    /\ s_to p = iaddr_broadcast
    /\ lookup_option DHO_DHCP_MESSAGE_TYPE (p_options (s_packet p))
       = Some (Some [DHCPDISCOVER])
    /\ p_xid (s_packet p) = xid c'
    /\ exists tv,
         filter (same_timer CB_send_discover r) (timeouts w')
         = [{| t_when := tv; t_func := CB_send_discover; t_what := r |}].
Proof.
  intros HP Hget Htime Hmedia Htrans Hcut Hinit.
  cbn [state_init].
  destruct (make_discover_client r (active (deref w r)) w c Hget)
    as (pk & ra & Hget1 & Htype & Hsent1 & Hfreed1 & Htv1).
  set (w1 := make_discover r (active (deref w r)) w) in *.
  clearbody w1.
  match goal with |- context [send_discover (S fuel) r ?w0] =>
    set (w5 := w0) end.
  set (c5 := set_interval (initial_interval (config c))
               (set_first_sending (cur_time w1)
                  (set_state S_SELECTING
                     (set_destination iaddr_broadcast
                        (set_xid (p_xid pk)
                           (set_c_packet pk
                              (set_requested_address ra c))))))).
  assert (Hget5 : get_client w5 r = Some c5).
  { unfold w5. wsimpl. rewrite Hget1. reflexivity. }
  assert (Hsent5 : sent w5 = sent w).
  { unfold w5. wsimpl. exact Hsent1. }
  assert (Hfreed5 : freed w5 = freed w).
  { unfold w5. wsimpl. exact Hfreed1. }
  assert (Hfirst : first_sending c5 = cur_time w5).
  { unfold w5, c5. wsimpl. reflexivity. }
  clearbody w5.
  destruct (send_discover_sends fuel r w5 c5 HP Hget5 Hfirst Htime Hmedia
              (tmul_2_nonzero HP _ Hinit) Hcut)
    as (w' & i & tv & Hrun & Hget' & Hsent' & Hfreed' & Htimer).
  eexists w', _, _. split; [exact Hrun|]. split; [exact Hget'|].
  cbn [state active set_secs set_c_packet set_interval c5 set_first_sending
       set_state set_destination set_xid set_requested_address xid].
  split; [reflexivity|]. split; [reflexivity|].
  split; [rewrite Hsent', Hsent5; reflexivity|].
  split; [rewrite Hfreed', Hfreed5; reflexivity|].
  cbn [s_to s_packet p_options set_p_secs c_packet p_xid].
  repeat split; auto. eauto.
Qed.

(** [dhcpnak] for a client that has no active lease. *)
Lemma dhcpnak_without_lease fuel pkt w r c :
  find_client pkt w = Some r ->
  get_client w r = Some c ->
  active c = None ->
  dhcpnak fuel pkt w = Running w.
Proof.
  intros Hfind Hget Hact. unfold dhcpnak.
  rewrite Hfind, (deref_Some _ _ _ Hget), Hact.
  destruct (hw_matches pkt w); [|reflexivity].
  destruct (receptive (state c)); reflexivity.
Qed.

(** C5, as the code has it.  A NAK of the transaction of a client in
    REQUESTING, REBOOTING, RENEWING or REBINDING that has an active
    lease, memory being available: the client script runs with reason
    EXPIRE and the parameters of the active lease, then with reason
    PREINIT; the active lease is destroyed, the pending
    [send_request] is cancelled, the state is INIT and [state_init] is
    entered.  When moreover the panic timeout is not negative, no
    media list and no statement on transmission are configured, the
    backoff cutoff is not zero and the initial interval is not
    negative, [state_init] broadcasts a DHCPDISCOVER and leaves the
    client in SELECTING.  A NAK of the transaction of a client that
    has no active lease changes nothing. *)
Theorem nak_with_active_lease_restarts :
  platform_ok P ->
  (forall fuel pkt w r c a,
      find_client pkt w = Some r ->
      get_client w r = Some c ->
      hw_matches pkt w = true ->
      receptive (state c) = true ->
      active c = Some a ->
      dmalloc_ok w = true ->
      exists e1 e2 w2,
        dhcpnak fuel pkt w = state_init fuel r w2
        /\ scripts w2 = e2 :: e1 :: scripts w
        /\ In (Env_reason "EXPIRE") e1 /\ In (Env_params "old_" a) e1
        /\ In (Env_reason "PREINIT") e2
        /\ freed w2 = l_ptr a :: freed w
        /\ active (deref w2 r) = None
        /\ state (deref w2 r) = S_INIT
        /\ filter (same_timer CB_send_request r) (timeouts w2) = [])
  /\ (forall fuel pkt w r c a,
         find_client pkt w = Some r ->
         get_client w r = Some c ->
         hw_matches pkt w = true ->
         receptive (state c) = true ->
         active c = Some a ->
         dmalloc_ok w = true ->
         0 <= timeout (config c) ->
         media (config c) = [] ->
         on_transmission (config c) = None ->
         backoff_cutoff (config c) <> 0 ->
         0 <= initial_interval (config c) <= time_max_value ->
         exists w' c' p,
           dhcpnak (S (S fuel)) pkt w = Running w'
           /\ get_client w' r = Some c'
           /\ state c' = S_SELECTING /\ active c' = None
           /\ sent w' = p :: sent w
           /\ s_to p = iaddr_broadcast
           /\ lookup_option DHO_DHCP_MESSAGE_TYPE (p_options (s_packet p))
              = Some (Some [DHCPDISCOVER])
           /\ freed w' = l_ptr a :: freed w)
  /\ (forall fuel pkt w r c,
         find_client pkt w = Some r ->
         get_client w r = Some c ->
         active c = None ->
         dhcpnak fuel pkt w = Running w).
Proof.
  intros HP. split; [|split].
  - intros fuel pkt w r c a Hfind Hget Hhw Hst Hact Hmem.
    destruct (dhcpnak_expires fuel pkt w r c a Hfind Hget Hhw Hst Hact Hmem)
      as (e1 & e2 & w2 & Hrun & Hscripts & He1 & Hold & He2 & Hfreed & Hget2
          & Htimer & _).
    exists e1, e2, w2. rewrite (deref_Some _ _ _ Hget2).
    repeat match goal with |- _ /\ _ => split end; try assumption;
      reflexivity.
  - intros fuel pkt w r c a Hfind Hget Hhw Hst Hact Hmem Htime Hmedia Htrans
      Hcut Hinit.
    destruct (dhcpnak_expires (S (S fuel)) pkt w r c a Hfind Hget Hhw Hst
                Hact Hmem)
      as (e1 & e2 & w2 & Hrun & _ & _ & _ & _ & Hfreed & Hget2 & _ & Hsent
          & _).
    destruct (state_init_discovers fuel r w2 _ HP Hget2 Htime Hmedia Htrans
                Hcut Hinit)
      as (w' & c' & p & Hrun' & Hget' & Hsel & Hact' & Hsent' & Hfreed'
          & Hto & Hty & _ & _).
    exists w', c', p. rewrite Hrun, Hrun'.
    repeat match goal with |- _ /\ _ => split end; try assumption;
      try reflexivity.
    + rewrite Hsent', Hsent. reflexivity.
    + rewrite Hfreed', Hfreed. reflexivity.
  - exact dhcpnak_without_lease.
Qed.

(** ** Leases made from packets *)




(** ** The DHCPREQUEST *)

(** [make_request] fills the packet buffer, the options sent and the
    requested address of the client and touches nothing else. *)
Lemma make_request_client r lease w c :
  get_client w r = Some c ->
  exists pk so ra,
    make_request r lease w
    = upd_client r
        (fun c => set_c_packet pk
                    (set_sent_options so (set_requested_address ra c))) w
    /\ (on_transmission (config c) = None ->
        lookup_option DHO_DHCP_MESSAGE_TYPE (p_options pk)
        = Some (Some [DHCPREQUEST]))
    /\ p_xid pk = xid c.
Proof.
  intros Hget. unfold make_request, make_client_options, deref.
  wsimpl. rewrite Hget. cbn [option_map]. wsimpl.
  rewrite !upd_client_upd_client.
  eexists. eexists. eexists. split; [reflexivity|].
  split; [|reflexivity].
  intros ->. cbn [p_options header].
  rewrite lookup_save_other by discriminate. apply lookup_save_same.
Qed.

Lemma make_request_spec r lease w c :
  get_client w r = Some c ->
  on_transmission (config c) = None ->
  exists c',
    get_client (make_request r lease w) r = Some c'
    /\ state c' = state c /\ xid c' = xid c /\ active c' = active c
    /\ let pk := c_packet c' in
       let sid := lookup_option DHO_DHCP_SERVER_IDENTIFIER (p_options pk) in
       let rip := lookup_option DHO_DHCP_REQUESTED_ADDRESS (p_options pk) in
       op pk = BOOTREQUEST /\ p_xid pk = xid c
       /\ lookup_option DHO_DHCP_MESSAGE_TYPE (p_options pk)
          = Some (Some [DHCPREQUEST])
       /\ sent_options c' = p_options pk
       /\ (state c = S_REQUESTING ->
           ciaddr pk = iaddr_any /\ rip = Some (Some (address lease))
           /\ sid = lookup_option DHO_DHCP_SERVER_IDENTIFIER
                      (l_options lease)
           /\ requested_address c' = address lease)
       /\ (state c = S_REBOOTING ->
           ciaddr pk = iaddr_any /\ rip = Some (Some (address lease))
           /\ sid = None /\ requested_address c' = address lease)
       /\ (state c = S_BOUND \/ state c = S_RENEWING
           \/ state c = S_REBINDING ->
           ciaddr pk = address lease /\ rip = None /\ sid = None
           /\ flags pk = 0 /\ requested_address c' = []).
Proof.
  intros Hget Htrans.
  unfold make_request, make_client_options, deref.
  wsimpl. rewrite Hget. cbn [option_map]. wsimpl. rewrite ?Hget, Htrans.
  cbn [option_map].
  eexists. split; [reflexivity|].
  cbn [state xid active c_packet set_c_packet sent_options set_sent_options
       requested_address set_requested_address header op p_xid p_options
       ciaddr flags].
  split; [reflexivity|]. split; [reflexivity|]. split; [reflexivity|].
  cbv zeta.
  split; [reflexivity|]. split; [reflexivity|].
  split.
  { rewrite lookup_save_other by discriminate. apply lookup_save_same. }
  split; [reflexivity|].
  destruct (state c); cbn [state_eqb orb andb negb];
    repeat match goal with
           | |- _ /\ _ => split
           | |- _ -> _ =>
               let H := fresh "H" in
               intros H; try discriminate H;
               try (destruct H as [H | [H | H]]; discriminate H); clear H
           end;
    try reflexivity;
    rewrite ?lookup_save_other by discriminate; try reflexivity;
    try apply lookup_save_same;
    destruct (lookup_option DHO_DHCP_SERVER_IDENTIFIER (l_options lease));
    [apply lookup_save_same | reflexivity].
Qed.

(** X7: The DHCPREQUEST [make_request] builds, when no statement of the
    configuration changes the options on transmission, is as RFC 2131
    asks: it has the xid of the client; in REQUESTING it names the server
    and the address asked for and [ciaddr] is zero; in REBOOTING it names
    the address, not the server, and [ciaddr] is zero; in BOUND, RENEWING
    and REBINDING it names neither, [ciaddr] is the address of the lease
    and the broadcast flag is clear. *)
Theorem make_request_fields r lease w c :
  get_client w r = Some c ->
  on_transmission (config c) = None ->
  exists c',
    get_client (make_request r lease w) r = Some c'
    /\ state c' = state c /\ xid c' = xid c /\ active c' = active c
    /\ let pk := c_packet c' in
       let sid := lookup_option DHO_DHCP_SERVER_IDENTIFIER (p_options pk) in
       let rip := lookup_option DHO_DHCP_REQUESTED_ADDRESS (p_options pk) in
       op pk = BOOTREQUEST /\ p_xid pk = xid c
       /\ lookup_option DHO_DHCP_MESSAGE_TYPE (p_options pk)
          = Some (Some [DHCPREQUEST])
       /\ sent_options c' = p_options pk
       /\ (state c = S_REQUESTING ->
           ciaddr pk = iaddr_any /\ rip = Some (Some (address lease))
           /\ sid = lookup_option DHO_DHCP_SERVER_IDENTIFIER
                      (l_options lease)
           /\ requested_address c' = address lease)
       /\ (state c = S_REBOOTING ->
           ciaddr pk = iaddr_any /\ rip = Some (Some (address lease))
           /\ sid = None /\ requested_address c' = address lease)
       /\ (state c = S_BOUND \/ state c = S_RENEWING
           \/ state c = S_REBINDING ->
           ciaddr pk = address lease /\ rip = None /\ sid = None
           /\ flags pk = 0 /\ requested_address c' = []).
Proof. exact (make_request_spec r lease w c). Qed.

(** ** Requests *)

Lemma set_rand_pos_same w : set_rand_pos (rand_pos w) w = w.
Proof. destruct w; reflexivity. Qed.

(** [send_request] from the backoff on: one DHCPREQUEST is handed to
    the link layer and [send_request] is scheduled again. *)
Lemma send_request_tail_sends r elapsed a w c :
  get_client w r = Some c ->
  interval c = 0 \/ tmul 2 (interval c) <> 0 ->
  backoff_cutoff (config c) <> 0 ->
  exists i usec w',
    send_request_tail r elapsed a w = Running w'
    /\ get_client w' r
       = Some (set_c_packet
                 (set_p_secs (if state_eqb (state c) S_REQUESTING
                              then secs c else secs_of elapsed)
                    (c_packet c))
                 (set_interval i c))
    /\ sent w'
       = {| s_via_fallback :=
              negb (bytes_eqb
                      (if state_eqb (state c) S_REQUESTING
                          || state_eqb (state c) S_REBOOTING
                          || match a with
                             | Some a => rebind a <? cur_time w
                             | None => false
                             end
                       then iaddr_broadcast else firstn 4 (destination c))
                      iaddr_broadcast)
              && fallback_interface w;
            s_interface := r_if r;
            s_packet :=
              set_p_secs (if state_eqb (state c) S_REQUESTING
                          then secs c else secs_of elapsed) (c_packet c);
            s_from :=
              (if state_eqb (state c) S_RENEWING
                  || state_eqb (state c) S_REBINDING
               then match a with
                    | Some a => firstn 4 (address a)
                    | None => iaddr_any
                    end
               else iaddr_any);
            s_to :=
              (if state_eqb (state c) S_REQUESTING
                  || state_eqb (state c) S_REBOOTING
                  || match a with
                     | Some a => rebind a <? cur_time w
                     | None => false
                     end
               then iaddr_broadcast else firstn 4 (destination c)) |}
         :: sent w
    /\ freed w' = freed w /\ scripts w' = scripts w
    /\ cur_tv w' = cur_tv w
    /\ filter (same_timer CB_send_request r) (timeouts w')
       = [{| t_when := {| tv_sec := tadd (cur_time w) i; tv_usec := usec |};
             t_func := CB_send_request; t_what := r |}]
    /\ (forall t, same_timer CB_send_request r t = false ->
                  In t (timeouts w') <-> In t (timeouts w)).
Proof.
  intros Hget Hint Hcut. unfold send_request_tail.
  rewrite (deref_Some _ _ _ Hget).
  match goal with
  | |- context [match ?s with Some _ => _ | None => Crash end] =>
      set (s1 := s)
  end.
  assert (H1 : exists i1 k1, s1 = Some (i1, set_rand_pos k1 w)).
  { unfold s1, random, plus_rem. destruct (interval c =? 0) eqn:E.
    - eexists. eexists. rewrite set_rand_pos_same. reflexivity.
    - apply Z.eqb_neq in E. destruct Hint as [Hint|Hint]; [contradiction|].
      apply Z.eqb_neq in Hint. rewrite Hint. eexists. eexists. reflexivity. }
  destruct H1 as (i1 & k1 & ->).
  match goal with
  | |- context [match ?s with Some _ => _ | None => Crash end] =>
      set (s2 := s)
  end.
  assert (H2 : exists i2 k2, s2 = Some (i2, set_rand_pos k2 w)).
  { unfold s2, random, plus_rem. apply Z.eqb_neq in Hcut.
    destruct (backoff_cutoff (config c) <? i1); [rewrite Hcut|];
      eexists; eexists; reflexivity. }
  destruct H2 as (i2 & k2 & ->).
  wsimpl.
  match goal with |- context [set_interval ?i] => set (i3 := i) end.
  unfold set_tv_usec_jitter, random.
  match goal with |- context [if ?b then _ else _] =>
    match b with (1 <? _) => destruct b end end;
    wsimpl;
    (exists i3; eexists; eexists; split; [reflexivity|]);
    wsimpl; rewrite Hget; cbn [option_map];
    (split; [reflexivity|]);
    (split; [unfold deref; wsimpl; rewrite Hget; reflexivity|]);
    (split; [reflexivity|]); (split; [reflexivity|]);
    (split; [reflexivity|]);
    (split; [apply filter_same_timer_add|]);
    intros t Ht; apply in_add_timeout_other; exact Ht.
Qed.

(** [send_request] when it neither gives up nor has a medium to set up
    and the lease, if it looks at one, has not expired. *)
Lemma send_request_goes_on fuel r w c :
  get_client w r = Some c ->
  (state c = S_REQUESTING
   /\ reboot_timeout (config c)
      >= int_of (tsub (cur_time w) (first_sending c)))
  \/ (state c <> S_REQUESTING /\ state c <> S_REBOOTING
      /\ exists a, active c = Some a /\ cur_time w <= expiry a) ->
  send_request (S fuel) r w
  = send_request_tail r (int_of (tsub (cur_time w) (first_sending c)))
      (if state_eqb (state c) S_REQUESTING then None else active c) w.
Proof.
  intros Hget H. cbn [send_request]. rewrite (deref_Some _ _ _ Hget).
  destruct H as [(Hs & Ht) | (Hs1 & Hs2 & a & Ha & He)].
  - rewrite Hs. cbn [state_eqb orb andb].
    destruct (Z.ltb_spec (reboot_timeout (config c))
                (int_of (tsub (cur_time w) (first_sending c)))); [lia|].
    reflexivity.
  - assert (E1 : state_eqb (state c) S_REQUESTING = false)
      by (destruct (state c); try reflexivity; congruence).
    assert (E2 : state_eqb (state c) S_REBOOTING = false)
      by (destruct (state c); try reflexivity; congruence).
    rewrite E1, E2. cbn [orb andb]. rewrite Ha.
    destruct (Z.ltb_spec (expiry a) (cur_time w)); [lia|]. reflexivity.
Qed.

(** [state_bound] up to its call of [send_request]. *)
Lemma state_bound_steps fuel r w c a :
  get_client w r = Some c ->
  active c = Some a ->
  exists pk so ra w5,
    state_bound (S fuel) r w = send_request fuel r w5
    /\ get_client (make_request r a w) r
       = Some (set_c_packet pk
                 (set_sent_options so (set_requested_address ra c)))
    /\ get_client w5 r
       = Some (set_state S_RENEWING
                 (set_interval (initial_interval (config c))
                    (set_first_sending (cur_time w)
                       (set_destination (server_of a)
                          (set_xid (p_xid pk)
                             (set_c_packet pk
                                (set_sent_options so
                                   (set_requested_address ra c))))))))
    /\ sent w5 = sent w /\ freed w5 = freed w /\ scripts w5 = scripts w
    /\ cur_tv w5 = cur_tv w /\ fallback_interface w5 = fallback_interface w.
Proof.
  intros Hget Hact. cbn [state_bound].
  rewrite (deref_Some _ _ _ Hget), Hact.
  destruct (make_request_client r a w c Hget) as (pk & so & ra & E & _).
  rewrite E. fold (server_of a).
  exists pk, so, ra. eexists. split; [reflexivity|].
  split; [wsimpl; rewrite Hget; reflexivity|].
  split; [wsimpl; rewrite Hget; reflexivity|].
  wsimpl. repeat split; reflexivity.
Qed.

(** X9: [state_bound], at the renewal time of an active lease that has not
    expired, when no statement of the configuration changes the options on
    transmission, the backoff cutoff is not zero and the initial interval
    is not negative: the client goes to RENEWING and sends one DHCPREQUEST
    with the address of the lease in [ciaddr] and as its source, to the
    server that gave the lease, or to the broadcast address when the lease
    names no server or the rebind time has passed; no script runs, nothing
    is freed, and [send_request] is scheduled. *)
Theorem state_bound_renews fuel r w c a :
  platform_ok P ->
  get_client w r = Some c ->
  state c = S_BOUND ->
  active c = Some a ->
  cur_time w <= expiry a ->
  on_transmission (config c) = None ->
  backoff_cutoff (config c) <> 0 ->
  0 <= initial_interval (config c) <= time_max_value ->
  exists w' c' p,
    state_bound (S (S fuel)) r w = Running w'
    /\ get_client w' r = Some c'
    /\ state c' = S_RENEWING /\ active c' = Some a
    /\ sent w' = p :: sent w
    /\ lookup_option DHO_DHCP_MESSAGE_TYPE (p_options (s_packet p))
       = Some (Some [DHCPREQUEST])
    /\ ciaddr (s_packet p) = address a
    /\ p_xid (s_packet p) = xid c /\ xid c' = xid c
    /\ s_from p = firstn 4 (address a)
    /\ s_to p = (if rebind a <? cur_time w then iaddr_broadcast
                 else firstn 4 (server_of a))
    /\ scripts w' = scripts w /\ freed w' = freed w
    /\ exists tv,
         filter (same_timer CB_send_request r) (timeouts w')
         = [{| t_when := tv; t_func := CB_send_request; t_what := r |}].
Proof.
  intros HP Hget Hst Hact Hexp Htrans Hcut Hinit.
  destruct (state_bound_steps (S fuel) r w c a Hget Hact)
    as (pk & so & ra & w5 & Hrun & Hmk & Hget5 & Hsent5 & Hfreed5 & Hscr5
        & Htv5 & _).
  destruct (make_request_spec r a w c Hget Htrans)
    as (c1 & Hget1 & _ & _ & _ & _ & Hpx & Hty & _ & _ & _ & Hb).
  destruct (Hb (or_introl Hst)) as (Hci & _). clear Hb.
  rewrite Hmk in Hget1. injection Hget1 as <-.
  cbn [c_packet set_c_packet] in Hpx, Hty, Hci.
  assert (Hnow : cur_time w5 = cur_time w) by (unfold cur_time; congruence).
  set (c5 := set_state S_RENEWING _) in Hget5.
  assert (Ec5 : state c5 = S_RENEWING /\ active c5 = Some a
                /\ first_sending c5 = cur_time w
                /\ interval c5 = initial_interval (config c)
                /\ config c5 = config c /\ c_packet c5 = pk
                /\ destination c5 = server_of a
                /\ xid c5 = p_xid pk).
  { unfold c5. cbn. auto 10. }
  destruct Ec5 as (Es5 & Ea5 & Ef5 & Ei5 & Ecfg5 & Epk5 & Ed5 & Ex5).
  clearbody c5.
  rewrite Hrun.
  rewrite (send_request_goes_on fuel r w5 c5 Hget5).
  2:{ right. rewrite Es5, Ea5, Hnow. split; [discriminate|].
      split; [discriminate|]. exists a. split; [reflexivity | exact Hexp]. }
  destruct (send_request_tail_sends r
              (int_of (tsub (cur_time w5) (first_sending c5)))
              (if state_eqb (state c5) S_REQUESTING then None else active c5)
              w5 c5 Hget5)
    as (i & usec & w' & Hrun' & Hget' & Hsent' & Hfreed' & Hscr' & _ & Ht
        & _).
  { rewrite Ei5. apply (tmul_2_nonzero HP). exact Hinit. }
  { rewrite Ecfg5. exact Hcut. }
  rewrite Es5, Ea5, Epk5, Ed5, Hnow in Hsent'.
  cbn [state_eqb orb] in Hsent'.
  exists w'. eexists. eexists. split; [exact Hrun'|].
  split; [exact Hget'|].
  split; [cbn [state set_c_packet set_interval]; exact Es5|].
  split; [cbn [active set_c_packet set_interval]; exact Ea5|].
  split; [rewrite Hsent', Hsent5; reflexivity|].
  cbn [s_packet s_from s_to p_options set_p_secs ciaddr p_xid].
  split; [exact Hty|]. split; [exact Hci|]. split; [exact Hpx|].
  split; [cbn [xid set_c_packet set_interval]; rewrite Ex5; exact Hpx|].
  split; [reflexivity|]. split; [reflexivity|].
  split; [rewrite Hscr'; exact Hscr5|].
  split; [rewrite Hfreed'; exact Hfreed5|].
  eexists. exact Ht.
Qed.

(** ** Expiry *)

(** X10: [send_request] for a client in RENEWING or REBINDING whose lease
    has expired, memory being available: the client script runs with
    reason EXPIRE and the parameters of the lease, then with reason
    PREINIT, and [state_init] is entered in state INIT. No packet is sent
    and no timeout changes; the lease is not freed and is still the active
    lease. *)
Theorem send_request_expires fuel r w c a :
  get_client w r = Some c ->
  state c = S_RENEWING \/ state c = S_REBINDING ->
  active c = Some a ->
  expiry a < cur_time w ->
  dmalloc_ok w = true ->
  exists e1 e2 w2,
    send_request (S fuel) r w = state_init fuel r w2
    /\ scripts w2 = e2 :: e1 :: scripts w
    /\ In (Env_reason "EXPIRE") e1 /\ In (Env_params "old_" a) e1
    /\ In (Env_reason "PREINIT") e2
    /\ get_client w2 r = Some (set_state S_INIT (set_env [] c))
    /\ freed w2 = freed w /\ sent w2 = sent w /\ timeouts w2 = timeouts w.
Proof.
  intros Hget Hst Hact Hexp Hmem.
  cbn [send_request]. rewrite (deref_Some _ _ _ Hget), Hact.
  assert (E1 : state_eqb (state c) S_REBOOTING = false)
    by (destruct Hst as [-> | ->]; reflexivity).
  assert (E2 : state_eqb (state c) S_REQUESTING = false)
    by (destruct Hst as [-> | ->]; reflexivity).
  rewrite E1, E2. cbn [orb andb].
  destruct (Z.ltb_spec (expiry a) (cur_time w)); [|lia].
  repeat env_step.
  rewrite (script_go_env _ _ _ _ Hget Hmem).
  wsimpl.
  env_step. repeat env_step.
  match goal with
  | |- context [script_go r (upd_client r (set_env ?e) ?w0)] =>
      rewrite (script_go_env r e w0 (set_env [] c))
  end; [|wsimpl; rewrite Hget; reflexivity | wsimpl; exact Hmem].
  wsimpl.
  eexists. eexists. eexists. split; [reflexivity|].
  wsimpl. rewrite Hget. cbn [option_map].
  repeat split; auto.
Qed.

(** ** The request that follows the offers *)

Lemma filter_none {A} (f : A -> bool) l :
  (forall x, In x l -> f x = false) -> filter f l = [].
Proof.
  induction l as [|x l IH]; intros H; [reflexivity|].
  cbn. rewrite (H x (or_introl eq_refl)). apply IH.
  intros y Hy. apply H. right. exact Hy.
Qed.

Lemma same_timer_other f g r t :
  callback_eqb f g = false ->
  same_timer f r t = true -> same_timer g r t = false.
Proof.
  unfold same_timer. intros Hfg H. apply andb_true_iff in H.
  destruct H as (H & _).
  destruct f, g, (t_func t); try discriminate; reflexivity.
Qed.

(** [state_selecting], when the first lease offered is not a BOOTP
    lease, up to its call of [send_request]; [w4] is the world
    [make_request] is called in and [c4] the client there. *)
Lemma state_selecting_steps fuel r w c picked others :
  get_client w r = Some c ->
  offered_leases c = picked :: others ->
  is_bootp picked = false ->
  let c4 := set_interval (initial_interval (config c))
              (set_first_sending (cur_time w)
                 (set_state S_REQUESTING
                    (set_destination iaddr_broadcast
                       (set_offered_leases [] c)))) in
  exists w4 pk so ra w5,
    state_selecting fuel r w = send_request fuel r w5
    /\ get_client w4 r = Some c4
    /\ get_client (make_request r picked w4) r
       = Some (set_c_packet pk
                 (set_sent_options so (set_requested_address ra c4)))
    /\ get_client w5 r
       = Some (set_xid (p_xid pk)
                 (set_c_packet pk
                    (set_sent_options so (set_requested_address ra c4))))
    /\ sent w5 = sent w
    /\ freed w5 = l_ptr picked :: rev (map l_ptr others) ++ freed w
    /\ scripts w5 = scripts w /\ cur_tv w5 = cur_tv w
    /\ timeouts w5
       = filter (fun t => negb (same_timer CB_send_discover r t))
           (filter (fun t => negb (same_timer CB_state_selecting r t))
              (timeouts w)).
Proof.
  intros Hget Hoff Hb c4.
  unfold state_selecting, deref. wsimpl. rewrite Hget, Hoff, Hb.
  cbn [tl]. rewrite destroy_all. wsimpl.
  rewrite !upd_client_upd_client.
  match goal with
  | |- context [make_request r picked ?w0] => set (w4 := w0)
  end.
  assert (Hget4 : get_client w4 r = Some c4)
    by (unfold w4; wsimpl; rewrite Hget; reflexivity).
  destruct (make_request_client r picked w4 c4 Hget4)
    as (pk & so & ra & E & _).
  exists w4, pk, so, ra. rewrite E.
  eexists. split; [reflexivity|].
  split; [exact Hget4|].
  split; [wsimpl; rewrite Hget4; reflexivity|].
  split; [wsimpl; rewrite Hget4; reflexivity|].
  unfold w4. wsimpl. repeat split; reflexivity.
Qed.

(** X8: [state_selecting] when the first lease offered is not a BOOTP
    lease, no statement of the configuration changes the options on
    transmission, the reboot timeout is not negative, the backoff cutoff
    is not zero and the initial interval is not negative: every lease
    offered is freed, the picked one too, and the client, in REQUESTING,
    broadcasts a DHCPREQUEST that names the address and the server of the
    picked lease, with [ciaddr] zero and the xid of the DHCPDISCOVER; the
    timeouts of [state_selecting] and [send_discover] are gone and
    [send_request] is scheduled. *)
Theorem state_selecting_requests fuel r w c picked others :
  platform_ok P ->
  get_client w r = Some c ->
  offered_leases c = picked :: others ->
  is_bootp picked = false ->
  on_transmission (config c) = None ->
  0 <= reboot_timeout (config c) ->
  backoff_cutoff (config c) <> 0 ->
  0 <= initial_interval (config c) <= time_max_value ->
  exists w' c' p,
    state_selecting (S fuel) r w = Running w'
    /\ get_client w' r = Some c'
    /\ state c' = S_REQUESTING /\ offered_leases c' = []
    /\ xid c' = xid c /\ active c' = active c
    /\ freed w' = l_ptr picked :: rev (map l_ptr others) ++ freed w
    /\ scripts w' = scripts w
    /\ sent w' = p :: sent w
    /\ s_to p = iaddr_broadcast /\ s_from p = iaddr_any
    /\ lookup_option DHO_DHCP_MESSAGE_TYPE (p_options (s_packet p))
       = Some (Some [DHCPREQUEST])
    /\ lookup_option DHO_DHCP_REQUESTED_ADDRESS (p_options (s_packet p))
       = Some (Some (address picked))
    /\ lookup_option DHO_DHCP_SERVER_IDENTIFIER (p_options (s_packet p))
       = lookup_option DHO_DHCP_SERVER_IDENTIFIER (l_options picked)
    /\ ciaddr (s_packet p) = iaddr_any
    /\ p_xid (s_packet p) = xid c
    /\ filter (same_timer CB_state_selecting r) (timeouts w') = []
    /\ filter (same_timer CB_send_discover r) (timeouts w') = []
    /\ exists tv,
         filter (same_timer CB_send_request r) (timeouts w')
         = [{| t_when := tv; t_func := CB_send_request; t_what := r |}].
Proof.
  intros HP Hget Hoff Hb Htrans Hreboot Hcut Hinit.
  destruct (state_selecting_steps (S fuel) r w c picked others Hget Hoff Hb)
    as (w4 & pk & so & ra & w5 & Hrun & Hget4 & Hmk & Hget5 & Hsent5
        & Hfreed5 & Hscr5 & Htv5 & Htime5).
  match type of Hget4 with _ = Some ?x => set (c4 := x) in * end.
  destruct (make_request_spec r picked w4 c4 Hget4 Htrans)
    as (c1 & Hget1 & _ & _ & _ & _ & Hpx & Hty & _ & Hq & _).
  destruct (Hq eq_refl) as (Hci & Hrip & Hsid & _). clear Hq.
  rewrite Hmk in Hget1. injection Hget1 as <-.
  cbn [c_packet set_c_packet] in Hpx, Hty, Hci, Hrip, Hsid.
  assert (Hnow : cur_time w5 = cur_time w) by (unfold cur_time; congruence).
  set (c5 := set_xid (p_xid pk) _) in Hget5.
  assert (Ec5 : state c5 = S_REQUESTING /\ active c5 = active c
                /\ first_sending c5 = cur_time w
                /\ interval c5 = initial_interval (config c)
                /\ config c5 = config c /\ c_packet c5 = pk
                /\ offered_leases c5 = [] /\ xid c5 = p_xid pk).
  { unfold c5, c4. cbn. auto 10. }
  destruct Ec5 as (Es5 & Ea5 & Ef5 & Ei5 & Ecfg5 & Epk5 & Eo5 & Ex5).
  assert (Hxid : p_xid pk = xid c) by (rewrite Hpx; reflexivity).
  clearbody c5.
  rewrite Hrun.
  assert (Hel : int_of (tsub (cur_time w5) (first_sending c5)) = 0)
    by (rewrite Ef5, Hnow; apply (tsub_diag HP)).
  rewrite (send_request_goes_on fuel r w5 c5 Hget5).
  2:{ left. split; [exact Es5|]. rewrite Hel, Ecfg5. lia. }
  destruct (send_request_tail_sends r
              (int_of (tsub (cur_time w5) (first_sending c5)))
              (if state_eqb (state c5) S_REQUESTING then None else active c5)
              w5 c5 Hget5)
    as (i & usec & w' & Hrun' & Hget' & Hsent' & Hfreed' & Hscr' & _ & Ht
        & Hothers).
  { rewrite Ei5. apply (tmul_2_nonzero HP). exact Hinit. }
  { rewrite Ecfg5. exact Hcut. }
  rewrite Es5, Epk5 in Hsent'. cbn [state_eqb orb] in Hsent'.
  exists w'. eexists. eexists. split; [exact Hrun'|].
  split; [exact Hget'|].
  split; [cbn [state set_c_packet set_interval]; exact Es5|].
  split; [cbn [offered_leases set_c_packet set_interval]; exact Eo5|].
  split; [cbn [xid set_c_packet set_interval]; congruence|].
  split; [cbn [active set_c_packet set_interval]; exact Ea5|].
  split; [rewrite Hfreed'; exact Hfreed5|].
  split; [rewrite Hscr'; exact Hscr5|].
  split; [rewrite Hsent', Hsent5; reflexivity|].
  cbn [s_packet s_from s_to p_options set_p_secs ciaddr p_xid].
  split; [reflexivity|]. split; [reflexivity|].
  split; [exact Hty|]. split; [exact Hrip|]. split; [exact Hsid|].
  split; [exact Hci|]. split; [exact Hxid|].
  assert (Hgone : forall f,
             f = CB_state_selecting \/ f = CB_send_discover ->
             filter (same_timer f r) (timeouts w') = []).
  { intros f Hf. apply filter_none. intros t Hin.
    destruct (same_timer f r t) eqn:E; [exfalso | reflexivity].
    assert (Hne : same_timer CB_send_request r t = false).
    { apply (same_timer_other f); [|exact E].
      destruct Hf as [-> | ->]; reflexivity. }
    apply (Hothers t Hne) in Hin. rewrite Htime5 in Hin.
    apply filter_In in Hin. destruct Hin as (Hin & Hd).
    apply filter_In in Hin. destruct Hin as (_ & Hs).
    destruct Hf as [-> | ->]; rewrite E in *; discriminate. }
  split; [apply Hgone; left; reflexivity|].
  split; [apply Hgone; right; reflexivity|].
  eexists. exact Ht.
Qed.

(** ** Release *)

Lemma make_release_client r a w c :
  get_client w r = Some c ->
  exists pk,
    make_release r a w
    = set_rand_pos (S (rand_pos w))
        (upd_client r
           (fun c => set_c_packet pk (set_requested_address [] c)) w)
    /\ ciaddr pk = address a
    /\ (on_transmission (config c) = None ->
        lookup_option DHO_DHCP_MESSAGE_TYPE (p_options pk)
        = Some (Some [DHCPRELEASE])
        /\ lookup_option DHO_DHCP_SERVER_IDENTIFIER (p_options pk)
           = lookup_option DHO_DHCP_SERVER_IDENTIFIER (l_options a)).
Proof.
  intros Hget. unfold make_release, make_client_options, random, deref.
  wsimpl. rewrite Hget. cbn [option_map]. wsimpl.
  rewrite ?upd_client_upd_client.
  eexists. split; [reflexivity|]. split; [reflexivity|].
  intros ->. cbn [p_options header]. split.
  - apply lookup_save_same.
  - rewrite lookup_save_other by discriminate.
    destruct (lookup_option DHO_DHCP_SERVER_IDENTIFIER (l_options a));
      [apply lookup_save_same | reflexivity].
Qed.

(** A lease of a server is appended to the open lease file when the
    file operations succeed. *)
Lemma write_succeeds r l w f :
  is_static l = false ->
  leaseFile w = Some f ->
  dmalloc_ok w = true -> fprintf_ok w = true ->
  fflush_ok w = true -> fsync_ok w = true ->
  write_client_lease r l true true w
  = (1, upd_client r (set_last_write (cur_time w))
          (set_leaseFile
             (Some (f ++ [DB_lease (if_name (iface_of w r))
                            (c_name (deref w r)) l])) w)).
Proof.
  intros Hs Hf Hm Hp Hfl Hsy.
  unfold write_client_lease, write_client_lease_body.
  rewrite Hs, Hf. cbn iota. rewrite Hf, Hp, Hm, Hfl. cbn [negb orb andb].
  rewrite andb_false_r. cbn [negb andb orb].
  unfold db_append. rewrite Hf. wsimpl. rewrite Hsy.
  reflexivity.
Qed.

(** [do_release] for a client that holds a lease of a server, with the
    lease file open and the file operations succeeding. *)
Lemma do_release_steps r w c a f :
  get_client w r = Some c ->
  active c = Some a ->
  is_static a = false ->
  leaseFile w = Some f ->
  dmalloc_ok w = true -> fprintf_ok w = true ->
  fflush_ok w = true -> fsync_ok w = true ->
  let a' := set_times (cur_time w) (cur_time w) (cur_time w) a in
  exists w' c' pk e,
    do_release r w = Running w'
    /\ get_client w' r = Some c'
    /\ state c' = S_STOPPED
    /\ active c' = Some a'
    /\ leaseFile w'
       = Some (f ++ [DB_lease (if_name (iface_of w r)) (c_name c) a'])
    /\ sent w'
       = {| s_via_fallback := fallback_interface w; s_interface := r_if r;
            s_packet := pk; s_from := firstn 4 (address a);
            s_to := firstn 4 (server_of a) |} :: sent w
    /\ ciaddr pk = address a
    /\ (on_transmission (config c) = None ->
        lookup_option DHO_DHCP_MESSAGE_TYPE (p_options pk)
        = Some (Some [DHCPRELEASE])
        /\ lookup_option DHO_DHCP_SERVER_IDENTIFIER (p_options pk)
           = lookup_option DHO_DHCP_SERVER_IDENTIFIER (l_options a))
    /\ scripts w' = e :: scripts w
    /\ In (Env_reason "RELEASE") e /\ In (Env_params "old_" a') e
    /\ freed w' = freed w
    /\ timeouts w'
       = filter (fun t => negb (same_timer CB_state_reboot r t))
           (filter (fun t => negb (same_timer CB_send_request r t))
              (filter (fun t => negb (same_timer CB_state_init r t))
                 (filter (fun t => negb (same_timer CB_send_discover r t))
                    (filter (fun t => negb (same_timer CB_state_bound r t))
                       (timeouts w))))).
Proof.
  intros Hget Hact Hst Hf Hm Hp Hfl Hsy a'.
  unfold do_release, random. wsimpl.
  unfold deref at 1. wsimpl. rewrite Hget. cbn [option_map]. wsimpl.
  rewrite Hact.
  set (w1 := set_rand_pos _ _).
  assert (Hget1 : get_client w1 r
                  = Some (set_xid (u32_of (rand_src w (rand_pos w)
                                           mod 2147483648)) c)).
  { unfold w1. wsimpl. rewrite Hget. reflexivity. }
  destruct (make_release_client r a w1 _ Hget1) as (pk & E & Hci & Hty).
  rewrite E. fold (server_of a). wsimpl.
  unfold send_release, deref. wsimpl. rewrite Hget1.
  cbn [option_map]. wsimpl. rewrite Hact.
  replace (tv_sec (cur_tv w1)) with (tv_sec (cur_tv w))
    by (unfold w1; wsimpl; reflexivity).
  fold a'.
  match goal with
  | |- context [write_client_lease r a' true true ?w0] => set (w2 := w0)
  end.
  rewrite (write_succeeds r a' w2 f Hst);
    try (unfold w2, w1; wsimpl; assumption).
  cbn [Z.eqb]. unfold and_then at 2.
  match goal with
  | |- context [script_init r "RELEASE" [] ?w0] => set (w3 := w0)
  end.
  assert (H3 : exists c3, get_client w3 r = Some c3 /\ active c3 = Some a').
  { unfold w3, w2, w1. wsimpl. rewrite Hget. cbn [option_map].
    eexists. split; reflexivity. }
  destruct H3 as (c3 & Hget3 & Hact3).
  assert (Hm3 : dmalloc_ok w3 = true)
    by (unfold w3, w2, w1; wsimpl; exact Hm).
  assert (Hlf3 : leaseFile w3
                 = Some (f ++ [DB_lease (if_name (iface_of w r))
                                 (c_name c) a'])).
  { assert (Hn2 : if_name (iface_of w2 r) = if_name (iface_of w r)).
    { unfold w2, w1.
      repeat (rewrite if_name_upd || rewrite iface_of_set_rand_pos).
      reflexivity. }
    assert (Hc2 : c_name (deref w2 r) = c_name c).
    { unfold w2, w1, deref. wsimpl. rewrite Hget. reflexivity. }
    unfold w3. rewrite Hn2, Hc2. wsimpl. reflexivity. }
  assert (Hsent3 : sent w3
       = {| s_via_fallback := fallback_interface w; s_interface := r_if r;
            s_packet := pk; s_from := firstn 4 (address a);
            s_to := firstn 4 (server_of a) |} :: sent w).
  { unfold w3, w2, w1, deref. wsimpl. rewrite Hget. reflexivity. }
  assert (Hrest3 : scripts w3 = scripts w /\ freed w3 = freed w
                   /\ timeouts w3 = timeouts w).
  { unfold w3, w2, w1. wsimpl. auto. }
  destruct Hrest3 as (Hscr3 & Hfreed3 & Htm3).
  clearbody w3.
  env_step. env_step.
  rewrite get_client_upd_same, Hget3. cbn [option_map].
  replace (active (set_env e0 c3)) with (Some a')
    by (rewrite <- Hact3; reflexivity).
  repeat env_step. rewrite (script_go_env _ _ _ _ Hget3 Hm3).
  cbn [snd and_then]. unfold cancel_timeout. wsimpl.
  eexists. eexists. exists pk. eexists.
  split; [reflexivity|].
  split; [wsimpl; rewrite Hget3; reflexivity|].
  split; [reflexivity|].
  split; [cbn; exact Hact3|].
  split; [wsimpl; exact Hlf3|].
  split; [wsimpl; exact Hsent3|].
  split; [exact Hci|].
  split; [exact Hty|].
  split; [wsimpl; rewrite Hscr3; reflexivity|].
  split; [auto 10|].
  split; [auto 10|].
  split; [wsimpl; exact Hfreed3|].
  wsimpl. rewrite Htm3. reflexivity.
Qed.

Lemma filter_nil_forall {A} (p : A -> bool) l :
  (forall x, In x l -> p x = false) -> filter p l = [].
Proof.
  induction l as [|x l IH]; [reflexivity|]. intros H. cbn [filter].
  rewrite (H x (or_introl eq_refl)). apply IH. intros y Hy. apply H.
  right. exact Hy.
Qed.

Lemma release_cancels_spec r l :
  let l' :=
    filter (fun t => negb (same_timer CB_state_reboot r t))
      (filter (fun t => negb (same_timer CB_send_request r t))
         (filter (fun t => negb (same_timer CB_state_init r t))
            (filter (fun t => negb (same_timer CB_send_discover r t))
               (filter (fun t => negb (same_timer CB_state_bound r t))
                  l)))) in
  (forall t, In t l' <->
             In t l /\ forall f, In f release_cancels ->
                                 same_timer f r t = false)
  /\ forall f, In f release_cancels -> filter (same_timer f r) l' = [].
Proof.
  intros l'.
  assert (H : forall t, In t l' <->
             In t l /\ forall f, In f release_cancels ->
                                 same_timer f r t = false).
  { intros t. unfold l'. rewrite !filter_In, !negb_true_iff.
    unfold release_cancels. cbn [In]. split.
    - intros (((((H0 & H1) & H2) & H3) & H4) & H5). split; [assumption|].
      intros f [<-|[<-|[<-|[<-|[<-|[]]]]]]; assumption.
    - intros (H0 & H). repeat split; try assumption; apply H; auto 10. }
  split; [exact H|]. intros f Hf. apply filter_nil_forall.
  intros t Ht. apply H in Ht. apply Ht. exact Hf.
Qed.

(** X11: [do_release] of a lease of a server, with the lease file open,
    the file operations and allocations succeeding and no statement of
    the configuration changing the options on transmission: the lease is
    recorded in the lease file with its three times set to the current
    time, one DHCPRELEASE with the address of the lease in [ciaddr] goes
    from that address to the server that gave the lease (to the
    broadcast address when the lease names none), the client script runs
    with reason RELEASE and the lease as [old_], the five timers of the
    client that [do_release] names are cancelled and no other timer is
    touched, and the client is STOPPED and keeps the lease, which is not
    freed. *)
Theorem do_release_stops r w c a f :
  get_client w r = Some c ->
  active c = Some a ->
  is_static a = false ->
  leaseFile w = Some f ->
  dmalloc_ok w = true -> fprintf_ok w = true ->
  fflush_ok w = true -> fsync_ok w = true ->
  on_transmission (config c) = None ->
  let a' := set_times (cur_time w) (cur_time w) (cur_time w) a in
  exists w' c' p e,
    do_release r w = Running w'
    /\ get_client w' r = Some c'
    /\ state c' = S_STOPPED
    /\ active c' = Some a'
    /\ leaseFile w'
       = Some (f ++ [DB_lease (if_name (iface_of w r)) (c_name c) a'])
    /\ sent w' = p :: sent w
    /\ s_from p = firstn 4 (address a)
    /\ s_to p = firstn 4 (server_of a)
    /\ ciaddr (s_packet p) = address a
    /\ lookup_option DHO_DHCP_MESSAGE_TYPE (p_options (s_packet p))
       = Some (Some [DHCPRELEASE])
    /\ lookup_option DHO_DHCP_SERVER_IDENTIFIER (p_options (s_packet p))
       = lookup_option DHO_DHCP_SERVER_IDENTIFIER (l_options a)
    /\ scripts w' = e :: scripts w
    /\ In (Env_reason "RELEASE") e /\ In (Env_params "old_" a') e
    /\ freed w' = freed w
    /\ (forall g, In g release_cancels ->
                  filter (same_timer g r) (timeouts w') = [])
    /\ (forall t, In t (timeouts w') <->
                  In t (timeouts w)
                  /\ forall g, In g release_cancels ->
                               same_timer g r t = false).
Proof.
  intros Hget Hact Hst Hf Hm Hp Hfl Hsy Htr a'.
  destruct (do_release_steps r w c a f Hget Hact Hst Hf Hm Hp Hfl Hsy)
    as (w' & c' & pk & e & Hrun & Hget' & Hs' & Ha' & Hlf & Hsent & Hci
        & Hty & Hscr & Hre & Hold & Hfr & Htm).
  destruct (Hty Htr) as (Hty1 & Hty2).
  destruct (release_cancels_spec r (timeouts w)) as (Hin & Hnil).
  exists w', c'. eexists. exists e.
  split; [exact Hrun|]. split; [exact Hget'|]. split; [exact Hs'|].
  split; [exact Ha'|]. split; [exact Hlf|]. split; [exact Hsent|].
  cbn [s_from s_to s_packet].
  split; [reflexivity|]. split; [reflexivity|]. split; [exact Hci|].
  split; [exact Hty1|]. split; [exact Hty2|]. split; [exact Hscr|].
  split; [exact Hre|]. split; [exact Hold|]. split; [exact Hfr|].
  rewrite Htm. split; [exact Hnil | exact Hin].
Qed.

(** X12: [do_release] of a client without an active lease: nothing is sent
    or written and no script runs; the five timers of the client are
    cancelled and the client is STOPPED. *)
Theorem do_release_without_lease r w c :
  get_client w r = Some c ->
  active c = None ->
  exists w' c',
    do_release r w = Running w'
    /\ get_client w' r = Some c'
    /\ state c' = S_STOPPED /\ active c' = None
    /\ sent w' = sent w /\ scripts w' = scripts w
    /\ leaseFile w' = leaseFile w /\ freed w' = freed w
    /\ (forall g, In g release_cancels ->
                  filter (same_timer g r) (timeouts w') = [])
    /\ (forall t, In t (timeouts w') <->
                  In t (timeouts w)
                  /\ forall g, In g release_cancels ->
                               same_timer g r t = false).
Proof.
  intros Hget Hact.
  destruct (release_cancels_spec r (timeouts w)) as (Hin & Hnil).
  unfold do_release, random. wsimpl.
  unfold deref at 1. wsimpl. rewrite Hget. cbn [option_map]. wsimpl.
  rewrite Hact. cbn [and_then]. unfold cancel_timeout. wsimpl.
  eexists. eexists. split; [reflexivity|].
  split; [wsimpl; rewrite Hget; reflexivity|].
  split; [reflexivity|]. split; [cbn; exact Hact|].
  wsimpl.
  split; [reflexivity|]. split; [reflexivity|].
  split; [reflexivity|]. split; [reflexivity|].
  split; [exact Hnil | exact Hin].
Qed.
End Handlers.

(** * The theorems at concrete worlds *)

Lemma lp64_ok : platform_ok lp64.
Proof. unfold platform_ok. cbn. lia. Qed.

(** ** C6: a fallback lease is lost to a NAK

    The client of [client_silent] gives up discovering and falls back
    on its static lease ([state_panic], BOUND); at the renewal time it
    asks the server to renew it ([state_bound], RENEWING); the server
    answers with a NAK, and [dhcpnak] destroys the static lease: it is
    freed and it is on no list any more. *)
Theorem fallback_lease_freed_by_nak :
  let r := live 0 0 in
  let fallback := lease0 7 true in
  exists w1 w2 w3,
    send_discover (P:=lp64) 10 r (world_of client_silent 0) = Running w1
    /\ state (deref w1 r) = S_BOUND /\ active (deref w1 r) = Some fallback
    /\ state_bound (P:=lp64) 10 r
         (set_cur_tv {| tv_sec := 2000; tv_usec := 12345 |} w1) = Running w2
    /\ state (deref w2 r) = S_RENEWING /\ active (deref w2 r) = Some fallback
    /\ dhcpnak (P:=lp64) 10 (reply 77 DHCPNAK []) w2 = Running w3
    /\ is_static fallback = true
    /\ In (l_ptr fallback) (freed w3)
    /\ active (deref w3 r) = None /\ leases (deref w3 r) = [].
Proof.
  cbv zeta.
  eexists. eexists. eexists.
  split; [vm_compute; reflexivity|].
  split; [vm_compute; reflexivity|].
  split; [vm_compute; reflexivity|].
  split; [vm_compute; reflexivity|].
  split; [vm_compute; reflexivity|].
  split; [vm_compute; reflexivity|].
  split; [vm_compute; reflexivity|].
  split; [reflexivity|].
  split; [vm_compute; left; reflexivity|].
  split; vm_compute; reflexivity.
Qed.

(** ** C1 *)

(** An ACK with a lease time of 100 s and a rebind time of 1000 s: the
    committed lease expires before its rebind time. *)
Lemma ack_rebind_past_expiry :
  exists w' l,
    dhcpack (P:=lp64)
      (reply 77 DHCPACK [(DHO_DHCP_LEASE_TIME, Some (be32 100));
                         (DHO_DHCP_REBINDING_TIME, Some (be32 1000))])
      world0 = Running w'
    /\ state (deref w' (live 0 0)) = S_BOUND
    /\ active (deref w' (live 0 0)) = Some l
    /\ expiry l = 1100 /\ rebind l = 2000
    /\ ~ (renewal l <= rebind l <= expiry l).
Proof.
  eexists. eexists.
  split; [vm_compute; reflexivity|].
  split; [vm_compute; reflexivity|].
  split; [vm_compute; reflexivity|].
  split; [reflexivity|]. split; [reflexivity|].
  cbn. lia.
Qed.

Lemma committed_times_ordered_witness :
  (exists w' c' l,
      dhcpack (P:=lp64)
        (reply 77 DHCPACK [(DHO_DHCP_LEASE_TIME, Some (be32 600))]) world0
      = Running w'
      /\ get_client w' (live 0 0) = Some c'
      /\ state c' = S_BOUND /\ active c' = Some l
      /\ renewal l <= rebind l
      /\ (0 <= 600 -> rebind l <= expiry l))
  /\ (exists w' c' l,
         state_selecting (P:=lp64) 10 (live 0 0)
           (world_of client_offered 0)
         = Running w'
         /\ get_client w' (live 0 0) = Some c'
         /\ state c' = S_BOUND /\ active c' = Some l
         /\ renewal l <= rebind l <= expiry l).
Proof.
  split.
  - apply (proj1 (committed_times_ordered lp64_ok)
             (reply 77 DHCPACK [(DHO_DHCP_LEASE_TIME, Some (be32 600))])
             world0 (live 0 0) client0); try reflexivity.
    + unfold clock_ok, time_max_value. cbn. lia.
    + vm_compute. discriminate.
  - apply (proj2 (committed_times_ordered lp64_ok) 10%nat
             (world_of client_offered 0) (live 0 0) client_offered
             bootp_lease []); try reflexivity.
    unfold time_max_value. cbn. lia.
Defined.

(** ** C2 *)

(** An ACK with the lease time 0xffffffff and no other time: the renewal
    time is not randomized and the rebind time is not 7 * L / 8. *)
Lemma infinite_lease_not_jittered :
  exists w' l,
    dhcpack (P:=lp64)
      (reply 77 DHCPACK [(DHO_DHCP_LEASE_TIME, Some (be32 4294967295))])
      world0 = Running w'
    /\ active (deref w' (live 0 0)) = Some l
    /\ renewal l = 1000 + 2147483648
    /\ rebind l = 1000 + 3758096377
    /\ claimed_times (P:=lp64) 1000 4294967295 None None 12345
       = (1000 + 4294967295, 1000 + 1610615823, 1000 + 3758096383)
    /\ (expiry l, renewal l, rebind l)
       <> claimed_times (P:=lp64) 1000 4294967295 None None 12345.
Proof.
  eexists. eexists.
  split; [vm_compute; reflexivity|].
  split; [vm_compute; reflexivity|].
  split; [reflexivity|]. split; [reflexivity|].
  split; [vm_compute; reflexivity|].
  vm_compute. discriminate.
Qed.

(** An ACK with a lease time of 600 s and a rebind time of zero: the
    zero is taken as an absent option and the rebind time is 7/8 of
    the lease, whatever [TIME_MAX] is. *)
Lemma zero_rebind_option_replaced :
  exists w' l,
    dhcpack (P:=lp64)
      (reply 77 DHCPACK [(DHO_DHCP_LEASE_TIME, Some (be32 600));
                         (DHO_DHCP_REBINDING_TIME, Some (be32 0))])
      world0 = Running w'
    /\ active (deref w' (live 0 0)) = Some l
    /\ rebind l = 1000 + 525
    /\ snd (claimed_times (P:=lp64) 1000 600 None (Some 0) 12345) = 1000.
Proof.
  eexists. eexists.
  split; [vm_compute; reflexivity|].
  split; [vm_compute; reflexivity|].
  split; [reflexivity|].
  vm_compute. reflexivity.
Qed.

Lemma ack_times_are_guarded_witness :
  exists w1 lease,
    dhcpack (P:=lp64)
      (reply 77 DHCPACK [(DHO_DHCP_LEASE_TIME, Some (be32 600))]) world0
    = bind_lease (P:=lp64) (live 0 0) w1
    /\ new (deref w1 (live 0 0)) = Some lease
    /\ (expiry lease, renewal lease, rebind lease)
       = guarded_times (P:=lp64) 1000 600 0 0 12345.
Proof.
  apply (ack_times_are_guarded
           (reply 77 DHCPACK [(DHO_DHCP_LEASE_TIME, Some (be32 600))])
           world0 (live 0 0) client0 lp64_ok); try reflexivity.
  - unfold time_max_value. cbn. lia.
  - vm_compute. discriminate.
Defined.

(** ** C3 *)

Lemma foreign_packet_changes_nothing_witness :
  dhcpoffer (P:=lp64) 10 (reply 78 DHCPOFFER []) world0 = Running world0
  /\ dhcpack (P:=lp64) (reply 78 DHCPACK []) world0 = Running world0
  /\ dhcpnak (P:=lp64) 10 (reply 78 DHCPNAK []) world0 = Running world0.
Proof.
  assert (H : forall ty,
             Forall (fun c => xid c <> p_xid (raw (reply 78 ty [])))
               (client (iface world0 (interface (reply 78 ty []))))).
  { intros ty. repeat constructor. cbn. lia. }
  split; [|split].
  - apply (foreign_packet_changes_nothing (P:=lp64) 10
             (reply 78 DHCPOFFER []) world0). left. apply H.
  - apply (foreign_packet_changes_nothing (P:=lp64) 10
             (reply 78 DHCPACK []) world0). left. apply H.
  - apply (foreign_packet_changes_nothing (P:=lp64) 10
             (reply 78 DHCPNAK []) world0). left. apply H.
Defined.

(** ** C4 *)

Lemma ack_without_lease_time_rejected_witness :
  exists w',
    dhcpack (P:=lp64) (reply 77 DHCPACK []) world0 = Running w'
    /\ active (deref w' (live 0 0)) = active (deref world0 (live 0 0))
    /\ state (deref w' (live 0 0)) = state (deref world0 (live 0 0))
    /\ leaseFile w' = leaseFile world0
    /\ scripts w' = scripts world0
    /\ reject_list (config (deref w' (live 0 0)))
       = {| m_addr := [192; 0; 2; 1]; m_mask := [255; 255; 255; 255] |}
           :: reject_list (config (deref world0 (live 0 0)))
    /\ exists t,
         filter (same_timer CB_state_init (live 0 0)) (timeouts w') = [t]
         /\ 1000000 * tv_sec (t_when t) + tv_usec (t_when t)
            = 1000000 * 1000 + 600000 + 500000.
Proof.
  apply (ack_without_lease_time_rejected (P:=lp64) (reply 77 DHCPACK [])
           world0 (live 0 0) lp64_ok); try reflexivity.
  - unfold time_max_value. cbn. lia.
  - left. reflexivity.
Defined.

(** ** C5 *)

(** A NAK of the transaction of a client in REQUESTING that has no
    active lease: nothing happens, the client stays in REQUESTING. *)
Lemma nak_without_active_lease_dropped :
  receptive (state client0) = true
  /\ find_client (reply 77 DHCPNAK []) world0 = Some (live 0 0)
  /\ hw_matches (reply 77 DHCPNAK []) world0 = true
  /\ dhcpnak (P:=lp64) 10 (reply 77 DHCPNAK []) world0 = Running world0
  /\ scripts world0 = [] /\ sent world0 = []
  /\ state (deref world0 (live 0 0)) = S_REQUESTING.
Proof. repeat split; vm_compute; reflexivity. Qed.

Lemma nak_with_active_lease_restarts_witness :
  let w := world_of (client_with S_RENEWING (Some (lease0 1 false)) None) 0 in
  (exists e1 e2 w2,
      dhcpnak (P:=lp64) 2 (reply 77 DHCPNAK []) w
      = state_init (P:=lp64) 2 (live 0 0) w2
      /\ scripts w2 = e2 :: e1 :: scripts w
      /\ In (Env_reason "EXPIRE") e1
      /\ In (Env_params "old_" (lease0 1 false)) e1
      /\ In (Env_reason "PREINIT") e2
      /\ freed w2 = 1%nat :: freed w
      /\ active (deref w2 (live 0 0)) = None
      /\ state (deref w2 (live 0 0)) = S_INIT
      /\ filter (same_timer CB_send_request (live 0 0)) (timeouts w2) = [])
  /\ (exists w' c' p,
         dhcpnak (P:=lp64) 2 (reply 77 DHCPNAK []) w = Running w'
         /\ get_client w' (live 0 0) = Some c'
         /\ state c' = S_SELECTING /\ active c' = None
         /\ sent w' = p :: sent w
         /\ s_to p = iaddr_broadcast
         /\ lookup_option DHO_DHCP_MESSAGE_TYPE (p_options (s_packet p))
            = Some (Some [DHCPDISCOVER])
         /\ freed w' = 1%nat :: freed w)
  /\ dhcpnak (P:=lp64) 2 (reply 77 DHCPNAK []) world0 = Running world0.
Proof.
  cbv zeta. split; [|split].
  - exact (proj1 (nak_with_active_lease_restarts (P:=lp64) lp64_ok) 2%nat
             (reply 77 DHCPNAK [])
             (world_of (client_with S_RENEWING (Some (lease0 1 false)) None)
                0)
             (live 0 0)
             (client_with S_RENEWING (Some (lease0 1 false)) None)
             (lease0 1 false) eq_refl eq_refl eq_refl eq_refl eq_refl
             eq_refl).
  - apply (proj1 (proj2 (nak_with_active_lease_restarts (P:=lp64) lp64_ok))
             0%nat (reply 77 DHCPNAK [])
             (world_of (client_with S_RENEWING (Some (lease0 1 false)) None)
                0)
             (live 0 0)
             (client_with S_RENEWING (Some (lease0 1 false)) None)
             (lease0 1 false)); try reflexivity.
    + cbn. lia.
    + cbn. discriminate.
    + unfold time_max_value. cbn. lia.
  - exact (proj2 (proj2 (nak_with_active_lease_restarts (P:=lp64) lp64_ok))
             2%nat (reply 77 DHCPNAK []) world0 (live 0 0) client0
             eq_refl eq_refl eq_refl).
Defined.

(** ** C7 *)



(** ** C8 *)

Lemma database_rewritten_every_22_writes_witness :
  rewrites (append_writes (repeat (live 0 0, lease0 1 false, true) 44) world0)
  = 2%nat.
Proof.
  exact (database_rewritten_every_22_writes
           (repeat (live 0 0, lease0 1 false, true) 44) world0 eq_refl).
Defined.

(** ** C9 *)

(** A release on a disk where [fsync] fails: [send_release] returns
    without sending, and the active lease, which was to expire at
    5000 s, now ends at 1000 s. *)
Lemma failed_release_changes_the_lease :
  let w := fsync_fails
             (world_of (client_with S_BOUND (Some (lease0 1 false)) None) 0) in
  store_fails w
  /\ exists w',
       send_release (live 0 0) w = Running w'
       /\ sent w' = []
       /\ option_map expiry (active (deref w (live 0 0))) = Some 5000
       /\ option_map expiry (active (deref w' (live 0 0))) = Some 1000
       /\ option_map renewal (active (deref w' (live 0 0))) = Some 1000
       /\ option_map rebind (active (deref w' (live 0 0))) = Some 1000
       /\ active (deref w' (live 0 0)) <> active (deref w (live 0 0)).
Proof.
  cbv zeta. split.
  - right. right. right. reflexivity.
  - eexists. split; [vm_compute; reflexivity|].
    repeat split; try (vm_compute; reflexivity).
    vm_compute. discriminate.
Qed.

Lemma failed_release_write_is_reported_witness :
  let w := fsync_fails
             (world_of (client_with S_BOUND (Some (lease0 1 false)) None) 0) in
  let a' := set_times 1000 1000 1000 (lease0 1 false) in
  exists w' c',
    fst (write_client_lease (live 0 0) a' true true
           (upd_client (live 0 0) (set_active (Some a')) w)) = 0
    /\ send_release (live 0 0) w = Running w'
    /\ sent w' = sent w
    /\ get_client w' (live 0 0) = Some c'
    /\ active c' = Some a'
    /\ set_last_write 0 c'
       = set_last_write 0
           (set_active (Some a')
              (client_with S_BOUND (Some (lease0 1 false)) None))
    /\ db_view w' = db_view (upd_client (live 0 0) (set_active (Some a')) w).
Proof.
  apply (failed_release_write_is_reported (live 0 0)
           (fsync_fails
              (world_of (client_with S_BOUND (Some (lease0 1 false)) None) 0))
           (client_with S_BOUND (Some (lease0 1 false)) None)
           (lease0 1 false)); try reflexivity.
  right. right. right. reflexivity.
Defined.

(** ** C10 *)

(** A commit that the client script refuses, for a client whose
    requested address was empty and whose packet buffer was blank: the
    buffer now holds a DHCPDECLINE, the requested address is the
    address declined and a packet has been sent, so not everything
    but the new lease is left unchanged. *)
Lemma declined_commit_changes_the_packet :
  let c := client_with S_REQUESTING (Some (lease0 1 false))
             (Some (lease0 2 false)) in
  let w := world_of c 1 in
  exists w' c',
    bind_lease (P:=lp64) (live 0 0) w = Running w'
    /\ get_client w' (live 0 0) = Some c'
    /\ requested_address c = [] /\ requested_address c' = [192; 0; 2; 50]
    /\ lookup_option DHO_DHCP_MESSAGE_TYPE (p_options (c_packet c)) = None
    /\ lookup_option DHO_DHCP_MESSAGE_TYPE (p_options (c_packet c'))
       = Some (Some [DHCPDECLINE])
    /\ sent w = [] /\ length (sent w') = 1%nat
    /\ ~ (requested_address c' = requested_address c
          /\ c_packet c' = c_packet c /\ sent w' = sent w).
Proof.
  cbv zeta. eexists. eexists.
  split; [vm_compute; reflexivity|].
  split; [vm_compute; reflexivity|].
  repeat split; try (vm_compute; reflexivity).
  intros (H & _). vm_compute in H. discriminate.
Qed.

Lemma declined_commit_keeps_the_rest_witness :
  let c := client_with S_REQUESTING (Some (lease0 1 false))
             (Some (lease0 2 false)) in
  let w := world_of c 1 in
  exists w' c' pk,
    bind_lease (P:=lp64) (live 0 0) w = Running w'
    /\ get_client w' (live 0 0) = Some c'
    /\ c_packet c' = pk /\ p_xid pk = xid c
    /\ (on_transmission (config c) = None ->
        lookup_option DHO_DHCP_MESSAGE_TYPE (p_options pk)
        = Some (Some [DHCPDECLINE])
        /\ lookup_option DHO_DHCP_REQUESTED_ADDRESS (p_options pk)
           = Some (Some (address (lease0 2 false))))
    /\ requested_address c' = address (lease0 2 false)
    /\ sent w'
       = {| s_via_fallback := false; s_interface := 0; s_packet := pk;
            s_from := iaddr_any; s_to := iaddr_broadcast |} :: sent w
    /\ new c' = None
    /\ freed w' = 2%nat :: freed w
    /\ c' = set_c_packet pk
              (set_requested_address (address (lease0 2 false))
                 (set_env [] (set_new None c)))
    /\ active c' = Some (lease0 1 false)
    /\ state c' = S_REQUESTING
    /\ last_write c' = last_write c
    /\ leaseFile w' = leaseFile w
    /\ leases_written w' = leases_written w
    /\ rewrites w' = rewrites w
    /\ (forall r', r' <> live 0 0 -> get_client w' r' = get_client w r')
    /\ filter (same_timer CB_state_init (live 0 0)) (timeouts w')
       = [{| t_when := {| tv_sec := tadd (P:=lp64) 1001 10; tv_usec := 5 |};
             t_func := CB_state_init; t_what := live 0 0 |}]
    /\ (forall t, same_timer CB_state_init (live 0 0) t = false ->
                  In t (timeouts w') <-> In t (timeouts w)).
Proof.
  apply (declined_commit_keeps_the_rest (P:=lp64) (live 0 0)
           (world_of (client_with S_REQUESTING (Some (lease0 1 false))
                        (Some (lease0 2 false))) 1)
           (client_with S_REQUESTING (Some (lease0 1 false))
              (Some (lease0 2 false)))
           (lease0 2 false)); try reflexivity.
  cbn. discriminate.
Defined.

(** ** Option values, script variables, requests and releases at
    concrete inputs *)

Lemma check_option_values_screens_witness :
  (1 <= 18)%N
  /\ forallb root_path_char
       (examined (list_ascii_of_string "host-1.example.org") 18) = true.
Proof.
  apply (check_option_values_screens false true (Some dhcp_universe)
           DHO_HOST_NAME (list_ascii_of_string "host-1.example.org") 18%N).
  - right. reflexivity.
  - left. reflexivity.
  - vm_compute. reflexivity.
Defined.

Lemma dhcp_option_ev_name_fits_witness :
  let o := {| o_name := list_ascii_of_string "domain-name-servers";
              o_universe := dhcp_universe |} in
  let r := dhcp_option_ev_name 32 o in
  (fst r = 1 \/ fst r = 0)
  /\ (fst r = 1 <-> (N.of_nat (length (ev_name o)) < 32)%N)
  /\ (fst r = 1 -> snd r = map dash_to_underscore (ev_name o) ++ [NUL])
  /\ (N.of_nat (length (snd r)) <= 32)%N.
Proof.
  cbv zeta.
  apply (dhcp_option_ev_name_fits 32
           {| o_name := list_ascii_of_string "domain-name-servers";
              o_universe := dhcp_universe |}).
  reflexivity.
Defined.

Lemma add_to_tail_one_per_address_witness :
  let ls := [lease0 1 false; lease0 2 true] in
  let l := lease0 3 false in
  let ls' := fst (add_to_tail ls (Some l) world0) in
  let w' := snd (add_to_tail ls (Some l) world0) in
  one_per_address ls'
  /\ (exists rest, ls' = rest ++ [l] /\ forall x, In x rest -> In x ls)
  /\ (forall x, In x ls ->
                is_static x <> is_static l \/ address x <> address l ->
                In x ls')
  /\ (w' = world0
      \/ exists x, In x ls /\ is_static x = is_static l
                   /\ address x = address l
                   /\ w' = destroy_client_lease x world0).
Proof.
  cbv zeta.
  apply (add_to_tail_one_per_address [lease0 1 false; lease0 2 true]
           (lease0 3 false) world0).
  unfold one_per_address. constructor.
  - constructor; [|constructor]. cbn. discriminate.
  - constructor; constructor.
Defined.

Lemma make_request_fields_witness :
  let r := live 0 0 in
  let lease := lease0 3 false in
  exists c',
    get_client (make_request r lease world0) r = Some c'
    /\ state c' = S_REQUESTING /\ xid c' = 77 /\ active c' = None
    /\ let pk := c_packet c' in
       let sid := lookup_option DHO_DHCP_SERVER_IDENTIFIER (p_options pk) in
       let rip := lookup_option DHO_DHCP_REQUESTED_ADDRESS (p_options pk) in
       op pk = BOOTREQUEST /\ p_xid pk = 77
       /\ lookup_option DHO_DHCP_MESSAGE_TYPE (p_options pk)
          = Some (Some [DHCPREQUEST])
       /\ sent_options c' = p_options pk
       /\ (S_REQUESTING = S_REQUESTING ->
           ciaddr pk = iaddr_any /\ rip = Some (Some (address lease))
           /\ sid = lookup_option DHO_DHCP_SERVER_IDENTIFIER
                      (l_options lease)
           /\ requested_address c' = address lease)
       /\ (S_REQUESTING = S_REBOOTING ->
           ciaddr pk = iaddr_any /\ rip = Some (Some (address lease))
           /\ sid = None /\ requested_address c' = address lease)
       /\ (S_REQUESTING = S_BOUND \/ S_REQUESTING = S_RENEWING
           \/ S_REQUESTING = S_REBINDING ->
           ciaddr pk = address lease /\ rip = None /\ sid = None
           /\ flags pk = 0 /\ requested_address c' = []).
Proof.
  exact (make_request_fields (live 0 0) (lease0 3 false) world0 client0
           eq_refl eq_refl).
Defined.

Lemma state_bound_renews_witness :
  let r := live 0 0 in
  let a := lease0 3 false in
  let c := client_with S_BOUND (Some a) None in
  let w := world_of c 0 in
  exists w' c' p,
    state_bound (P:=lp64) 2 r w = Running w'
    /\ get_client w' r = Some c'
    /\ state c' = S_RENEWING /\ active c' = Some a
    /\ sent w' = p :: sent w
    /\ lookup_option DHO_DHCP_MESSAGE_TYPE (p_options (s_packet p))
       = Some (Some [DHCPREQUEST])
    /\ ciaddr (s_packet p) = address a
    /\ p_xid (s_packet p) = xid c /\ xid c' = xid c
    /\ s_from p = firstn 4 (address a)
    /\ s_to p = (if rebind a <? cur_time w then iaddr_broadcast
                 else firstn 4 (server_of a))
    /\ scripts w' = scripts w /\ freed w' = freed w
    /\ exists tv,
         filter (same_timer CB_send_request r) (timeouts w')
         = [{| t_when := tv; t_func := CB_send_request; t_what := r |}].
Proof.
  cbv zeta.
  apply (state_bound_renews (P:=lp64) 0 (live 0 0)
           (world_of (client_with S_BOUND (Some (lease0 3 false)) None) 0)
           (client_with S_BOUND (Some (lease0 3 false)) None)
           (lease0 3 false) lp64_ok); try reflexivity.
  - cbn. lia.
  - cbn. discriminate.
  - unfold time_max_value. cbn. lia.
Defined.

Lemma send_request_expires_witness :
  let r := live 0 0 in
  let a := set_times 500 500 500 (lease0 3 false) in
  let c := client_with S_RENEWING (Some a) None in
  let w := world_of c 0 in
  exists e1 e2 w2,
    send_request (P:=lp64) 1 r w = state_init (P:=lp64) 0 r w2
    /\ scripts w2 = e2 :: e1 :: scripts w
    /\ In (Env_reason "EXPIRE") e1 /\ In (Env_params "old_" a) e1
    /\ In (Env_reason "PREINIT") e2
    /\ get_client w2 r = Some (set_state S_INIT (set_env [] c))
    /\ freed w2 = freed w /\ sent w2 = sent w /\ timeouts w2 = timeouts w.
Proof.
  cbv zeta.
  apply (send_request_expires (P:=lp64) 0 (live 0 0)
           (world_of (client_with S_RENEWING
                        (Some (set_times 500 500 500 (lease0 3 false)))
                        None) 0)
           (client_with S_RENEWING
              (Some (set_times 500 500 500 (lease0 3 false))) None)
           (set_times 500 500 500 (lease0 3 false))); try reflexivity.
  left. reflexivity.
Defined.

Lemma state_selecting_requests_witness :
  let r := live 0 0 in
  let picked := lease0 3 false in
  let others := [lease0 4 false] in
  let c := set_offered_leases (picked :: others)
             (client_with S_SELECTING None None) in
  let w := world_of c 0 in
  exists w' c' p,
    state_selecting (P:=lp64) 1 r w = Running w'
    /\ get_client w' r = Some c'
    /\ state c' = S_REQUESTING /\ offered_leases c' = []
    /\ xid c' = xid c /\ active c' = active c
    /\ freed w' = l_ptr picked :: rev (map l_ptr others) ++ freed w
    /\ scripts w' = scripts w
    /\ sent w' = p :: sent w
    /\ s_to p = iaddr_broadcast /\ s_from p = iaddr_any
    /\ lookup_option DHO_DHCP_MESSAGE_TYPE (p_options (s_packet p))
       = Some (Some [DHCPREQUEST])
    /\ lookup_option DHO_DHCP_REQUESTED_ADDRESS (p_options (s_packet p))
       = Some (Some (address picked))
    /\ lookup_option DHO_DHCP_SERVER_IDENTIFIER (p_options (s_packet p))
       = lookup_option DHO_DHCP_SERVER_IDENTIFIER (l_options picked)
    /\ ciaddr (s_packet p) = iaddr_any
    /\ p_xid (s_packet p) = xid c
    /\ filter (same_timer CB_state_selecting r) (timeouts w') = []
    /\ filter (same_timer CB_send_discover r) (timeouts w') = []
    /\ exists tv,
         filter (same_timer CB_send_request r) (timeouts w')
         = [{| t_when := tv; t_func := CB_send_request; t_what := r |}].
Proof.
  cbv zeta.
  apply (state_selecting_requests (P:=lp64) 0 (live 0 0)
           (world_of (set_offered_leases [lease0 3 false; lease0 4 false]
                        (client_with S_SELECTING None None)) 0)
           (set_offered_leases [lease0 3 false; lease0 4 false]
              (client_with S_SELECTING None None))
           (lease0 3 false) [lease0 4 false] lp64_ok); try reflexivity.
  - cbn. lia.
  - cbn. discriminate.
  - unfold time_max_value. cbn. lia.
Defined.

Lemma do_release_stops_witness :
  let r := live 0 0 in
  let a := lease0 3 false in
  let c := client_with S_BOUND (Some a) None in
  let w := world_of c 0 in
  let a' := set_times (cur_time w) (cur_time w) (cur_time w) a in
  exists w' c' p e,
    do_release r w = Running w'
    /\ get_client w' r = Some c'
    /\ state c' = S_STOPPED
    /\ active c' = Some a'
    /\ leaseFile w'
       = Some ([] ++ [DB_lease (if_name (iface_of w r)) (c_name c) a'])
    /\ sent w' = p :: sent w
    /\ s_from p = firstn 4 (address a)
    /\ s_to p = firstn 4 (server_of a)
    /\ ciaddr (s_packet p) = address a
    /\ lookup_option DHO_DHCP_MESSAGE_TYPE (p_options (s_packet p))
       = Some (Some [DHCPRELEASE])
    /\ lookup_option DHO_DHCP_SERVER_IDENTIFIER (p_options (s_packet p))
       = lookup_option DHO_DHCP_SERVER_IDENTIFIER (l_options a)
    /\ scripts w' = e :: scripts w
    /\ In (Env_reason "RELEASE") e /\ In (Env_params "old_" a') e
    /\ freed w' = freed w
    /\ (forall g, In g release_cancels ->
                  filter (same_timer g r) (timeouts w') = [])
    /\ (forall t, In t (timeouts w') <->
                  In t (timeouts w)
                  /\ forall g, In g release_cancels ->
                               same_timer g r t = false).
Proof.
  cbv zeta.
  exact (do_release_stops (live 0 0)
           (world_of (client_with S_BOUND (Some (lease0 3 false)) None) 0)
           (client_with S_BOUND (Some (lease0 3 false)) None)
           (lease0 3 false) [] eq_refl eq_refl eq_refl eq_refl eq_refl
           eq_refl eq_refl eq_refl eq_refl).
Defined.

Lemma do_release_without_lease_witness :
  let r := live 0 0 in
  exists w' c',
    do_release r world0 = Running w'
    /\ get_client w' r = Some c'
    /\ state c' = S_STOPPED /\ active c' = None
    /\ sent w' = sent world0 /\ scripts w' = scripts world0
    /\ leaseFile w' = leaseFile world0 /\ freed w' = freed world0
    /\ (forall g, In g release_cancels ->
                  filter (same_timer g r) (timeouts w') = [])
    /\ (forall t, In t (timeouts w') <->
                  In t (timeouts world0)
                  /\ forall g, In g release_cancels ->
                               same_timer g r t = false).
Proof.
  exact (do_release_without_lease (live 0 0) world0 client0 eq_refl eq_refl).
Defined.
